(** * Mount orchestration of init's built-in commands (init/builtins.c)

    A shallow embedding of [do_mount] and [do_mount_all] together with the
    keyword table [mount_flags], and the properties of the mount subsystem
    checked against it.

    Conventions of the embedding:
    - a C string is a [string]; [strcmp(a, b) == 0] is [String.eqb a b] and
      [strncmp(a, b, n) == 0] is [strncmp_eq a b n];
    - a C [int] or [unsigned] is a [Z]; the arithmetic of the file (the OR
      of flag bits, the slot counter) stays far inside the 32-bit range, so
      no wrap-around is written out;
    - [args] is the token list handed over by the script parser, [nargs] is
      its length, [args[0]] is the command name;
    - calls that leave the file (system calls, libcutils, fs_mgr, the
      property service, the action queue) are answered by a [world] and
      recorded, in the order they happen, in the trace of the [state];
    - the log macros [ERROR], [INFO] and [printf] have no effect on the
      control flow and are left out. *)

From stdpp Require Import base numbers list strings pretty.
From Stdlib Require Import ZArith Lia Ascii.

Local Open Scope string_scope.
Local Open Scope list_scope.
Local Open Scope Z_scope.

(** ** C strings *)

(** [strncmp(a, b, n) == 0]: the first [n] characters agree, where reaching
    the terminating NUL of both strings at once ends the comparison. *)
Fixpoint strncmp_eq (a b : string) (n : nat) : bool :=
  match n with
  | O => true
  | S n' =>
      match a, b with
      | EmptyString, EmptyString => true
      | String x a', String y b' =>
          if Ascii.eqb x y then strncmp_eq a' b' n' else false
      | _, _ => false
      end
  end.

(** [s + n]: the string that starts [n] characters into [s]. *)
Fixpoint str_offset (s : string) (n : nat) : string :=
  match n with
  | O => s
  | S n' => match s with
            | EmptyString => EmptyString
            | String _ s' => str_offset s' n'
            end
  end.

(** ** The keyword table *)

Module MS.
(** Mount flag bits of <sys/mount.h>. *)
Definition RDONLY : Z := 1.
Definition NOSUID : Z := 2.
Definition NODEV : Z := 4.
Definition NOEXEC : Z := 8.
Definition REMOUNT : Z := 32.
Definition NOATIME : Z := 1024.
Definition NODIRATIME : Z := 2048.
Definition BIND : Z := 4096.
Definition REC : Z := 16384.
Definition UNBINDABLE : Z := Z.shiftl 1 17.
Definition PRIVATE : Z := Z.shiftl 1 18.
Definition SLAVE : Z := Z.shiftl 1 19.
Definition SHARED : Z := Z.shiftl 1 20.
End MS.

(** [mount_flags[]], without its all-zero terminator entry. *)
Definition mount_flags : list (string * Z) :=
  [ ("noatime",    MS.NOATIME);
    ("noexec",     MS.NOEXEC);
    ("nosuid",     MS.NOSUID);
    ("nodev",      MS.NODEV);
    ("nodiratime", MS.NODIRATIME);
    ("ro",         MS.RDONLY);
    ("rw",         0);
    ("remount",    MS.REMOUNT);
    ("bind",       MS.BIND);
    ("rec",        MS.REC);
    ("unbindable", MS.UNBINDABLE);
    ("private",    MS.PRIVATE);
    ("slave",      MS.SLAVE);
    ("shared",     MS.SHARED);
    ("defaults",   0) ].

(** The inner [for (i = 0; mount_flags[i].name; i++)] loop: the flag of the
    first entry whose name is [tok], or [None] when the scan reaches the
    terminator. *)
Fixpoint lookup_flag (tbl : list (string * Z)) (tok : string) : option Z :=
  match tbl with
  | [] => None
  | (name, flag) :: tbl' =>
      if String.eqb tok name then Some flag else lookup_flag tbl' tok
  end.

(** The locals [flags], [wait] and [options] of [do_mount]. *)
Record mount_opts : Type := MountOpts {
  mo_flags : Z;
  mo_wait : bool;
  mo_options : option string
}.

Definition no_opts : mount_opts := MountOpts 0 false None.

(** One round of the outer loop on [args[n]]; [last] is [n + 1 == nargs]. *)
Definition parse_token (tok : string) (last : bool) (acc : mount_opts)
  : mount_opts :=
  match lookup_flag mount_flags tok with
  | Some flag =>
      MountOpts (Z.lor (mo_flags acc) flag) (mo_wait acc) (mo_options acc)
  | None =>
      if String.eqb tok "wait" then
        MountOpts (mo_flags acc) true (mo_options acc)
      else if last then
        MountOpts (mo_flags acc) (mo_wait acc) (Some tok)
      else acc
  end.

(** [for (n = 4; n < nargs; n++)] over the tokens [args[4 ..]]. *)
Fixpoint parse_tokens (toks : list string) (acc : mount_opts) : mount_opts :=
  match toks with
  | [] => acc
  | tok :: rest =>
      parse_tokens rest
        (parse_token tok (match rest with [] => true | _ => false end) acc)
  end.

Definition parse_mount_args (toks : list string) : mount_opts :=
  parse_tokens toks no_opts.

(** ** The world outside builtins.c *)

(** Calls that leave the file, with their arguments and what they returned,
    in the order in which they happen. *)
Inductive event : Type :=
| EvMtdNameToNumber (name : string) (r : Z)
| EvInandNameToNumber (name : string) (r : Z)
| EvUsleep (usec : Z)
| EvWaitForFile (path : string) (timeout : Z) (r : Z)
| EvMount (source target fstype : string) (flags : Z)
          (data : option string) (r : Z)
| EvMakeExt4fs (dev : string) (len : Z) (mountpoint : string) (r : Z)
| EvPropertyGet (key : string)
| EvPropertySet (key value : string)
| EvActionForEachTrigger (trigger : string)
| EvFork (pid : Z)
| EvWaitpid (pid status : Z)
| EvKlogSetLevel (level : Z)
| EvFsMgrReadFstab (path : string)
| EvFsMgrMountAll (fstab : string) (r : Z)
| EvFsMgrFreeFstab (fstab : string).

(** What an open descriptor refers to. *)
Inductive file : Type :=
| FPath (path : string)
| FLoop (slot : nat).

Global Instance file_eq_dec : EqDecision file.
Proof. solve_decision. Defined.

(** The answers of the environment.  An answer that can change while the
    command runs (the hardware enumerating, a mount retried after a format)
    is indexed by the number of earlier calls of the same kind. *)
Record world : Type := World {
  (** [mtd_name_to_number(name)]: partition index, negative when unknown *)
  w_mtd : string -> Z;
  (** [inand_name_to_number(name)] at the k-th lookup *)
  w_inand : nat -> string -> Z;
  (** [wait_for_file(path, timeout)]: 0 once the path exists, negative on
      timeout *)
  w_wait_for_file : string -> Z -> Z;
  (** does the k-th [mount(2)] call succeed *)
  w_mount : nat -> string -> string -> string -> Z -> option string -> bool;
  (** [make_ext4fs(dev, 0, mountpoint, ...)]: 0 on success *)
  w_make_ext4fs : string -> string -> Z;
  (** can [open(path, mode)] open this file (other than a loop device) *)
  w_openable : string -> Z -> bool;
  (** what [fork()] returns to the process that is followed *)
  w_fork : Z;
  (** the wait status that [waitpid] stores *)
  w_wstatus : Z;
  (** [fs_mgr_mount_all(fstab)] *)
  w_fs_mgr_mount_all : string -> Z;
  (** the constant [COMMAND_RETRY_TIMEOUT] of init.h *)
  COMMAND_RETRY_TIMEOUT : Z;
  (** the errno that a failing [open(path, mode)] sets *)
  w_open_errno : string -> Z -> Z;
  (** [ioctl(loop, LOOP_SET_FD, fd)] on the unconfigured device [n] with the
      backing file behind [fd]: [None] when the device takes the file, or
      the errno of the failure (another process was faster, the file cannot
      back a loop device) *)
  w_loop_set_fd : nat -> file -> option Z
}.

(** The state of the process and of the kernel objects it touches. *)
Record state : Type := State {
  st_trace : list event;
  (** the descriptor table of the process *)
  st_fds : list (Z * file);
  (** the loop devices /dev/block/loop0, loop1, ...: [None] is an
      unconfigured device, [Some f] one bound to the backing file [f] *)
  st_loops : list (option file);
  st_errno : Z
}.

Definition ENOENT : Z := 2.
Definition ENXIO : Z := 6.
Definition EBADF : Z := 9.
Definition EBUSY : Z := 16.
Definition ENOTTY : Z := 25.
Definition O_RDONLY : Z := 0.
Definition O_RDWR : Z := 2.

(** How a piece of code can end. *)
Inductive outcome (A : Type) : Type :=
| Value (a : A) (s : state)       (** fell through to the next statement *)
| Return (r : Z) (s : state)      (** a [return r;] of the C function *)
| Exit (code : Z) (s : state)     (** the process called [exit(code)] *)
| Undefined (s : state)           (** undefined behaviour in C *)
| OutOfFuel (s : state).          (** still looping when the fuel ran out *)

Arguments Value {A} a s.
Arguments Return {A} r s.
Arguments Exit {A} code s.
Arguments Undefined {A} s.
Arguments OutOfFuel {A} s.

Definition M (A : Type) : Type := state -> outcome A.

Definition value {A : Type} (a : A) : M A := fun s => Value a s.

Definition bind {A B : Type} (m : M A) (k : A -> M B) : M B :=
  fun s =>
    match m s with
    | Value a s' => k a s'
    | Return r s' => Return r s'
    | Exit c s' => Exit c s'
    | Undefined s' => Undefined s'
    | OutOfFuel s' => OutOfFuel s'
    end.

Notation "x <- m ;; k" := (bind m (fun x => k))
  (at level 100, m at next level, k at level 200, right associativity).
Notation "m ;; k" := (bind m (fun _ => k))
  (at level 100, k at level 200, right associativity).

Definition return_ {A : Type} (r : Z) : M A := fun s => Return r s.
Definition exit {A : Type} (code : Z) : M A := fun s => Exit code s.
Definition undefined {A : Type} : M A := fun s => Undefined s.
Definition out_of_fuel {A : Type} : M A := fun s => OutOfFuel s.

(** [if (b) { m }] *)
Definition when (b : bool) (m : M unit) : M unit :=
  if b then m else value tt.

(** The state in which a piece of code ended. *)
Definition final_state {A : Type} (o : outcome A) : state :=
  match o with
  | Value _ s | Return _ s | Exit _ s | Undefined s | OutOfFuel s => s
  end.

Definition record (e : event) (s : state) : state :=
  State (st_trace s ++ [e]) (st_fds s) (st_loops s) (st_errno s).

Definition emit (e : event) : M unit := fun s => Value tt (record e s).

Definition set_errno (e : Z) (s : state) : state :=
  State (st_trace s) (st_fds s) (st_loops s) e.

Definition get_errno : M Z := fun s => Value (st_errno s) s.

(** *** Calls answered by the world *)

Definition is_mount (e : event) : bool :=
  match e with EvMount _ _ _ _ _ _ => true | _ => false end.

Definition is_inand_lookup (e : event) : bool :=
  match e with EvInandNameToNumber _ _ => true | _ => false end.

Definition is_make_ext4fs (e : event) : bool :=
  match e with EvMakeExt4fs _ _ _ _ => true | _ => false end.

Definition count_events (p : event -> bool) (tr : list event) : nat :=
  length (List.filter p tr).

Definition mtd_name_to_number (w : world) (name : string) : M Z :=
  fun s => let r := w_mtd w name in
           Value r (record (EvMtdNameToNumber name r) s).

Definition inand_name_to_number (w : world) (name : string) : M Z :=
  fun s => let r := w_inand w (count_events is_inand_lookup (st_trace s)) name in
           Value r (record (EvInandNameToNumber name r) s).

Definition usleep (usec : Z) : M unit := emit (EvUsleep usec).

Definition wait_for_file (w : world) (path : string) (timeout : Z) : M Z :=
  fun s => let r := w_wait_for_file w path timeout in
           Value r (record (EvWaitForFile path timeout r) s).

(** [mount(2)]: 0 on success, -1 on error. *)
Definition mount (w : world) (source target fstype : string) (flags : Z)
    (data : option string) : M Z :=
  fun s =>
    let k := count_events is_mount (st_trace s) in
    let r := if w_mount w k source target fstype flags data then 0 else -1 in
    Value r (record (EvMount source target fstype flags data r) s).

Definition make_ext4fs (w : world) (dev : string) (len : Z)
    (mountpoint : string) : M Z :=
  fun s => let r := w_make_ext4fs w dev mountpoint in
           Value r (record (EvMakeExt4fs dev len mountpoint r) s).

Definition property_get (key : string) : M unit := emit (EvPropertyGet key).

Definition property_set (key val : string) : M unit :=
  emit (EvPropertySet key val).

(** [action_for_each_trigger(trigger, action_add_queue_tail)] *)
Definition action_for_each_trigger (trigger : string) : M unit :=
  emit (EvActionForEachTrigger trigger).

Definition fork (w : world) : M Z :=
  fun s => Value (w_fork w) (record (EvFork (w_fork w)) s).

Definition waitpid (w : world) (pid : Z) : M Z :=
  fun s => Value (w_wstatus w) (record (EvWaitpid pid (w_wstatus w)) s).

Definition klog_set_level (level : Z) : M unit := emit (EvKlogSetLevel level).

Definition fs_mgr_read_fstab (path : string) : M string :=
  fun s => Value path (record (EvFsMgrReadFstab path) s).

Definition fs_mgr_mount_all (w : world) (fstab : string) : M Z :=
  fun s => let r := w_fs_mgr_mount_all w fstab in
           Value r (record (EvFsMgrMountAll fstab r) s).

Definition fs_mgr_free_fstab (fstab : string) : M unit :=
  emit (EvFsMgrFreeFstab fstab).

(** <sys/wait.h> *)
Definition WTERMSIG (status : Z) : Z := Z.land status 127.
Definition WIFEXITED (status : Z) : bool := WTERMSIG status =? 0.
Definition WEXITSTATUS (status : Z) : Z :=
  Z.shiftr (Z.land status 65280) 8.

(** *** Descriptors and loop devices

    The loop devices that exist are /dev/block/loop0 .. loop<len-1> for the
    [len] entries of [st_loops].  [LOOP_GET_STATUS] fails with [ENXIO] on an
    unconfigured device, [LOOP_SET_FD] binds an unconfigured device to the
    file behind a descriptor unless the world makes it fail, and fails on a
    configured one, [LOOP_CLR_FD] unbinds.  A binding holds its own reference to the backing file: closing
    the descriptor does not undo it. *)

(** [sprintf(tmp, "/dev/block/loop%d", n)] *)
Definition loop_path (n : nat) : string :=
  "/dev/block/loop" +:+ pretty (Z.of_nat n).

Definition loop_of_path (s : state) (path : string) : option nat :=
  fst <$> list_find (fun n => loop_path n = path)
                    (seq 0 (length (st_loops s))).

(** The lowest descriptor number that is not in use, searched from [cand]. *)
Fixpoint lowest_unused (used : list Z) (cand : Z) (fuel : nat) : Z :=
  match fuel with
  | O => cand
  | S fuel' =>
      if bool_decide (cand ∈ used)
      then lowest_unused used (cand + 1) fuel'
      else cand
  end.

Definition alloc_fd (fds : list (Z * file)) : Z :=
  lowest_unused (map fst fds) 0 (length fds).

Fixpoint fd_lookup (fds : list (Z * file)) (fd : Z) : option file :=
  match fds with
  | [] => None
  | (k, f) :: fds' => if k =? fd then Some f else fd_lookup fds' fd
  end.

Definition fd_file (s : state) (fd : Z) : option file :=
  fd_lookup (st_fds s) fd.

Definition install (f : file) : M Z :=
  fun s =>
    let fd := alloc_fd (st_fds s) in
    Value fd (State (st_trace s) ((fd, f) :: st_fds s) (st_loops s)
                    (st_errno s)).

(** What [path] names for [open(path, mode)]: a loop device that exists, or
    a file that the world lets the process open. *)
Definition resolve_path (w : world) (s : state) (path : string) (mode : Z)
  : option file :=
  match loop_of_path s path with
  | Some n => Some (FLoop n)
  | None => if w_openable w path mode then Some (FPath path) else None
  end.

Definition sys_open (w : world) (path : string) (mode : Z) : M Z :=
  fun s =>
    match resolve_path w s path mode with
    | Some f => install f s
    | None => Value (-1) (set_errno (w_open_errno w path mode) s)
    end.

Definition sys_close (fd : Z) : M Z :=
  fun s =>
    match fd_file s fd with
    | Some _ =>
        Value 0 (State (st_trace s)
                       (filter (fun p : Z * file => fst p <> fd) (st_fds s))
                       (st_loops s) (st_errno s))
    | None => Value (-1) (set_errno EBADF s)
    end.

Definition set_loop (n : nat) (b : option file) (s : state) : state :=
  State (st_trace s) (st_fds s) (<[n := b]> (st_loops s)) (st_errno s).

Definition ioctl_LOOP_GET_STATUS (fd : Z) : M Z :=
  fun s =>
    match fd_file s fd with
    | Some (FLoop n) =>
        match st_loops s !! n with
        | Some (Some _) => Value 0 s
        | _ => Value (-1) (set_errno ENXIO s)
        end
    | Some (FPath _) => Value (-1) (set_errno ENOTTY s)
    | None => Value (-1) (set_errno EBADF s)
    end.

Definition ioctl_LOOP_SET_FD (w : world) (fd backing : Z) : M Z :=
  fun s =>
    match fd_file s fd with
    | Some (FLoop n) =>
        match fd_file s backing, st_loops s !! n with
        | Some f, Some None =>
            match w_loop_set_fd w n f with
            | None => Value 0 (set_loop n (Some f) s)
            | Some errno => Value (-1) (set_errno errno s)
            end
        | Some _, _ => Value (-1) (set_errno EBUSY s)
        | None, _ => Value (-1) (set_errno EBADF s)
        end
    | Some (FPath _) => Value (-1) (set_errno ENOTTY s)
    | None => Value (-1) (set_errno EBADF s)
    end.

Definition ioctl_LOOP_CLR_FD (fd : Z) : M Z :=
  fun s =>
    match fd_file s fd with
    | Some (FLoop n) =>
        match st_loops s !! n with
        | Some (Some _) => Value 0 (set_loop n None s)
        | _ => Value (-1) (set_errno ENXIO s)
        end
    | Some (FPath _) => Value (-1) (set_errno ENOTTY s)
    | None => Value (-1) (set_errno EBADF s)
    end.

(** ** do_mount *)

(** The [for (n = 0; ; n++)] scan of the [loop@] branch, entered with the
    backing file open on [fd].  The loop has no exit condition: the
    statements after it ([close(fd)], the "out of loopback devices" message
    and [return -1]) cannot be reached and have no counterpart here. *)
Fixpoint loop_scan (w : world) (fuel : nat) (n : nat) (fd mode : Z)
    (target system : string) (flags : Z) (options : option string)
  : M unit :=
  match fuel with
  | O => out_of_fuel
  | S fuel' =>
      let tmp := loop_path n in
      loop <- sys_open w tmp mode ;;
      when (loop <? 0) (return_ (-1)) ;;
      (* if it is a blank loop device *)
      r <- ioctl_LOOP_GET_STATUS loop ;;
      errno <- get_errno ;;
      when ((r <? 0) && (errno =? ENXIO)) (
        (* if it becomes our loop device *)
        r <- ioctl_LOOP_SET_FD w loop fd ;;
        when (0 <=? r) (
          sys_close fd ;;
          r <- mount w tmp target system flags options ;;
          when (r <? 0) (
            ioctl_LOOP_CLR_FD loop ;;
            sys_close loop ;;
            return_ (-1)) ;;
          sys_close loop ;;
          return_ 0)) ;;
      sys_close loop ;;
      loop_scan w fuel' (S n) fd mode target system flags options
  end.

(** The [do { ... } while (n < 0)] poll of the [inand@] alias. *)
Fixpoint inand_poll (w : world) (fuel : nat) (name : string) : M Z :=
  match fuel with
  | O => out_of_fuel
  | S fuel' =>
      n <- inand_name_to_number w name ;;
      usleep 200000 ;;
      if n <? 0 then inand_poll w fuel' name else value n
  end.

(** [strcpy(tmp, source)] into [char tmp[64]]. *)
Definition strcpy_tmp (source : string) : M string :=
  if (64 <=? String.length source)%nat then undefined else value source.

Definition do_mount_mtd (w : world) (system source target : string)
    (o : mount_opts) : M unit :=
  n <- mtd_name_to_number w (str_offset source 4) ;;
  when (n <? 0) (return_ (-1)) ;;
  let tmp := "/dev/block/mtdblock" +:+ pretty n in
  when (mo_wait o) (wait_for_file w tmp (COMMAND_RETRY_TIMEOUT w) ;; value tt) ;;
  r <- mount w tmp target system (mo_flags o) (mo_options o) ;;
  when (r <? 0) (return_ (-1)) ;;
  return_ 0.

Definition do_mount_ubifs (w : world) (system source target : string)
    (o : mount_opts) : M unit :=
  r <- mount w source target system (mo_flags o) (mo_options o) ;;
  when (r <? 0) (
    r <- mount w source target system (mo_flags o) (mo_options o) ;;
    when (r <? 0) (return_ (-1))) ;;
  return_ 0.

Definition do_mount_loop (w : world) (fuel : nat)
    (system source target : string) (o : mount_opts) : M unit :=
  let mode := if Z.land (mo_flags o) MS.RDONLY =? 0 then O_RDWR else O_RDONLY in
  fd <- sys_open w (str_offset source 5) mode ;;
  when (fd <? 0) (return_ (-1)) ;;
  loop_scan w fuel 0 fd mode target system (mo_flags o) (mo_options o).

(** The [else] branch, in the order of its statements: the optional wait,
    the resolution of [source] into [tmp] ([resolve_source]), and the mount
    with its two follow-ups ([mount_or_recover]). *)
Definition resolve_source (w : world) (fuel : nat) (source : string)
  : M string :=
  if strncmp_eq source "inand@" 6 then
    n <- inand_poll w fuel (str_offset source 6) ;;
    value ("/dev/block/cardblkinand" +:+ pretty n)
  else strcpy_tmp source.

Definition mount_or_recover (w : world) (system target : string)
    (o : mount_opts) (tmp : string) : M unit :=
  mount_result <- mount w tmp target system (mo_flags o) (mo_options o) ;;
  (* if mount cache fail, then format the cache and mount cache again *)
  when ((mount_result <? 0) && strncmp_eq system "ext4" 4
        && strncmp_eq target "/cache" 6) (
    result <- make_ext4fs w tmp 0 target ;;
    (* mount after format *)
    result <- mount w tmp target system (mo_flags o) (mo_options o) ;;
    when (negb (result =? 0)) (return_ (-2))) ;;
  (* if mount data fail, then set prop ro.init.mountdatafail to true *)
  when ((mount_result <? 0) && strncmp_eq target "/data" 5) (
    property_get "ro.init.mountdatafail" ;;
    property_set "ro.init.mountdatafail" "true") ;;
  (* exit_success: *)
  return_ 0.

Definition do_mount_default (w : world) (fuel : nat)
    (system source target : string) (o : mount_opts) : M unit :=
  when (mo_wait o)
    (wait_for_file w source (COMMAND_RETRY_TIMEOUT w) ;; value tt) ;;
  tmp <- resolve_source w fuel source ;;
  mount_or_recover w system target o tmp.

(** [int do_mount(int nargs, char **args)].  [args[1]], [args[2]] and
    [args[3]] are read whatever [nargs] is: with fewer than four tokens the
    behaviour is undefined. *)
Definition do_mount (w : world) (fuel : nat) (args : list string) : M unit :=
  match args with
  | _ :: system :: source :: target :: toks =>
      let o := parse_mount_args toks in
      if strncmp_eq source "mtd@" 4 then
        do_mount_mtd w system source target o
      else if strncmp_eq system "ubifs" 5 then
        do_mount_ubifs w system source target o
      else if strncmp_eq source "loop@" 5 then
        do_mount_loop w fuel system source target o
      else
        do_mount_default w fuel system source target o
  | _ => undefined
  end.

(** ** do_mount_all *)

Definition do_mount_all (w : world) (args : list string) : M unit :=
  match args with
  | [_; path] =>
      pid <- fork w ;;
      ret <- (if 0 <? pid then
                (* Parent.  Wait for the child to return *)
                status <- waitpid w pid ;;
                if WIFEXITED status then value (WEXITSTATUS status)
                else value (-1)
              else if pid =? 0 then
                (* child, call fs_mgr_mount_all() *)
                klog_set_level 6 ;;
                fstab <- fs_mgr_read_fstab path ;;
                child_ret <- fs_mgr_mount_all w fstab ;;
                fs_mgr_free_fstab fstab ;;
                exit child_ret
              else
                (* fork failed, return an error *)
                return_ (-1)) ;;
      (* ret is 1 if the device is encrypted, 0 if not, and -1 on error *)
      (if ret =? 1 then
         property_set "ro.crypto.state" "encrypted" ;;
         property_set "vold.decrypt" "1"
       else if ret =? 0 then
         property_set "ro.crypto.state" "unencrypted" ;;
         action_for_each_trigger "nonencrypted"
       else value tt) ;;
      return_ ret
  | _ => return_ (-1)
  end.

(** ** Reading a run *)

(** The events a run added to the trace it started with. *)
Definition new_events {A : Type} (s : state) (o : outcome A) : list event :=
  drop (length (st_trace s)) (st_trace (final_state o)).

(** [s] after the events [evs]. *)
Definition extend (evs : list event) (s : state) : state :=
  State (st_trace s ++ evs) (st_fds s) (st_loops s) (st_errno s).

(** Did the first [mount(2)] call of a trace fail. *)
Definition first_mount_failed (tr : list event) : bool :=
  match List.filter is_mount tr with
  | EvMount _ _ _ _ _ r :: _ => r <? 0
  | _ => false
  end.

(** Did format recovery run: was [make_ext4fs] called. *)
Definition format_ran (tr : list event) : bool :=
  existsb is_make_ext4fs tr.

Definition is_wait (e : event) : bool :=
  match e with EvWaitForFile _ _ _ => true | _ => false end.

(** No [mount] and no [make_ext4fs] among the events. *)
Definition quiet (evs : list event) : bool :=
  forallb (fun e => negb (is_mount e) && negb (is_make_ext4fs e)) evs.

(** The events of [n] rounds of the inand poll for [name], the first of
    them being lookup number [k]. *)
Fixpoint poll_events (w : world) (k : nat) (name : string) (n : nat)
  : list event :=
  match n with
  | O => []
  | S n' =>
      EvInandNameToNumber name (w_inand w k name) :: EvUsleep 200000
        :: poll_events w (S k) name n'
  end.

(** The wait that precedes the resolution in the [else] branch. *)
Definition wait_events (w : world) (o : mount_opts) (path : string)
  : list event :=
  if mo_wait o
  then [EvWaitForFile path (COMMAND_RETRY_TIMEOUT w)
          (w_wait_for_file w path (COMMAND_RETRY_TIMEOUT w))]
  else [].

(** The three results of a batch mount, read off the value that
    [do_mount_all] hands back. *)
Inductive BatchMountResult : Type := Encrypted | Unencrypted | Error.

Definition batch_mount_result (ret : Z) : BatchMountResult :=
  if ret =? 1 then Encrypted
  else if ret =? 0 then Unencrypted
  else Error.





(** The branch of [do_mount] that neither [mtd@], [ubifs] nor [loop@]
    selects. *)
Definition default_branch (system source : string) : bool :=
  negb (strncmp_eq source "mtd@" 4)
  && negb (strncmp_eq system "ubifs" 5)
  && negb (strncmp_eq source "loop@" 5).

(** ** The parse, as the specification words it *)

Definition matched (tok : string) : bool :=
  existsb (fun e : string * Z => String.eqb tok (fst e)) mount_flags.

(** The bitwise OR of the table entries whose keyword is one of the
    tokens. *)
Definition spec_flags (toks : list string) : Z :=
  foldr Z.lor 0
    (flat_map (fun tok =>
       map snd (filter (fun e : string * Z => String.eqb tok (fst e) = true)
                       mount_flags)) toks).

(** Some unmatched token is the literal "wait". *)
Definition spec_wait (toks : list string) : bool :=
  existsb (fun tok => negb (matched tok) && String.eqb tok "wait") toks.

(** The last token, when it is unmatched and is not "wait". *)
Definition spec_options (toks : list string) : option string :=
  match last toks with
  | Some tok =>
      if negb (matched tok) && negb (String.eqb tok "wait")
      then Some tok else None
  | None => None
  end.

(** ** Scenarios *)

Definition boot_state : state := State [] [] [] 0.

(** A world in which every lookup fails, no path ever appears, every mount
    fails and nothing can be opened. *)
Definition bleak_world : world :=
  World (fun _ => -1) (fun _ _ => -1) (fun _ _ => -1)
        (fun _ _ _ _ _ _ => false) (fun _ _ => -1) (fun _ _ => false)
        (-1) 0 (fun _ => -1) 5
        (fun _ _ => ENOENT) (fun _ _ => None).

(** The waited-for path never appears; only a tmpfs mount succeeds; the
    mtd partitions "system" and "cache" have the indices 3 and 4. *)
Definition never_appears_world : world :=
  World (fun name => if String.eqb name "system" then 3
                     else if String.eqb name "cache" then 4 else -1)
        (fun _ _ => -1) (fun _ _ => -1)
        (fun _ _ _ fstype _ _ => String.eqb fstype "tmpfs")
        (fun _ _ => -1) (fun _ _ => false) (-1) 0 (fun _ => -1) 5
        (fun _ _ => ENOENT) (fun _ _ => None).

(** The first mount fails, [make_ext4fs] answers [mkfs], every later mount
    succeeds iff [retry_ok]. *)
Definition cache_world (mkfs : Z) (retry_ok : bool) : world :=
  World (fun _ => -1) (fun _ _ => -1) (fun _ _ => 0)
        (fun k _ _ _ _ _ => match k with O => false | _ => retry_ok end)
        (fun _ _ => mkfs) (fun _ _ => false) (-1) 0 (fun _ => -1) 5
        (fun _ _ => ENOENT) (fun _ _ => None).

(** The inand partition table shows up at the third lookup, with "system"
    at index 2. *)
Definition inand_world : world :=
  World (fun _ => -1)
        (fun k name => if (2 <=? k)%nat && String.eqb name "system"
                       then 2 else -1)
        (fun _ _ => 0) (fun _ _ _ _ _ _ => true) (fun _ _ => 0)
        (fun _ _ => false) (-1) 0 (fun _ => -1) 5
        (fun _ _ => ENOENT) (fun _ _ => None).

(** The image file /data/fs.img can be opened; mounts succeed iff
    [mount_ok]. *)
Definition image_world (mount_ok : bool) : world :=
  World (fun _ => -1) (fun _ _ => -1) (fun _ _ => 0)
        (fun _ _ _ _ _ _ => mount_ok) (fun _ _ => 0)
        (fun path _ => String.eqb path "/data/fs.img")
        (-1) 0 (fun _ => -1) 5
        (fun _ _ => ENOENT) (fun _ _ => None).


(** Every loop device is taken. *)
Definition busy_loops : state :=
  State [] [] [Some (FPath "/system/a.img")] 0.



(** The parent of a fork whose child ends with wait status [status]. *)
Definition parent_world (status : Z) : world :=
  World (fun _ => -1) (fun _ _ => -1) (fun _ _ => 0)
        (fun _ _ _ _ _ _ => true) (fun _ _ => 0) (fun _ _ => false)
        1234 status (fun _ => 0) 5
        (fun _ _ => ENOENT) (fun _ _ => None).

(** * The other built-ins

    [write_file], [_open], [_chown], [_chmod], [insmod], [__ifupdown] and the
    built-ins [do_chown], [do_chmod], [do_copy], [do_powerctl],
    [do_confirm_formated], [do_ubiattach], [do_ifup], [do_insmod] and
    [do_mkdir].  They call further functions that leave the file.  Their
    calls are recorded in one trace together with the events above (wrapped
    in [Old]), and the code of the first part is run on that richer state
    through [lift].  Where a value is stored in a narrower type ([mode_t],
    [short], the [int] that holds a file size) the conversion is written
    out. *)

Inductive reboot_cmd : Type := ANDROID_RB_POWEROFF | ANDROID_RB_RESTART2.

(** What [read(2)] and [write(2)] answer: a byte count, or -1 with errno. *)
Inductive answer : Type :=
| Ok (n : Z)
| Err (errno : Z).

Inductive xevent : Type :=
| Old (e : event)
| EvExpandProps (src : string) (dst : option string)
| EvAndroidReboot (cmd : reboot_cmd) (flags : Z) (arg : string) (r : Z)
| EvFchown (f : file) (uid gid : Z) (failure : option Z)
| EvFchmod (f : file) (mode : Z) (failure : option Z)
| EvWrite (f : file) (value : string) (count : Z) (a : answer)
| EvStat (path : string) (size : option Z)
| EvMalloc (size : Z) (ok : bool)
| EvFree
| EvRead (f : file) (count : Z) (a : answer)
| EvWriteBuffer (f : file) (count : Z) (a : answer)
| EvFsync (f : file)
| EvUmount (target : string) (failure : option Z)
| EvLibubiOpen (ok : bool)
| EvUbiGetInfo (err ctrl_major : Z)
| EvUbiAttach (node : string) (mtd_num : Z) (err : Z)
| EvLibubiClose
| EvMakeDir (path : string) (mode : Z) (failure : option Z)
| EvReadFile (filename : string) (size : option Z)
| EvInitModule (filename : string) (size : Z) (options : string) (r : Z)
| EvGetFlags (name : string) (a : answer)
| EvSetFlags (name : string) (flags : Z) (failure : option Z).

(** The answers of the environment to the further calls.  A call that
    returns 0 or -1 answers [None] for success or [Some errno]. *)
Record xworld : Type := XWorld {
  xw_base : world;
  (** [expand_props(dst, src, size)]: the expansion, or [None] when it
      fails *)
  xw_expand_props : string -> option string;
  xw_android_reboot : reboot_cmd -> Z -> string -> Z;
  (** [decode_uid(name)] *)
  xw_decode_uid : string -> Z;
  xw_fchown : file -> Z -> Z -> option Z;
  xw_fchmod : file -> Z -> option Z;
  (** the k-th [write(2)] and [read(2)], of [count] bytes *)
  xw_write : nat -> file -> Z -> answer;
  xw_read : nat -> file -> Z -> answer;
  (** [stat(path)]: [st_size], or [None] when it fails *)
  xw_stat : string -> option Z;
  xw_malloc : Z -> bool;
  xw_umount : string -> option Z;
  xw_libubi_open : bool;
  (** [ubi_get_info]: its result and [ctrl_major] *)
  xw_ubi_get_info : Z * Z;
  xw_ubi_attach : string -> Z -> Z;
  (** the width of [mode_t] in bits *)
  mode_bits : Z;
  (** [strtoul(s, 0, base)] *)
  xw_strtoul : string -> Z -> Z;
  (** [make_dir(path, mode)] of util.c *)
  xw_make_dir : string -> Z -> option Z;
  (** [read_file(filename, &size)] of util.c: the size, or [None] for NULL *)
  xw_read_file : string -> option Z;
  (** [init_module] on the content of a file *)
  xw_init_module : string -> Z -> string -> Z;
  (** does [socket(AF_INET, SOCK_DGRAM, 0)] succeed *)
  xw_socket : bool;
  (** [ioctl(s, SIOCGIFFLAGS, &ifr)]: the flags of the interface *)
  xw_get_flags : string -> answer;
  (** [ioctl(s, SIOCSIFFLAGS, &ifr)] *)
  xw_set_flags : string -> Z -> option Z
}.

Record xstate : Type := XState {
  x_trace : list xevent;
  x_fds : list (Z * file);
  x_loops : list (option file);
  x_errno : Z
}.

Inductive xoutcome (A : Type) : Type :=
| XValue (a : A) (x : xstate)
| XReturn (r : Z) (x : xstate)
| XExit (code : Z) (x : xstate)
| XUndefined (x : xstate)
| XOutOfFuel (x : xstate).

Arguments XValue {A} a x.
Arguments XReturn {A} r x.
Arguments XExit {A} code x.
Arguments XUndefined {A} x.
Arguments XOutOfFuel {A} x.

Definition X (A : Type) : Type := xstate -> xoutcome A.

Definition xvalue {A : Type} (a : A) : X A := fun x => XValue a x.

Definition xbind {A B : Type} (m : X A) (k : A -> X B) : X B :=
  fun x =>
    match m x with
    | XValue a x' => k a x'
    | XReturn r x' => XReturn r x'
    | XExit c x' => XExit c x'
    | XUndefined x' => XUndefined x'
    | XOutOfFuel x' => XOutOfFuel x'
    end.

Declare Scope xm_scope.
Notation "x <- m ;; k" := (xbind m (fun x => k))
  (at level 100, m at next level, k at level 200, right associativity)
  : xm_scope.
Notation "m ;; k" := (xbind m (fun _ => k))
  (at level 100, k at level 200, right associativity) : xm_scope.
Local Open Scope xm_scope.

Definition xreturn {A : Type} (r : Z) : X A := fun x => XReturn r x.
Definition xundefined {A : Type} : X A := fun x => XUndefined x.
Definition xout_of_fuel {A : Type} : X A := fun x => XOutOfFuel x.

Definition xwhen (b : bool) (m : X unit) : X unit :=
  if b then m else xvalue tt.

Definition xfinal {A : Type} (o : xoutcome A) : xstate :=
  match o with
  | XValue _ x | XReturn _ x | XExit _ x | XUndefined x | XOutOfFuel x => x
  end.

(** A call of a helper function of the file: its [return r;] is the value
    of the call. *)
Definition call (body : X unit) : X Z :=
  fun x =>
    match body x with
    | XValue _ x' => XUndefined x'
    | XReturn r x' => XValue r x'
    | XExit c x' => XExit c x'
    | XUndefined x' => XUndefined x'
    | XOutOfFuel x' => XOutOfFuel x'
    end.

Definition xrecord (e : xevent) (x : xstate) : xstate :=
  XState (x_trace x ++ [e]) (x_fds x) (x_loops x) (x_errno x).

Definition xemit (e : xevent) : X unit := fun x => XValue tt (xrecord e x).

Definition with_errno (e : Z) (x : xstate) : xstate :=
  XState (x_trace x) (x_fds x) (x_loops x) e.

Definition xget_errno : X Z := fun x => XValue (x_errno x) x.

Definition xset_errno (e : Z) : X unit := fun x => XValue tt (with_errno e x).

(** *** Running the code of the first part *)

Definition base_events (tr : list xevent) : list event :=
  omap (fun e => match e with Old b => Some b | _ => None end) tr.

Definition to_state (x : xstate) : state :=
  State (base_events (x_trace x)) (x_fds x) (x_loops x) (x_errno x).

(** [x] after a piece of the first part ran from [to_state x] to [s']. *)
Definition absorb (x : xstate) (s' : state) : xstate :=
  XState (x_trace x
          ++ map Old (drop (length (base_events (x_trace x))) (st_trace s')))
         (st_fds s') (st_loops s') (st_errno s').

Definition lift {A : Type} (m : M A) : X A :=
  fun x =>
    match m (to_state x) with
    | Value a s' => XValue a (absorb x s')
    | Return r s' => XReturn r (absorb x s')
    | Exit c s' => XExit c (absorb x s')
    | Undefined s' => XUndefined (absorb x s')
    | OutOfFuel s' => XOutOfFuel (absorb x s')
    end.

(** *** The further calls *)

Definition EINTR : Z := 4.
Definition EINVAL : Z := 22.
Definition O_WRONLY : Z := 1.
Definition O_CREAT : Z := 64.
Definition O_TRUNC : Z := 512.
(** [O_NOFOLLOW] of the ARM kernel headers. *)
Definition O_NOFOLLOW : Z := 32768.

Definition is_write (e : xevent) : bool :=
  match e with EvWrite _ _ _ _ | EvWriteBuffer _ _ _ => true | _ => false end.

Definition is_read (e : xevent) : bool :=
  match e with EvRead _ _ _ => true | _ => false end.

Definition count_xevents (p : xevent -> bool) (tr : list xevent) : nat :=
  length (List.filter p tr).

(** The return value of a call that answers 0 or -1, and its errno. *)
Definition answered_failure (e : xevent) (failure : option Z) : X Z :=
  fun x =>
    match failure with
    | None => XValue 0 (xrecord e x)
    | Some errno => XValue (-1) (with_errno errno (xrecord e x))
    end.

(** The return value of [read] or [write] asked for [count] bytes: the
    kernel hands over at most [count]; a negative [int] is passed on as a
    huge [size_t], which bounds nothing. *)
Definition answered_count (e : xevent) (count : Z) (a : answer) : X Z :=
  fun x =>
    match a with
    | Ok n =>
        XValue (if 0 <=? count then Z.max 0 (Z.min n count) else Z.max 0 n)
               (xrecord e x)
    | Err errno => XValue (-1) (with_errno errno (xrecord e x))
    end.

Definition bad_descriptor : X Z :=
  fun x => XValue (-1) (with_errno EBADF x).

Definition expand_props (xw : xworld) (src : string) : X (option string) :=
  fun x => let dst := xw_expand_props xw src in
           XValue dst (xrecord (EvExpandProps src dst) x).

Definition android_reboot (xw : xworld) (cmd : reboot_cmd) (flags : Z)
    (arg : string) : X Z :=
  fun x => let r := xw_android_reboot xw cmd flags arg in
           XValue r (xrecord (EvAndroidReboot cmd flags arg r) x).

Definition fchown (xw : xworld) (fd uid gid : Z) : X Z :=
  fun x =>
    match fd_lookup (x_fds x) fd with
    | Some f =>
        let failure := xw_fchown xw f uid gid in
        answered_failure (EvFchown f uid gid failure) failure x
    | None => bad_descriptor x
    end.

Definition fchmod (xw : xworld) (fd mode : Z) : X Z :=
  fun x =>
    match fd_lookup (x_fds x) fd with
    | Some f =>
        let failure := xw_fchmod xw f mode in
        answered_failure (EvFchmod f mode failure) failure x
    | None => bad_descriptor x
    end.

(** [write(fd, value, len)] of a string. *)
Definition write (xw : xworld) (fd : Z) (value : string) (len : Z) : X Z :=
  fun x =>
    match fd_lookup (x_fds x) fd with
    | Some f =>
        let a := xw_write xw (count_xevents is_write (x_trace x)) f len in
        answered_count (EvWrite f value len a) len a x
    | None => bad_descriptor x
    end.

(** [write(fd, p, count)] out of the copy buffer. *)
Definition write_buffer (xw : xworld) (fd count : Z) : X Z :=
  fun x =>
    match fd_lookup (x_fds x) fd with
    | Some f =>
        let a := xw_write xw (count_xevents is_write (x_trace x)) f count in
        answered_count (EvWriteBuffer f count a) count a x
    | None => bad_descriptor x
    end.

Definition read (xw : xworld) (fd count : Z) : X Z :=
  fun x =>
    match fd_lookup (x_fds x) fd with
    | Some f =>
        let a := xw_read xw (count_xevents is_read (x_trace x)) f count in
        answered_count (EvRead f count a) count a x
    | None => bad_descriptor x
    end.

Definition stat (xw : xworld) (path : string) : X (option Z) :=
  fun x => let size := xw_stat xw path in
           XValue size (xrecord (EvStat path size) x).

Definition malloc (xw : xworld) (size : Z) : X bool :=
  fun x => let ok := xw_malloc xw size in
           XValue ok (xrecord (EvMalloc size ok) x).

Definition free : X unit := xemit EvFree.

Definition fsync (fd : Z) : X Z :=
  fun x =>
    match fd_lookup (x_fds x) fd with
    | Some f => XValue 0 (xrecord (EvFsync f) x)
    | None => bad_descriptor x
    end.

Definition umount (xw : xworld) (target : string) : X Z :=
  fun x => let failure := xw_umount xw target in
           answered_failure (EvUmount target failure) failure x.

Definition libubi_open (xw : xworld) : X bool :=
  fun x => XValue (xw_libubi_open xw)
             (xrecord (EvLibubiOpen (xw_libubi_open xw)) x).

Definition ubi_get_info (xw : xworld) : X (Z * Z) :=
  fun x => let info := xw_ubi_get_info xw in
           XValue info (xrecord (EvUbiGetInfo (fst info) (snd info)) x).

Definition ubi_attach (xw : xworld) (node : string) (mtd_num : Z) : X Z :=
  fun x => let err := xw_ubi_attach xw node mtd_num in
           XValue err (xrecord (EvUbiAttach node mtd_num err) x).

Definition libubi_close : X unit := xemit EvLibubiClose.

(** ** write_file, _open, _chown, _chmod *)

(** The [do { ... } while (ret < 0 && errno == EINTR)] of [write_file]. *)
Fixpoint write_retry (xw : xworld) (fuel : nat) (fd : Z) (value : string)
    (len : Z) : X Z :=
  match fuel with
  | O => xout_of_fuel
  | S fuel' =>
      ret <- write xw fd value len ;;
      errno <- xget_errno ;;
      if (ret <? 0) && (errno =? EINTR)
      then write_retry xw fuel' fd value len
      else xvalue ret
  end.

Definition write_file (xw : xworld) (fuel : nat) (path value : string)
  : X unit :=
  fd <- lift (sys_open (xw_base xw) path
                (Z.lor (Z.lor O_WRONLY O_CREAT) O_NOFOLLOW)) ;;
  xwhen (fd <? 0) (errno <- xget_errno ;; xreturn (- errno)) ;;
  let len := Z.of_nat (String.length value) in
  ret <- write_retry xw fuel fd value len ;;
  lift (sys_close fd) ;;
  if ret <? 0 then errno <- xget_errno ;; xreturn (- errno)
  else xreturn 0.

Definition _open (xw : xworld) (path : string) : X unit :=
  fd <- lift (sys_open (xw_base xw) path (Z.lor O_RDONLY O_NOFOLLOW)) ;;
  fd <- (if fd <? 0
         then lift (sys_open (xw_base xw) path (Z.lor O_WRONLY O_NOFOLLOW))
         else xvalue fd) ;;
  xreturn fd.

Definition _chown (xw : xworld) (path : string) (uid gid : Z) : X unit :=
  fd <- call (_open xw path) ;;
  xwhen (fd <? 0) (xreturn (-1)) ;;
  ret <- fchown xw fd uid gid ;;
  xwhen (ret <? 0) (
    errno_copy <- xget_errno ;;
    lift (sys_close fd) ;;
    xset_errno errno_copy ;;
    xreturn (-1)) ;;
  lift (sys_close fd) ;;
  xreturn 0.

Definition _chmod (xw : xworld) (path : string) (mode : Z) : X unit :=
  fd <- call (_open xw path) ;;
  xwhen (fd <? 0) (xreturn (-1)) ;;
  ret <- fchmod xw fd mode ;;
  xwhen (ret <? 0) (
    errno_copy <- xget_errno ;;
    lift (sys_close fd) ;;
    xset_errno errno_copy ;;
    xreturn (-1)) ;;
  lift (sys_close fd) ;;
  xreturn 0.

(** ** do_chown, get_mode, do_chmod *)

(** [(unsigned int) -1], the id that [fchown] leaves unchanged. *)
Definition no_id : Z := 2 ^ 32 - 1.

Definition do_chown (xw : xworld) (args : list string) : X unit :=
  match args with
  | [_; owner; path] =>
      r <- call (_chown xw path (xw_decode_uid xw owner) no_id) ;;
      xwhen (r <? 0) (errno <- xget_errno ;; xreturn (- errno)) ;;
      xreturn 0
  | [_; owner; group; path] =>
      r <- call (_chown xw path (xw_decode_uid xw owner)
                   (xw_decode_uid xw group)) ;;
      xwhen (r <? 0) (errno <- xget_errno ;; xreturn (- errno)) ;;
      xreturn 0
  | _ => xreturn (-1)
  end.

(** A value stored in a [mode_t] of [bits] bits. *)
Definition to_mode_t (bits : Z) (v : Z) : Z := v mod 2 ^ bits.

Definition is_octal_digit (c : ascii) : bool :=
  (48 <=? nat_of_ascii c)%nat && (nat_of_ascii c <=? 55)%nat.

(** The [while] loop of [get_mode] over the characters of [s], entered
    with [mode]. *)
Fixpoint get_mode_from (bits : Z) (s : string) (mode : Z) : Z :=
  match s with
  | EmptyString => mode
  | String c s' =>
      if is_octal_digit c then
        get_mode_from bits s'
          (to_mode_t bits
             (Z.lor (Z.shiftl mode 3) (Z.of_nat (nat_of_ascii c) - 48)))
      else to_mode_t bits (-1)
  end.

Definition get_mode (bits : Z) (s : string) : Z := get_mode_from bits s 0.

(** [args[1]] and [args[2]] are read whatever [nargs] is. *)
Definition do_chmod (xw : xworld) (args : list string) : X unit :=
  match args with
  | _ :: mode_string :: path :: _ =>
      let mode := get_mode (mode_bits xw) mode_string in
      r <- call (_chmod xw path mode) ;;
      xwhen (r <? 0) (errno <- xget_errno ;; xreturn (- errno)) ;;
      xreturn 0
  | _ => xundefined
  end.

(** ** do_copy *)

(** A C [int] holding [v]. *)
Definition to_int (v : Z) : Z := (v + 2 ^ 31) mod 2 ^ 32 - 2 ^ 31.

(** The first [while (brtr)] loop: [true] when it ends normally, [false]
    for [goto out_err].  [brtr] is an [int]: it holds a negative value when
    [st_size] does not fit, is then handed to [read] as a huge [size_t],
    and [brtr -= rc] overflows once it falls below [INT_MIN], which is
    undefined. *)
Fixpoint copy_read (xw : xworld) (fuel : nat) (fd1 brtr : Z) : X bool :=
  match fuel with
  | O => xout_of_fuel
  | S fuel' =>
      if brtr =? 0 then xvalue true
      else
        rc <- read xw fd1 brtr ;;
        if rc <? 0 then xvalue false
        else if rc =? 0 then xvalue true
        else if brtr - rc <? - 2 ^ 31 then xundefined
        else copy_read xw fuel' fd1 (brtr - rc)
  end.

(** The second loop, [while (brtw)], with the same [int] counter. *)
Fixpoint copy_write (xw : xworld) (fuel : nat) (fd2 brtw : Z) : X bool :=
  match fuel with
  | O => xout_of_fuel
  | S fuel' =>
      if brtw =? 0 then xvalue true
      else
        rc <- write_buffer xw fd2 brtw ;;
        if rc <? 0 then xvalue false
        else if rc =? 0 then xvalue true
        else if brtw - rc <? - 2 ^ 31 then xundefined
        else copy_write xw fuel' fd2 (brtw - rc)
  end.

(** The code from the label [out] on, entered with the current values of
    [buffer], [fd1], [fd2] and [rc]. *)
Definition copy_out (buffer : bool) (fd1 fd2 rc : Z) : X unit :=
  xwhen buffer free ;;
  xwhen (0 <=? fd1) (lift (sys_close fd1) ;; xvalue tt) ;;
  xwhen (0 <=? fd2) (lift (sys_close fd2) ;; xvalue tt) ;;
  xreturn rc.

(** [goto out_err] *)
Definition copy_out_err (buffer : bool) (fd1 fd2 : Z) : X unit :=
  copy_out buffer fd1 fd2 (-1).

Definition do_copy (xw : xworld) (fuel : nat) (args : list string) : X unit :=
  match args with
  | [_; from; to] =>
      info <- stat xw from ;;
      match info with
      | None => xreturn (-1)
      | Some st_size =>
          fd1 <- lift (sys_open (xw_base xw) from O_RDONLY) ;;
          if fd1 <? 0 then copy_out_err false fd1 (-1) else
          fd2 <- lift (sys_open (xw_base xw) to
                         (Z.lor (Z.lor O_WRONLY O_CREAT) O_TRUNC)) ;;
          if fd2 <? 0 then copy_out_err false fd1 fd2 else
          buffer <- malloc xw st_size ;;
          if negb buffer then copy_out_err false fd1 fd2 else
          ok <- copy_read xw fuel fd1 (to_int st_size) ;;
          if negb ok then copy_out_err true fd1 fd2 else
          ok <- copy_write xw fuel fd2 (to_int st_size) ;;
          if negb ok then copy_out_err true fd1 fd2 else
          copy_out true fd1 fd2 0
      end
  | _ => xreturn (-1)
  end.

(** ** do_powerctl *)

Definition do_powerctl (xw : xworld) (args : list string) : X unit :=
  match args with
  | _ :: arg :: _ =>
      res <- expand_props xw arg ;;
      match res with
      | None => xreturn (- EINVAL)
      | Some command =>
          match (if strncmp_eq command "shutdown" 8
                 then Some (ANDROID_RB_POWEROFF, 8%nat)
                 else if strncmp_eq command "reboot" 6
                 then Some (ANDROID_RB_RESTART2, 6%nat)
                 else None) with
          | None => xreturn (- EINVAL)
          | Some (cmd, len) =>
              match str_offset command len with
              | String ","%char reboot_target =>
                  r <- android_reboot xw cmd 0 reboot_target ;; xreturn r
              | EmptyString =>
                  r <- android_reboot xw cmd 0 "" ;; xreturn r
              | _ => xreturn (- EINVAL)
              end
          end
      end
  | _ => xundefined
  end.

(** ** do_confirm_formated *)

Definition do_confirm_formated (xw : xworld) (args : list string) : X unit :=
  match args with
  | _ :: fstype :: dev :: target :: _ =>
      let flags := Z.lor (Z.lor (Z.lor MS.NOATIME MS.NODIRATIME) MS.NOSUID)
                     MS.NODEV in
      let options := Some "noauto_da_alloc" in
      xwhen (strncmp_eq fstype "ext4" 4) (
        result <- lift (mount (xw_base xw) dev target "ext4" flags options) ;;
        result <- (if negb (result =? 0) then
                     result <- lift (make_ext4fs (xw_base xw) dev 0 target) ;;
                     xwhen (negb (result =? 0)) (xreturn (-1)) ;;
                     fd <- lift (sys_open (xw_base xw) dev O_RDWR) ;;
                     xwhen (0 <? fd) (
                       fsync fd ;;
                       lift (sys_close fd) ;;
                       xvalue tt) ;;
                     (* just try *)
                     result <- lift (mount (xw_base xw) dev target "ext4"
                                       flags options) ;;
                     xwhen (negb (result =? 0)) (xreturn (-2)) ;;
                     xvalue result
                   else xvalue result) ;;
        xwhen (result =? 0) (umount xw target ;; xvalue tt)) ;;
      xreturn 0
  | _ => xundefined
  end.

(** ** do_ubiattach *)

Definition DEFAULT_CTRL_DEV : string := "/dev/ubi_ctrl".

Definition do_ubiattach (xw : xworld) (args : list string) : X unit :=
  match args with
  | _ :: target :: _ =>
      n <- (if strncmp_eq target "mtd@" 4 then
              n <- lift (mtd_name_to_number (xw_base xw)
                           (str_offset target 4)) ;;
              xwhen (n <? 0) (xreturn (-1)) ;;
              xvalue n
            else xreturn (-1)) ;;
      libubi <- libubi_open xw ;;
      xwhen (negb libubi) (xreturn (-1)) ;;
      info <- ubi_get_info xw ;;
      xwhen (negb (fst info =? 0)) (libubi_close ;; xreturn (-1)) ;;
      xwhen (snd info =? -1) (libubi_close ;; xreturn (-1)) ;;
      err <- ubi_attach xw DEFAULT_CTRL_DEV n ;;
      xwhen (negb (err =? 0)) (libubi_close ;; xreturn (-1)) ;;
      libubi_close ;;
      xreturn 0
  | _ => xundefined
  end.

(** ** insmod, do_insmod *)









(** ** do_mkdir *)

Definition EEXIST : Z := 17.
Definition S_ISUID : Z := 2048.
Definition S_ISGID : Z := 1024.

Definition make_dir (xw : xworld) (path : string) (mode : Z) : X Z :=
  fun x => let failure := xw_make_dir xw path mode in
           answered_failure (EvMakeDir path mode failure) failure x.

Definition do_mkdir (xw : xworld) (args : list string) : X unit :=
  match args with
  | _ :: path :: more =>
      (* mkdir <path> [mode] [owner] [group] *)
      let mode := match more with
                  | mode_string :: _ =>
                      to_mode_t (mode_bits xw) (xw_strtoul xw mode_string 8)
                  | [] => 493
                  end in
      ret <- make_dir xw path mode ;;
      errno <- xget_errno ;;
      (* chmod in case the directory already exists *)
      ret <- (if (ret =? -1) && (errno =? EEXIST)
              then call (_chmod xw path mode)
              else xvalue ret) ;;
      xwhen (ret =? -1) (errno <- xget_errno ;; xreturn (- errno)) ;;
      match more with
      | _ :: owner :: groups =>
          let uid := xw_decode_uid xw owner in
          let gid := match groups with
                     | [group] => xw_decode_uid xw group
                     | _ => no_id
                     end in
          r <- call (_chown xw path uid gid) ;;
          xwhen (r <? 0) (errno <- xget_errno ;; xreturn (- errno)) ;;
          (* chown may have cleared S_ISUID and S_ISGID, chmod again *)
          xwhen (negb (Z.land mode (Z.lor S_ISUID S_ISGID) =? 0)) (
            ret <- call (_chmod xw path mode) ;;
            xwhen (ret =? -1) (errno <- xget_errno ;; xreturn (- errno))) ;;
          xreturn 0
      | _ => xreturn 0
      end
  | _ => xundefined
  end.

(** ** __ifupdown, do_ifup *)

Definition IFNAMSIZ : nat := 16.
Definition IFF_UP : Z := 1.
Definition EMFILE : Z := 24.

(** A value stored in a [short]. *)
Definition to_short (v : Z) : Z := (v + 2 ^ 15) mod 2 ^ 16 - 2 ^ 15.

(** [strlcpy(dst, src, size)]: at most [size - 1] characters are copied. *)
Definition strlcpy (src : string) (size : nat) : string :=
  String.substring 0 (size - 1) src.

(** What a descriptor of [socket(AF_INET, SOCK_DGRAM, 0)] refers to. *)
Definition inet_socket : file := FPath "socket:[AF_INET,SOCK_DGRAM]".

Definition socket (xw : xworld) : X Z :=
  fun x =>
    if xw_socket xw
    then XValue (alloc_fd (x_fds x))
           (XState (x_trace x) ((alloc_fd (x_fds x), inet_socket) :: x_fds x)
              (x_loops x) (x_errno x))
    else XValue (-1) (with_errno EMFILE x).

(** [ioctl(s, SIOCGIFFLAGS, &ifr)]: [ifr.ifr_flags] when it returns 0,
    [None] when it returns -1. *)
Definition ioctl_SIOCGIFFLAGS (xw : xworld) (s : Z) (name : string)
  : X (option Z) :=
  fun x =>
    match fd_lookup (x_fds x) s with
    | Some _ =>
        let a := xw_get_flags xw name in
        match a with
        | Ok flags => XValue (Some flags) (xrecord (EvGetFlags name a) x)
        | Err errno =>
            XValue None (with_errno errno (xrecord (EvGetFlags name a) x))
        end
    | None => XValue None (with_errno EBADF x)
    end.

Definition ioctl_SIOCSIFFLAGS (xw : xworld) (s : Z) (name : string)
    (flags : Z) : X Z :=
  fun x =>
    match fd_lookup (x_fds x) s with
    | Some _ =>
        let failure := xw_set_flags xw name flags in
        answered_failure (EvSetFlags name flags failure) failure x
    | None => bad_descriptor x
    end.

(** [ifr.ifr_flags |= IFF_UP] and [ifr.ifr_flags &= ~IFF_UP]. *)
Definition updown_flags (up : bool) (ifr_flags : Z) : Z :=
  if up then to_short (Z.lor ifr_flags IFF_UP)
  else to_short (Z.land ifr_flags (Z.lnot IFF_UP)).

Definition __ifupdown (xw : xworld) (interface : string) (up : bool)
  : X unit :=
  let ifr_name := strlcpy interface IFNAMSIZ in
  s <- socket xw ;;
  xwhen (s <? 0) (xreturn (-1)) ;;
  got <- ioctl_SIOCGIFFLAGS xw s ifr_name ;;
  match got with
  | None => lift (sys_close s) ;; xreturn (-1)
  | Some ifr_flags =>
      ret <- ioctl_SIOCSIFFLAGS xw s ifr_name (updown_flags up ifr_flags) ;;
      lift (sys_close s) ;;
      xreturn ret
  end.

Definition do_ifup (xw : xworld) (args : list string) : X unit :=
  match args with
  | _ :: interface :: _ =>
      r <- call (__ifupdown xw interface true) ;; xreturn r
  | _ => xundefined
  end.

Local Close Scope xm_scope.

(** ** Reading the further built-ins *)

(** The number that a string of octal digits denotes, continuing from
    [v]. *)
Fixpoint octal_value_from (s : string) (v : Z) : Z :=
  match s with
  | EmptyString => v
  | String c s' => octal_value_from s' (v * 8 + (Z.of_nat (nat_of_ascii c) - 48))
  end.

Definition octal_value (s : string) : Z := octal_value_from s 0.

Fixpoint all_octal (s : string) : bool :=
  match s with
  | EmptyString => true
  | String c s' => is_octal_digit c && all_octal s'
  end.

(** [n] times the digit 7. *)
Fixpoint sevens (n : nat) : string :=
  match n with
  | O => EmptyString
  | S n' => String "7"%char (sevens n')
  end.

(** The word that selects a reboot command in [do_powerctl]. *)
Definition keyword (cmd : reboot_cmd) : string :=
  match cmd with
  | ANDROID_RB_POWEROFF => "shutdown"
  | ANDROID_RB_RESTART2 => "reboot"
  end.

(** [x] after the events [evs]. *)
Definition xextend (evs : list xevent) (x : xstate) : xstate :=
  XState (x_trace x ++ evs) (x_fds x) (x_loops x) (x_errno x).

(** [x] with [f] opened on the lowest free descriptor. *)
Definition with_fd (f : file) (x : xstate) : xstate :=
  XState (x_trace x) ((alloc_fd (x_fds x), f) :: x_fds x) (x_loops x)
         (x_errno x).

(** What is left of a call that answers 0 or -1 on a freshly opened file
    once the file is closed again: the event and the errno of the call. *)
Definition after_call (e : option Z -> xevent) (failure : option Z)
    (x0 : xstate) : xoutcome Z :=
  match failure with
  | None => XValue 0 (xextend [e None] x0)
  | Some errno => XValue (-1) (with_errno errno (xextend [e (Some errno)] x0))
  end.

(** The file that [_open] gets hold of: the path opened read-only, or
    else write-only. *)
Definition opened_file (xw : xworld) (x : xstate) (path : string)
  : option file :=
  match resolve_path (xw_base xw) (to_state x) path
          (Z.lor O_RDONLY O_NOFOLLOW) with
  | Some f => Some f
  | None =>
      resolve_path (xw_base xw) (to_state x) path (Z.lor O_WRONLY O_NOFOLLOW)
  end.

(** The errno that a failed [_open] leaves: that of its second open, the
    write-only one. *)
Definition open_failure (xw : xworld) (path : string) : Z :=
  w_open_errno (xw_base xw) path (Z.lor O_WRONLY O_NOFOLLOW).

(** [x'] is [x] after the events [evs], with the same descriptors and loop
    devices. *)
Definition only_added (evs : list xevent) (x x' : xstate) : Prop :=
  x_trace x' = x_trace x ++ evs /\ x_fds x' = x_fds x
  /\ x_loops x' = x_loops x.

(** What a chown of [path] to [uid] and [gid] is to do from [x]: when the
    path cannot be opened, nothing but to report the errno of the open;
    and else one fchown, whose errno is reported negated. *)
Definition chown_outcome (xw : xworld) (path : string) (uid gid : Z)
    (x : xstate) (o : xoutcome unit) : Prop :=
  match opened_file xw x path with
  | None =>
      o = XReturn (- open_failure xw path)
            (with_errno (open_failure xw path) x)
  | Some f =>
      match xw_fchown xw f uid gid with
      | None =>
          exists x', o = XReturn 0 x'
                     /\ only_added [EvFchown f uid gid None] x x'
      | Some e =>
          exists x', o = XReturn (- e) x'
                     /\ only_added [EvFchown f uid gid (Some e)] x x'
                     /\ x_errno x' = e
      end
  end.


(** The events that a run added. *)
Definition xnew_events {A : Type} (x : xstate) (o : xoutcome A)
  : list xevent :=
  drop (length (x_trace x)) (x_trace (xfinal o)).

Definition is_libubi_close (e : xevent) : bool :=
  match e with EvLibubiClose => true | _ => false end.

(** [n] failed writes of [value] to [f], interrupted each time, the first
    of them being write number [k]. *)
Definition interrupted_writes (f : file) (value : string) (len : Z) (n : nat)
  : list xevent :=
  repeat (EvWrite f value len (Err EINTR)) n.

(** ** Scenarios of the further built-ins *)

(** init after it has opened /dev/null on the descriptors 0, 1 and 2. *)
Definition init_state : xstate :=
  XState [] [(0, FPath "/dev/null"); (1, FPath "/dev/null");
             (2, FPath "/dev/null")] [] 0.

(** init with no descriptor open. *)
Definition bare_state : xstate := XState [] [] [] 0.

(** Props expand to themselves, every further call succeeds, a read hands
    over at most [chunk] bytes, the first [eintr] writes are interrupted,
    [stat] answers [size]; [mode_t] has 16 bits. *)
Definition plain_xworld (w : world) (size chunk : Z) (eintr : nat) : xworld :=
  XWorld w (fun src => Some src) (fun _ _ _ => 0) (fun _ => 1000)
    (fun _ _ _ => None) (fun _ _ => None)
    (fun k _ count => if (k <? eintr)%nat then Err EINTR else Ok count)
    (fun _ _ _ => Ok chunk)
    (fun _ => Some size) (fun _ => true) (fun _ => None)
    true (0, 10) (fun _ _ => 0) 16
    (fun s _ => octal_value s) (fun _ _ => None) (fun _ => Some 4096)
    (fun _ _ _ => 0) true (fun _ => Ok 4098) (fun _ _ => None).

(** As [plain_xworld], but every write is interrupted. *)
Definition interrupted_xworld : xworld :=
  XWorld (image_world true) (fun src => Some src) (fun _ _ _ => 0)
    (fun _ => 1000) (fun _ _ _ => None) (fun _ _ => None)
    (fun _ _ _ => Err EINTR) (fun _ _ _ => Ok 0)
    (fun _ => Some 0) (fun _ => true) (fun _ => None)
    true (0, 10) (fun _ _ => 0) 16
    (fun s _ => octal_value s) (fun _ _ => None) (fun _ => Some 4096)
    (fun _ _ _ => 0) true (fun _ => Ok 4098) (fun _ _ => None).

(** As [plain_xworld], but nothing can be unmounted. *)
Definition busy_xworld : xworld :=
  XWorld (image_world true) (fun src => Some src) (fun _ _ _ => 0)
    (fun _ => 1000) (fun _ _ _ => None) (fun _ _ => None)
    (fun _ _ _ => Ok 0) (fun _ _ _ => Ok 0)
    (fun _ => Some 0) (fun _ => true) (fun _ => Some EBUSY)
    true (0, 10) (fun _ _ => 0) 16
    (fun s _ => octal_value s) (fun _ _ => None) (fun _ => Some 4096)
    (fun _ _ _ => 0) true (fun _ => Ok 4098) (fun _ _ => None).

(** A blank partition: the first mount fails, [make_ext4fs] succeeds, every
    later mount succeeds, and every path can be opened. *)
Definition blank_disk_world : world :=
  World (fun _ => -1) (fun _ _ => -1) (fun _ _ => 0)
        (fun k _ _ _ _ _ => match k with O => false | _ => true end)
        (fun _ _ => 0) (fun _ _ => true) (-1) 0 (fun _ => -1) 5
        (fun _ _ => ENOENT) (fun _ _ => None).

(** As [plain_xworld], with [make_dir] answering [failure]. *)
Definition mkdir_xworld (failure : option Z) : xworld :=
  XWorld (image_world true) (fun src => Some src) (fun _ _ _ => 0)
    (fun _ => 1000) (fun _ _ _ => None) (fun _ _ => None)
    (fun _ _ _ => Ok 0) (fun _ _ _ => Ok 0)
    (fun _ => Some 0) (fun _ => true) (fun _ => None)
    true (0, 10) (fun _ _ => 0) 16
    (fun s _ => octal_value s) (fun _ _ => failure) (fun _ => Some 4096)
    (fun _ _ _ => 0) true (fun _ => Ok 4098) (fun _ _ => None).

(** * Properties *)

(** ** The keyword table and the parse *)

Lemma lookup_flag_None tbl tok :
  lookup_flag tbl tok = None <->
  existsb (fun e : string * Z => String.eqb tok (fst e)) tbl = false.
Proof.
  induction tbl as [|[name flag] tbl IH]; simpl; [tauto|].
  destruct (String.eqb tok name); simpl; [|exact IH].
  split; discriminate.
Qed.

Lemma matched_false tok :
  matched tok = false <-> lookup_flag mount_flags tok = None.
Proof. symmetry. apply lookup_flag_None. Qed.

Lemma foldr_lor_app (a b : list Z) :
  foldr Z.lor 0 (a ++ b) = Z.lor (foldr Z.lor 0 a) (foldr Z.lor 0 b).
Proof.
  induction a as [|x a IH]; simpl.
  - reflexivity.
  - rewrite IH. apply Z.lor_assoc.
Qed.

(** With pairwise distinct keywords, OR-ing every entry that matches a token
    is the flag of the first one that does. *)
Lemma matching_entries_lookup tbl tok :
  NoDup (map fst tbl) ->
  foldr Z.lor 0
    (map snd (filter (fun e : string * Z => String.eqb tok (fst e) = true) tbl))
  = default 0 (lookup_flag tbl tok).
Proof.
  induction tbl as [|[name flag] tbl IH]; intros Hnd; [reflexivity|].
  apply NoDup_cons in Hnd as [Hnotin Hnd]. simpl in Hnotin.
  rewrite filter_cons. simpl.
  destruct (String.eqb_spec tok name) as [->|Hne].
  - rewrite decide_True by reflexivity. simpl.
    assert (lookup_flag tbl name = None) as Hnone.
    { apply lookup_flag_None. apply not_true_is_false. intros Hex.
      apply existsb_exists in Hex as [[n f] [Hin Heq]]. simpl in Heq.
      apply String.eqb_eq in Heq. subst n. apply Hnotin.
      apply list_elem_of_In. apply in_map_iff. exists (name, f).
      split; [reflexivity|exact Hin]. }
    rewrite (IH Hnd), Hnone. simpl. apply Z.lor_0_r.
  - rewrite decide_False by discriminate. apply IH, Hnd.
Qed.

Lemma mount_flags_NoDup : NoDup (map fst mount_flags).
Proof. apply (bool_decide_unpack _). vm_compute. exact I. Qed.

Lemma spec_flags_cons tok toks :
  spec_flags (tok :: toks)
  = Z.lor (default 0 (lookup_flag mount_flags tok)) (spec_flags toks).
Proof.
  unfold spec_flags. simpl. rewrite foldr_lor_app.
  rewrite (matching_entries_lookup _ _ mount_flags_NoDup). reflexivity.
Qed.

(** The loop of [do_mount], started from any value of the three locals. *)
Lemma parse_tokens_spec toks acc :
  parse_tokens toks acc =
  MountOpts (Z.lor (mo_flags acc) (spec_flags toks))
            (mo_wait acc || spec_wait toks)
            (match spec_options toks with
             | Some tok => Some tok
             | None => mo_options acc
             end).
Proof.
  revert acc. induction toks as [|tok rest IH]; intros [flags wait options].
  - simpl. rewrite Z.lor_0_r, orb_false_r. reflexivity.
  - cbn [parse_tokens]. rewrite IH. rewrite spec_flags_cons.
    unfold parse_token. cbn [spec_wait existsb].
    fold (spec_wait rest).
    destruct (lookup_flag mount_flags tok) as [flag|] eqn:Hlk.
    + assert (matched tok = true) as Hm.
      { destruct (matched tok) eqn:Hm; [reflexivity|].
        apply matched_false in Hm. congruence. }
      cbn [mo_flags mo_wait mo_options default].
      rewrite Hm, Z.lor_assoc. cbn [negb andb orb]. f_equal.
      destruct rest as [|tok' rest]; [|reflexivity].
      unfold spec_options. cbn [last]. rewrite Hm. reflexivity.
    + assert (matched tok = false) as Hm by (apply matched_false, Hlk).
      rewrite Hm. cbn [negb andb default]. rewrite Z.lor_0_l.
      destruct (String.eqb tok "wait") eqn:Hw.
      * cbn [mo_flags mo_wait mo_options orb]. rewrite orb_true_r.
        f_equal. destruct rest as [|tok' rest]; [|reflexivity].
        unfold spec_options. cbn [last]. rewrite Hm, Hw. reflexivity.
      * destruct rest as [|tok' rest].
        -- cbn [mo_flags mo_wait mo_options orb].
           unfold spec_options. cbn [last]. rewrite Hm, Hw. reflexivity.
        -- cbn [mo_flags mo_wait mo_options orb]. reflexivity.
Qed.

(** An unmatched token that is neither "wait" nor the last one leaves the
    three locals as they are. *)
Lemma parse_tokens_skip pre tok post acc :
  matched tok = false -> tok <> "wait" -> post <> [] ->
  parse_tokens (pre ++ tok :: post) acc = parse_tokens (pre ++ post) acc.
Proof.
  intros Hm Hw Hpost. revert acc.
  induction pre as [|p pre IH]; intros acc.
  - simpl. unfold parse_token.
    apply matched_false in Hm. rewrite Hm.
    apply String.eqb_neq in Hw. rewrite Hw.
    destruct post; [contradiction|reflexivity].
  - cbn [app parse_tokens]. rewrite IH. f_equal. f_equal.
    destruct pre; [destruct post; [contradiction|]|]; reflexivity.
Qed.

(** ** States, traces and single steps *)

Lemma extend_extend a b s : extend b (extend a s) = extend (a ++ b) s.
Proof. unfold extend. simpl. rewrite <- app_assoc. reflexivity. Qed.

Lemma extend_nil s : extend [] s = s.
Proof. destruct s. unfold extend. simpl. rewrite app_nil_r. reflexivity. Qed.

Lemma count_events_app p a b :
  count_events p (a ++ b) = (count_events p a + count_events p b)%nat.
Proof. unfold count_events. rewrite List.filter_app, length_app. reflexivity. Qed.

Lemma new_events_trace {A : Type} (o : outcome A) evs s :
  st_trace (final_state o) = st_trace s ++ evs -> new_events s o = evs.
Proof. unfold new_events. intros ->. apply drop_app_length. Qed.

Lemma bind_value {A B : Type} (m : M A) (k : A -> M B) s a s1 :
  m s = Value a s1 -> bind m k s = k a s1.
Proof. unfold bind. intros ->. reflexivity. Qed.

Lemma bind_assoc {A B C : Type} (m : M A) (k1 : A -> M B) (k2 : B -> M C) s :
  bind (bind m k1) k2 s = bind m (fun x => bind (k1 x) k2) s.
Proof. unfold bind. destruct (m s); reflexivity. Qed.

Lemma first_mount_failed_quiet pre evs :
  quiet pre = true -> first_mount_failed (pre ++ evs) = first_mount_failed evs.
Proof.
  unfold first_mount_failed. intros Hq. rewrite List.filter_app.
  replace (List.filter is_mount pre) with (@nil event); [reflexivity|].
  induction pre as [|e pre IH]; [reflexivity|].
  simpl in Hq. apply andb_true_iff in Hq as [He Hq].
  apply andb_true_iff in He as [He _]. apply negb_true_iff in He.
  simpl. rewrite He. apply IH, Hq.
Qed.

Lemma format_ran_quiet pre evs :
  quiet pre = true -> format_ran (pre ++ evs) = format_ran evs.
Proof.
  unfold format_ran. intros Hq. rewrite existsb_app.
  replace (existsb is_make_ext4fs pre) with false; [reflexivity|].
  induction pre as [|e pre IH]; [reflexivity|].
  simpl in Hq. apply andb_true_iff in Hq as [He Hq].
  apply andb_true_iff in He as [_ He]. apply negb_true_iff in He.
  simpl. rewrite He. apply IH, Hq.
Qed.

Lemma quiet_app a b : quiet (a ++ b) = quiet a && quiet b.
Proof. unfold quiet. apply forallb_app. Qed.

Lemma quiet_format_ran evs : quiet evs = true -> format_ran evs = false.
Proof.
  intros Hq. rewrite <- (app_nil_r evs). rewrite format_ran_quiet by exact Hq.
  reflexivity.
Qed.

Lemma quiet_first_mount_failed evs :
  quiet evs = true -> first_mount_failed evs = false.
Proof.
  intros Hq. rewrite <- (app_nil_r evs).
  rewrite first_mount_failed_quiet by exact Hq. reflexivity.
Qed.

(** ** The mount and its two follow-ups *)

Lemma cache_is_not_data target :
  strncmp_eq target "/cache" 6 = true -> strncmp_eq target "/data" 5 = false.
Proof.
  destruct target as [|a [|b target]]; simpl; try discriminate.
  - destruct (Ascii.eqb a "/"%char); discriminate.
  - destruct (Ascii.eqb a "/"%char); [|discriminate].
    destruct (Ascii.eqb_spec b "c"%char) as [->|]; [|discriminate].
    reflexivity.
Qed.

(** What [mount_or_recover] does, case by case. *)
Lemma mount_or_recover_eq w system target o tmp s :
  let k := count_events is_mount (st_trace s) in
  let m1 := EvMount tmp target system (mo_flags o) (mo_options o) in
  let f := EvMakeExt4fs tmp 0 target (w_make_ext4fs w tmp target) in
  mount_or_recover w system target o tmp s =
  if w_mount w k tmp target system (mo_flags o) (mo_options o) then
    Return 0 (extend [m1 0] s)
  else if strncmp_eq system "ext4" 4 && strncmp_eq target "/cache" 6 then
    if w_mount w (S k) tmp target system (mo_flags o) (mo_options o)
    then Return 0 (extend [m1 (-1); f; m1 0] s)
    else Return (-2) (extend [m1 (-1); f; m1 (-1)] s)
  else if strncmp_eq target "/data" 5 then
    Return 0 (extend [m1 (-1); EvPropertyGet "ro.init.mountdatafail";
                      EvPropertySet "ro.init.mountdatafail" "true"] s)
  else Return 0 (extend [m1 (-1)] s).
Proof.
  intros k m1 f. unfold mount_or_recover.
  rewrite (bind_value (mount w tmp target system (mo_flags o) (mo_options o))
             _ s _ _ eq_refl).
  fold k. destruct (w_mount w k tmp target system (mo_flags o) (mo_options o)).
  - reflexivity.
  - change (-1 <? 0) with true. cbn [andb].
    destruct (strncmp_eq system "ext4" 4 && strncmp_eq target "/cache" 6)
      eqn:Hfmt.
    + apply andb_true_iff in Hfmt as [_ Hcache].
      rewrite (cache_is_not_data _ Hcache).
      unfold when at 1. rewrite bind_assoc.
      rewrite (bind_value (make_ext4fs w tmp 0 target) _ _ _ _ eq_refl).
      rewrite bind_assoc.
      rewrite (bind_value (mount w tmp target system (mo_flags o) (mo_options o))
                 _ _ _ _ eq_refl).
      replace (count_events is_mount _) with (S k).
      2:{ cbn [record st_trace]. rewrite !count_events_app. cbn. fold k. lia. }
      destruct (w_mount w (S k) tmp target system (mo_flags o) (mo_options o)).
      * cbn. unfold extend, record. cbn. rewrite <- !app_assoc. reflexivity.
      * cbn. unfold extend, record. cbn. rewrite <- !app_assoc. reflexivity.
    + unfold when at 1. rewrite (bind_value (value tt) _ _ tt _ eq_refl).
      destruct (strncmp_eq target "/data" 5).
      * cbn. unfold extend, record. cbn. rewrite <- !app_assoc. reflexivity.
      * reflexivity.
Qed.

Lemma mount_or_recover_events w system target o tmp s :
  let m := EvMount tmp target system (mo_flags o) (mo_options o) in
  exists evs r,
    mount_or_recover w system target o tmp s = Return r (extend evs s)
    /\ (r = 0 \/ r = -2)
    /\ (first_mount_failed evs = true ->
        (format_ran evs = true <->
         strncmp_eq system "ext4" 4 && strncmp_eq target "/cache" 6 = true))
    /\ (format_ran evs = true ->
        exists rf r2,
          evs = [m (-1); EvMakeExt4fs tmp 0 target rf; m r2]
          /\ (r2 = 0 /\ r = 0 \/ r2 = -1 /\ r = -2)).
Proof.
  rewrite mount_or_recover_eq. cbv zeta.
  destruct (w_mount w _ tmp target system (mo_flags o) (mo_options o)).
  { eexists _, _. split; [reflexivity|]. split; [auto|].
    split; discriminate. }
  destruct (strncmp_eq system "ext4" 4 && strncmp_eq target "/cache" 6).
  - destruct (w_mount w _ tmp target system (mo_flags o) (mo_options o));
      (eexists _, _; split; [reflexivity|]; split; [auto|]; split;
       [intros _; split; reflexivity
       |intros _; eexists _, _; split; [reflexivity|auto]]).
  - destruct (strncmp_eq target "/data" 5);
      (eexists _, _; split; [reflexivity|]; split; [auto|]; split;
       [intros _; split; discriminate|discriminate]).
Qed.

(** ** The inand poll *)

Lemma poll_events_quiet w k name n : quiet (poll_events w k name n) = true.
Proof. revert k. induction n as [|n IH]; intros k; [reflexivity|apply IH]. Qed.

Lemma poll_round w name s :
  let k := count_events is_inand_lookup (st_trace s) in
  let s1 := extend [EvInandNameToNumber name (w_inand w k name);
                    EvUsleep 200000] s in
  (inand_name_to_number w name ;; usleep 200000) s = Value tt s1
  /\ count_events is_inand_lookup (st_trace s1) = S k.
Proof.
  intros k s1. split.
  - unfold bind, inand_name_to_number, usleep, emit. fold k.
    unfold record, s1, extend. simpl. rewrite <- app_assoc. reflexivity.
  - unfold s1. simpl. rewrite count_events_app. fold k.
    change (count_events is_inand_lookup [_; _]) with 1%nat. lia.
Qed.

Lemma inand_poll_unfold w fuel name s :
  let k := count_events is_inand_lookup (st_trace s) in
  inand_poll w (S fuel) name s =
  (if w_inand w k name <? 0 then inand_poll w fuel name
   else value (w_inand w k name))
    (extend [EvInandNameToNumber name (w_inand w k name); EvUsleep 200000] s).
Proof.
  intros k. cbn [inand_poll].
  rewrite (bind_value (inand_name_to_number w name) _ s _ _ eq_refl).
  rewrite (bind_value (usleep 200000) _ _ tt _ eq_refl).
  fold k. f_equal.
  unfold record, extend. simpl. rewrite <- app_assoc. reflexivity.
Qed.

(** While the lookup keeps failing the poll keeps going. *)
Lemma inand_poll_failing w name fuel s :
  (forall i, (i < fuel)%nat ->
     w_inand w (count_events is_inand_lookup (st_trace s) + i) name < 0) ->
  inand_poll w fuel name s =
  OutOfFuel (extend (poll_events w (count_events is_inand_lookup (st_trace s))
                                 name fuel) s).
Proof.
  revert s. induction fuel as [|fuel IH]; intros s Hfail.
  - simpl. rewrite extend_nil. reflexivity.
  - rewrite inand_poll_unfold. cbv zeta.
    pose proof (Hfail O ltac:(lia)) as H0. rewrite Nat.add_0_r in H0.
    apply Z.ltb_lt in H0. rewrite H0.
    destruct (poll_round w name s) as [_ Hcount]. cbv zeta in Hcount.
    rewrite IH.
    + rewrite Hcount, extend_extend. reflexivity.
    + intros i Hi. rewrite Hcount.
      replace (S (count_events is_inand_lookup (st_trace s)) + i)%nat
        with (count_events is_inand_lookup (st_trace s) + S i)%nat by lia.
      apply Hfail. lia.
Qed.

(** The first lookup that succeeds ends the poll with its index. *)
Lemma inand_poll_found w name fuel j s :
  let k := count_events is_inand_lookup (st_trace s) in
  (forall i, (i < j)%nat -> w_inand w (k + i) name < 0) ->
  0 <= w_inand w (k + j) name ->
  (j < fuel)%nat ->
  inand_poll w fuel name s =
  Value (w_inand w (k + j) name) (extend (poll_events w k name (S j)) s).
Proof.
  cbv zeta. revert s fuel. induction j as [|j IH]; intros s fuel Hfail Hok Hfuel.
  - destruct fuel as [|fuel]; [lia|]. rewrite inand_poll_unfold. cbv zeta.
    rewrite Nat.add_0_r in *. apply Z.ltb_ge in Hok. rewrite Hok. reflexivity.
  - destruct fuel as [|fuel]; [lia|]. rewrite inand_poll_unfold. cbv zeta.
    pose proof (Hfail O ltac:(lia)) as H0. rewrite Nat.add_0_r in H0.
    apply Z.ltb_lt in H0. rewrite H0.
    destruct (poll_round w name s) as [_ Hcount]. cbv zeta in Hcount.
    rewrite (IH _ fuel).
    + rewrite Hcount, extend_extend.
      replace (S (count_events is_inand_lookup (st_trace s)) + j)%nat
        with (count_events is_inand_lookup (st_trace s) + S j)%nat by lia.
      reflexivity.
    + intros i Hi. rewrite Hcount.
      replace (S (count_events is_inand_lookup (st_trace s)) + i)%nat
        with (count_events is_inand_lookup (st_trace s) + S i)%nat by lia.
      apply Hfail. lia.
    + rewrite Hcount.
      replace (S (count_events is_inand_lookup (st_trace s)) + j)%nat
        with (count_events is_inand_lookup (st_trace s) + S j)%nat by lia.
      exact Hok.
    + lia.
Qed.

(** Whatever the world answers, the poll only looks up and sleeps. *)
Lemma inand_poll_cases w name fuel s :
  exists n,
    let evs := poll_events w (count_events is_inand_lookup (st_trace s)) name n in
    inand_poll w fuel name s = OutOfFuel (extend evs s)
    \/ exists v, 0 <= v /\ inand_poll w fuel name s = Value v (extend evs s).
Proof.
  revert s. induction fuel as [|fuel IH]; intros s.
  - exists O. left. simpl. rewrite extend_nil. reflexivity.
  - rewrite inand_poll_unfold. cbv zeta.
    destruct (poll_round w name s) as [_ Hcount]. cbv zeta in Hcount.
    destruct (w_inand w _ name <? 0) eqn:Hneg.
    + destruct (IH (extend [EvInandNameToNumber name
                   (w_inand w (count_events is_inand_lookup (st_trace s)) name);
                   EvUsleep 200000] s)) as [n Hn].
      cbv zeta in Hn. rewrite Hcount in Hn. rewrite !extend_extend in Hn.
      exists (S n). exact Hn.
    + exists 1%nat. right. eexists. split; [|reflexivity].
      apply Z.ltb_ge, Hneg.
Qed.

(** ** The branches of do_mount *)

Lemma do_mount_default_wait w fuel system source target o s :
  do_mount_default w fuel system source target o s =
  (tmp <- resolve_source w fuel source ;;
   mount_or_recover w system target o tmp)
    (extend (wait_events w o source) s).
Proof.
  unfold do_mount_default, wait_events. destruct (mo_wait o).
  - unfold when. rewrite bind_assoc; cbv beta.
    rewrite (bind_value (wait_for_file w source (COMMAND_RETRY_TIMEOUT w))
               _ s _ _ eq_refl); cbv beta.
    rewrite (bind_value (value tt) _ _ tt _ eq_refl); cbv beta. reflexivity.
  - unfold when. rewrite (bind_value (value tt) _ s tt s eq_refl); cbv beta.
    rewrite extend_nil. reflexivity.
Qed.

Lemma wait_events_quiet w o path : quiet (wait_events w o path) = true.
Proof. unfold wait_events. destruct (mo_wait o); reflexivity. Qed.

Lemma wait_events_no_lookup w o path s :
  count_events is_inand_lookup (st_trace (extend (wait_events w o path) s))
  = count_events is_inand_lookup (st_trace s).
Proof.
  simpl. rewrite count_events_app. unfold wait_events.
  destruct (mo_wait o); cbn; lia.
Qed.

(** The [else] branch either never gets to its mount, or it gets there after
    events that are neither a mount nor a format. *)
Lemma do_mount_default_cases w fuel system source target o s :
  exists pre, quiet pre = true /\
    (do_mount_default w fuel system source target o s = OutOfFuel (extend pre s)
     \/ do_mount_default w fuel system source target o s
        = Undefined (extend pre s)
     \/ exists tmp,
          do_mount_default w fuel system source target o s
          = mount_or_recover w system target o tmp (extend pre s)).
Proof.
  rewrite do_mount_default_wait. unfold resolve_source.
  destruct (strncmp_eq source "inand@" 6).
  - rewrite bind_assoc; cbv beta.
    destruct (inand_poll_cases w (str_offset source 6) fuel
                (extend (wait_events w o source) s)) as [n Hn].
    cbv zeta in Hn. rewrite extend_extend in Hn.
    eexists. split.
    2:{ destruct Hn as [Hn|[v [_ Hn]]].
        - left. unfold bind at 1. rewrite Hn. reflexivity.
        - right. right. eexists.
          rewrite (bind_value _ _ _ _ _ Hn).
          rewrite (bind_value (value _) _ _ _ _ eq_refl); cbv beta. reflexivity. }
    rewrite quiet_app, wait_events_quiet, poll_events_quiet. reflexivity.
  - exists (wait_events w o source). split; [apply wait_events_quiet|].
    unfold strcpy_tmp. destruct (64 <=? String.length source)%nat.
    + right. left. reflexivity.
    + right. right. exists source. reflexivity.
Qed.

Lemma do_mount_mtd_eq w system source target o s :
  let name := str_offset source 4 in
  let n := w_mtd w name in
  let tmp := "/dev/block/mtdblock" +:+ pretty n in
  let pre := EvMtdNameToNumber name n :: wait_events w o tmp in
  let m := EvMount tmp target system (mo_flags o) (mo_options o) in
  do_mount_mtd w system source target o s =
  if n <? 0 then Return (-1) (extend [EvMtdNameToNumber name n] s)
  else if w_mount w (count_events is_mount (st_trace s)) tmp target system
            (mo_flags o) (mo_options o)
       then Return 0 (extend (pre ++ [m 0]) s)
       else Return (-1) (extend (pre ++ [m (-1)]) s).
Proof.
  cbv zeta. unfold do_mount_mtd.
  rewrite (bind_value (mtd_name_to_number w (str_offset source 4))
             _ s _ _ eq_refl); cbv beta.
  destruct (w_mtd w (str_offset source 4) <? 0); [reflexivity|].
  unfold when at 1. rewrite (bind_value (value tt) _ _ tt _ eq_refl); cbv beta.
  unfold wait_events.
  destruct (mo_wait o); unfold when at 1.
  - rewrite bind_assoc; cbv beta.
    rewrite (bind_value (wait_for_file w _ (COMMAND_RETRY_TIMEOUT w))
               _ _ _ _ eq_refl); cbv beta.
    rewrite (bind_value (value tt) _ _ tt _ eq_refl); cbv beta.
    rewrite (bind_value (mount w _ target system (mo_flags o) (mo_options o))
               _ _ _ _ eq_refl); cbv beta.
    replace (count_events is_mount (st_trace (record _ (record _ s))))
      with (count_events is_mount (st_trace s)).
    2:{ simpl. rewrite !count_events_app.
        change (count_events is_mount [_]) with O. lia. }
    destruct (w_mount w _ _ target system (mo_flags o) (mo_options o));
      cbn; unfold extend, record; cbn; rewrite <- !app_assoc; reflexivity.
  - rewrite (bind_value (value tt) _ _ tt _ eq_refl); cbv beta.
    rewrite (bind_value (mount w _ target system (mo_flags o) (mo_options o))
               _ _ _ _ eq_refl); cbv beta.
    replace (count_events is_mount (st_trace (record _ s)))
      with (count_events is_mount (st_trace s)).
    2:{ simpl. rewrite !count_events_app.
        change (count_events is_mount [_]) with O. lia. }
    destruct (w_mount w _ _ target system (mo_flags o) (mo_options o));
      cbn; unfold extend, record; cbn; rewrite <- !app_assoc; reflexivity.
Qed.

Lemma do_mount_ubifs_eq w system source target o s :
  let k := count_events is_mount (st_trace s) in
  let m := EvMount source target system (mo_flags o) (mo_options o) in
  do_mount_ubifs w system source target o s =
  if w_mount w k source target system (mo_flags o) (mo_options o) then
    Return 0 (extend [m 0] s)
  else if w_mount w (S k) source target system (mo_flags o) (mo_options o)
  then Return 0 (extend [m (-1); m 0] s)
  else Return (-1) (extend [m (-1); m (-1)] s).
Proof.
  intros k m. unfold do_mount_ubifs.
  rewrite (bind_value (mount w source target system (mo_flags o) (mo_options o))
             _ s _ _ eq_refl); cbv beta.
  fold k. destruct (w_mount w k source target system (mo_flags o) (mo_options o)).
  - reflexivity.
  - change (-1 <? 0) with true. unfold when at 1. rewrite bind_assoc; cbv beta.
    rewrite (bind_value (mount w source target system (mo_flags o) (mo_options o))
               _ _ _ _ eq_refl); cbv beta.
    replace (count_events is_mount (st_trace (record _ s))) with (S k).
    2:{ simpl. rewrite count_events_app. fold k.
        change (count_events is_mount [_]) with 1%nat. lia. }
    destruct (w_mount w (S k) source target system (mo_flags o) (mo_options o));
      cbn; unfold extend, record; cbn; rewrite <- !app_assoc; reflexivity.
Qed.

(** ** The loop branch, whatever the kernel answers *)

Lemma sys_open_value w path mode s :
  exists fd s1,
    sys_open w path mode s = Value fd s1 /\ st_trace s1 = st_trace s.
Proof.
  unfold sys_open, install. destruct (resolve_path w s path mode); eauto.
Qed.

Lemma sys_close_value fd s :
  exists r s1, sys_close fd s = Value r s1 /\ st_trace s1 = st_trace s.
Proof. unfold sys_close. destruct (fd_file s fd); eauto. Qed.

Lemma ioctl_LOOP_GET_STATUS_value fd s :
  exists r s1,
    ioctl_LOOP_GET_STATUS fd s = Value r s1 /\ st_trace s1 = st_trace s.
Proof.
  unfold ioctl_LOOP_GET_STATUS.
  destruct (fd_file s fd) as [[|n]|]; eauto.
  destruct (st_loops s !! n) as [[|]|]; eauto.
Qed.

Lemma ioctl_LOOP_SET_FD_value w fd backing s :
  exists r s1,
    ioctl_LOOP_SET_FD w fd backing s = Value r s1 /\ st_trace s1 = st_trace s.
Proof.
  unfold ioctl_LOOP_SET_FD.
  destruct (fd_file s fd) as [[|n]|]; eauto.
  destruct (fd_file s backing) as [f|];
    destruct (st_loops s !! n) as [[|]|]; eauto.
  destruct (w_loop_set_fd w n f); eauto.
Qed.

Lemma ioctl_LOOP_CLR_FD_value fd s :
  exists r s1,
    ioctl_LOOP_CLR_FD fd s = Value r s1 /\ st_trace s1 = st_trace s.
Proof.
  unfold ioctl_LOOP_CLR_FD.
  destruct (fd_file s fd) as [[|n]|]; eauto.
  destruct (st_loops s !! n) as [[|]|]; eauto.
Qed.

Ltac run_with L :=
  let r := fresh "r" in
  let s1 := fresh "s" in
  let E := fresh "E" in
  let T := fresh "T" in
  destruct L as (r & s1 & E & T);
  rewrite (bind_value _ _ _ _ _ E); cbv beta; clear E.

(** One statement of the loop branch. *)
Ltac run_step :=
  lazymatch goal with
  | |- context [bind (bind ?m ?k1) ?k2 ?s] =>
      rewrite (bind_assoc m k1 k2 s); cbv beta
  | |- context [bind (sys_open ?w ?p ?m) _ ?s] =>
      run_with (sys_open_value w p m s)
  | |- context [bind (sys_close ?fd) _ ?s] => run_with (sys_close_value fd s)
  | |- context [bind (ioctl_LOOP_GET_STATUS ?fd) _ ?s] =>
      run_with (ioctl_LOOP_GET_STATUS_value fd s)
  | |- context [bind (ioctl_LOOP_SET_FD ?w ?fd ?b) _ ?s] =>
      run_with (ioctl_LOOP_SET_FD_value w fd b s)
  | |- context [bind (ioctl_LOOP_CLR_FD ?fd) _ ?s] =>
      run_with (ioctl_LOOP_CLR_FD_value fd s)
  | |- context [bind get_errno ?k ?s] =>
      rewrite (bind_value get_errno k s _ s eq_refl); cbv beta
  | |- context [bind (mount ?w ?a ?b ?c ?d ?e) ?k ?s] =>
      rewrite (bind_value (mount w a b c d e) k s _ _ eq_refl); cbv beta
  | |- context [bind (when ?b ?m) ?k ?s] =>
      let Hb := fresh "Hb" in
      destruct b eqn:Hb;
      [ change (bind (when true m) k s) with (bind m k s)
      | rewrite (bind_value (when false m) k s tt s eq_refl); cbv beta ]
  | |- context [bind (return_ ?r) ?k ?s] =>
      change (bind (return_ r) k s) with (@Return unit r s)
  end.

Ltac chain_traces :=
  simpl in *;
  repeat match goal with
         | T : st_trace ?a = _ |- _ => rewrite T in *; clear T
         end.

(** The scan adds mounts only, and it can end in two ways: it returns 0 or
    -1, or it is still scanning. *)
Lemma loop_scan_summary w fuel n fd mode target system flags options s :
  exists evs,
    st_trace (final_state
                (loop_scan w fuel n fd mode target system flags options s))
    = st_trace s ++ evs
    /\ forallb is_mount evs = true
    /\ match loop_scan w fuel n fd mode target system flags options s with
       | Return r _ => r = 0 \/ r = -1
       | OutOfFuel _ => True
       | _ => False
       end.
Proof.
  revert n s. induction fuel as [|fuel IH]; intros n s.
  { exists []. simpl. rewrite app_nil_r. repeat split. }
  cbn [loop_scan]. repeat run_step.
  all: try match goal with
    | IH' : forall n' s', exists _, _
      |- context [loop_scan _ _ (S ?n1) _ _ _ _ _ _ ?s1]
      => destruct (IH' (S n1) s1) as (evs & Htr & Hm & Hret);
         exists evs; split; [rewrite Htr; chain_traces; reflexivity|];
         split; [exact Hm|exact Hret]
    end.
  all: try (exists []; split; [chain_traces; rewrite app_nil_r; reflexivity|];
            split; [reflexivity|]; cbn; auto; fail).
  all: eexists [_]; (split; [chain_traces; reflexivity|]);
       (split; [reflexivity|]); cbn; auto.
Qed.

Lemma mounts_only evs :
  forallb is_mount evs = true ->
  format_ran evs = false /\ existsb is_wait evs = false.
Proof.
  unfold format_ran. induction evs as [|e evs IH]; [auto|].
  cbn [forallb existsb]. intros H. apply andb_true_iff in H as [He H].
  destruct (IH H) as [-> ->]. destruct e; try discriminate. auto.
Qed.

Lemma do_mount_loop_summary w fuel system source target o s :
  exists evs,
    st_trace (final_state (do_mount_loop w fuel system source target o s))
    = st_trace s ++ evs
    /\ forallb is_mount evs = true
    /\ match do_mount_loop w fuel system source target o s with
       | Return r _ => r = 0 \/ r = -1
       | OutOfFuel _ => True
       | _ => False
       end.
Proof.
  unfold do_mount_loop. cbv zeta. repeat run_step.
  - exists []. split; [chain_traces; rewrite app_nil_r; reflexivity|].
    split; [reflexivity|]. cbn. auto.
  - match goal with
    | |- context [loop_scan ?w ?f ?n ?fd ?m ?t ?sy ?fl ?op ?s1] =>
        destruct (loop_scan_summary w f n fd m t sy fl op s1)
          as (evs & Htr & Hm & Hret)
    end.
    exists evs. split; [rewrite Htr; chain_traces; reflexivity|].
    split; [exact Hm|exact Hret].
Qed.

(** ** do_mount as a whole *)

Lemma default_branch_true system source :
  default_branch system source = true <->
  strncmp_eq source "mtd@" 4 = false
  /\ strncmp_eq system "ubifs" 5 = false
  /\ strncmp_eq source "loop@" 5 = false.
Proof.
  unfold default_branch. rewrite !andb_true_iff, !negb_true_iff. tauto.
Qed.

Lemma do_mount_default_branch w fuel cmd system source target toks :
  default_branch system source = true ->
  do_mount w fuel (cmd :: system :: source :: target :: toks)
  = do_mount_default w fuel system source target (parse_mount_args toks).
Proof.
  intros H. apply default_branch_true in H as (Hm & Hu & Hl).
  unfold do_mount. rewrite Hm, Hu, Hl. reflexivity.
Qed.

(** Every run of [do_mount]: the events it adds, when the format runs and
    what follows it, and what the call can return. *)
Lemma do_mount_summary w fuel cmd system source target toks s :
  let o := parse_mount_args toks in
  let run := do_mount w fuel (cmd :: system :: source :: target :: toks) s in
  exists evs,
    st_trace (final_state run) = st_trace s ++ evs
    /\ (first_mount_failed evs = true ->
        (format_ran evs = true <->
         default_branch system source && strncmp_eq system "ext4" 4
         && strncmp_eq target "/cache" 6 = true))
    /\ (forall r s', run = Return r s' -> r = 0 \/ r = -1 \/ r = -2)
    /\ (format_ran evs = true ->
        exists pre dev rf r2,
          let m := EvMount dev target system (mo_flags o) (mo_options o) in
          quiet pre = true
          /\ evs = pre ++ [m (-1); EvMakeExt4fs dev 0 target rf; m r2]
          /\ (r2 = 0 /\ run = Return 0 (extend evs s)
              \/ r2 = -1 /\ run = Return (-2) (extend evs s))).
Proof.
  cbv zeta. unfold do_mount, default_branch. cbv zeta.
  set (o := parse_mount_args toks).
  destruct (strncmp_eq source "mtd@" 4).
  { rewrite do_mount_mtd_eq. cbv zeta. unfold wait_events.
    destruct (w_mtd w (str_offset source 4) <? 0).
    - eexists. split; [reflexivity|]. split; [intros _; split; discriminate|].
      split; [intros ? ? [= <- _]; auto|discriminate].
    - destruct (w_mount w _ _ target system (mo_flags o) (mo_options o));
        destruct (mo_wait o);
        (eexists; split; [reflexivity|]; split;
         [intros _; split; discriminate|];
         split; [intros ? ? [= <- _]; auto|discriminate]). }
  destruct (strncmp_eq system "ubifs" 5).
  { rewrite do_mount_ubifs_eq. cbv zeta.
    destruct (w_mount w _ source target system (mo_flags o) (mo_options o)).
    - eexists. split; [reflexivity|]. split; [intros _; split; discriminate|].
      split; [intros ? ? [= <- _]; auto|discriminate].
    - destruct (w_mount w _ source target system (mo_flags o) (mo_options o));
        (eexists; split; [reflexivity|]; split;
         [intros _; split; discriminate|];
         split; [intros ? ? [= <- _]; auto|discriminate]). }
  destruct (strncmp_eq source "loop@" 5).
  { destruct (do_mount_loop_summary w fuel system source target o s)
      as (evs & Htr & Hm & Hret).
    destruct (mounts_only evs Hm) as [Hfmt _].
    exists evs. split; [exact Htr|]. split.
    { intros _. rewrite Hfmt. split; discriminate. }
    split.
    - intros r s' H. rewrite H in Hret. destruct Hret; auto.
    - rewrite Hfmt. discriminate. }
  cbn [negb andb].
  destruct (do_mount_default_cases w fuel system source target o s)
    as (pre & Hq & [H|[H|[tmp H]]]); rewrite H.
  - exists pre. split; [reflexivity|].
    rewrite (quiet_first_mount_failed _ Hq), (quiet_format_ran _ Hq).
    repeat split; discriminate.
  - exists pre. split; [reflexivity|].
    rewrite (quiet_first_mount_failed _ Hq), (quiet_format_ran _ Hq).
    repeat split; discriminate.
  - destruct (mount_or_recover_events w system target o tmp (extend pre s))
      as (evs & r & Hrun & Hr & Hfmt & Hshape).
    rewrite Hrun, extend_extend. exists (pre ++ evs).
    split; [reflexivity|]. split.
    { rewrite (first_mount_failed_quiet _ _ Hq), (format_ran_quiet _ _ Hq).
      exact Hfmt. }
    split.
    + intros r' s' [= <- _]. destruct Hr; auto.
    + rewrite (format_ran_quiet _ _ Hq). intros Hran.
      destruct (Hshape Hran) as (rf & r2 & -> & Hres).
      exists pre, tmp, rf, r2. split; [exact Hq|]. split; [reflexivity|].
      destruct Hres as [[-> ->]|[-> ->]]; auto.
Qed.

(** * The claims *)

(** ** Parsing of the trailing tokens *)

(** C6.  For every sequence of trailing tokens, the parse loop of [do_mount]
    yields: as flags the bitwise OR of the [mount_flags] entries whose
    keyword equals a token (compared case-sensitively, by [strcmp]); wait
    set iff some unmatched token is the literal "wait"; as options the last
    token when it is unmatched and is not "wait", and none otherwise.  An
    unmatched token that is neither "wait" nor the last one changes nothing:
    the parse, and with it the whole run of [do_mount], is the one obtained
    without that token, so an unknown flag raises no error. *)
Theorem parse_mount_args_meets_spec :
  (forall toks,
     parse_mount_args toks
     = MountOpts (spec_flags toks) (spec_wait toks) (spec_options toks))
  /\ (forall pre tok post,
        matched tok = false -> tok <> "wait" -> post <> [] ->
        parse_mount_args (pre ++ tok :: post) = parse_mount_args (pre ++ post))
  /\ (forall w fuel cmd system source target pre tok post s,
        matched tok = false -> tok <> "wait" -> post <> [] ->
        do_mount w fuel (cmd :: system :: source :: target :: pre ++ tok :: post) s
        = do_mount w fuel (cmd :: system :: source :: target :: pre ++ post) s).
Proof.
  split; [|split].
  - intros toks. unfold parse_mount_args. rewrite parse_tokens_spec.
    unfold no_opts. cbn [mo_flags mo_wait mo_options orb].
    rewrite Z.lor_0_l. destruct (spec_options toks); reflexivity.
  - intros pre tok post Hm Hw Hpost. unfold parse_mount_args.
    apply parse_tokens_skip; assumption.
  - intros w fuel cmd system source target pre tok post s Hm Hw Hpost.
    unfold do_mount, parse_mount_args.
    rewrite (parse_tokens_skip pre tok post no_opts Hm Hw Hpost).
    reflexivity.
Qed.

Lemma parse_mount_args_meets_spec_witness :
  parse_mount_args ["ro"; "Ro"; "wait"; "barrier=1"]
  = parse_mount_args ["ro"; "wait"; "barrier=1"].
Proof.
  apply (proj1 (proj2 parse_mount_args_meets_spec) ["ro"] "Ro"
           ["wait"; "barrier=1"]).
  - reflexivity.
  - discriminate.
  - discriminate.
Defined.

Example parse_is_case_sensitive :
  parse_mount_args ["RO"; "noatime"; "wait"; "nosuid"; "data=ordered"]
  = MountOpts (Z.lor MS.NOATIME MS.NOSUID) true (Some "data=ordered").
Proof. reflexivity. Qed.

(** ** do_mount_all *)

(** The parent's side of [do_mount_all], once the child has exited. *)
Lemma do_mount_all_parent w cmd path s :
  0 < w_fork w ->
  WIFEXITED (w_wstatus w) = true ->
  do_mount_all w [cmd; path] s =
  let code := WEXITSTATUS (w_wstatus w) in
  let parent := [EvFork (w_fork w); EvWaitpid (w_fork w) (w_wstatus w)] in
  if code =? 1 then
    Return code
      (extend (parent ++ [EvPropertySet "ro.crypto.state" "encrypted";
                          EvPropertySet "vold.decrypt" "1"]) s)
  else if code =? 0 then
    Return code
      (extend (parent ++ [EvPropertySet "ro.crypto.state" "unencrypted";
                          EvActionForEachTrigger "nonencrypted"]) s)
  else Return code (extend parent s).
Proof.
  intros Hpid Hexit. apply Z.ltb_lt in Hpid.
  cbv beta iota zeta delta
    [do_mount_all bind fork waitpid value return_ record extend property_set
     action_for_each_trigger emit st_trace st_fds st_loops st_errno].
  rewrite Hpid, Hexit.
  destruct (WEXITSTATUS (w_wstatus w) =? 1);
    [|destruct (WEXITSTATUS (w_wstatus w) =? 0)];
    cbv beta iota; rewrite <- !app_assoc; reflexivity.
Qed.

(** C5.  When [do_mount_all] runs as the parent of a child that exits
    normally, the exit status decides everything: status 1 is the Encrypted
    result, with exactly the two properties ro.crypto.state=encrypted and
    vold.decrypt=1 set and nothing enqueued; status 0 is the Unencrypted
    result, with the one property ro.crypto.state=unencrypted set and the
    "nonencrypted" triggers enqueued; any other status is handed back as
    the Error result, with no property set and nothing enqueued. *)
Theorem do_mount_all_exit_status (w : world) (cmd path : string) (s : state) :
  0 < w_fork w ->
  WIFEXITED (w_wstatus w) = true ->
  let code := WEXITSTATUS (w_wstatus w) in
  let run := do_mount_all w [cmd; path] s in
  let parent := [EvFork (w_fork w); EvWaitpid (w_fork w) (w_wstatus w)] in
  (code = 1 ->
     batch_mount_result code = Encrypted
     /\ run = Return code
          (extend (parent ++ [EvPropertySet "ro.crypto.state" "encrypted";
                              EvPropertySet "vold.decrypt" "1"]) s))
  /\ (code = 0 ->
     batch_mount_result code = Unencrypted
     /\ run = Return code
          (extend (parent ++ [EvPropertySet "ro.crypto.state" "unencrypted";
                              EvActionForEachTrigger "nonencrypted"]) s))
  /\ (code <> 1 -> code <> 0 ->
     batch_mount_result code = Error
     /\ run = Return code (extend parent s)).
Proof.
  intros Hpid Hexit code run parent. subst run parent.
  rewrite (do_mount_all_parent w cmd path s Hpid Hexit). fold code.
  unfold batch_mount_result.
  split; [|split].
  - intros H. rewrite H. split; reflexivity.
  - intros H. rewrite H. split; reflexivity.
  - intros H1 H0. apply Z.eqb_neq in H1, H0. rewrite H1, H0.
    split; reflexivity.
Qed.

Lemma do_mount_all_exit_status_witness :
  batch_mount_result 1 = Encrypted
  /\ do_mount_all (parent_world 256) ["mount_all"; "/fstab.device"] boot_state
     = Return 1
         (State [EvFork 1234; EvWaitpid 1234 256;
                 EvPropertySet "ro.crypto.state" "encrypted";
                 EvPropertySet "vold.decrypt" "1"] [] [] 0).
Proof.
  apply (proj1 (do_mount_all_exit_status (parent_world 256) "mount_all"
                  "/fstab.device" boot_state eq_refl eq_refl)).
  reflexivity.
Defined.

(** ** The mount of the else branch and its follow-ups *)

(** In the [else] branch, a failed mount of a target that begins with
    "/data" sets ro.init.mountdatafail and then falls through to
    [exit_success]. *)
Lemma mount_data_failure w fuel cmd system source target toks s :
  let o := parse_mount_args toks in
  let pre := wait_events w o source in
  default_branch system source = true ->
  strncmp_eq source "inand@" 6 = false ->
  (String.length source < 64)%nat ->
  strncmp_eq target "/data" 5 = true ->
  w_mount w (count_events is_mount (st_trace s)) source target system
    (mo_flags o) (mo_options o) = false ->
  do_mount w fuel (cmd :: system :: source :: target :: toks) s
  = Return 0
      (extend (pre ++ [EvMount source target system (mo_flags o)
                         (mo_options o) (-1);
                       EvPropertyGet "ro.init.mountdatafail";
                       EvPropertySet "ro.init.mountdatafail" "true"]) s).
Proof.
  intros o pre Hdef Hinand Hlen Hdata Hfail.
  rewrite (do_mount_default_branch _ _ _ _ _ _ _ Hdef). fold o.
  rewrite do_mount_default_wait. fold pre.
  unfold resolve_source, strcpy_tmp. rewrite Hinand.
  apply Nat.leb_gt in Hlen. rewrite Hlen.
  rewrite (bind_value (value source) _ _ _ _ eq_refl); cbv beta.
  rewrite mount_or_recover_eq. cbv zeta.
  replace (count_events is_mount (st_trace (extend pre s)))
    with (count_events is_mount (st_trace s)).
  2:{ simpl. rewrite count_events_app. unfold pre, wait_events.
      destruct (mo_wait o); cbn; lia. }
  rewrite Hfail.
  destruct (strncmp_eq target "/cache" 6) eqn:Hcache.
  { rewrite (cache_is_not_data _ Hcache) in Hdata. discriminate. }
  rewrite andb_false_r, Hdata, extend_extend. reflexivity.
Qed.

(** C1.  The run that breaks the claim: [mount ext4 /dev/block/mmcblk0p6
    /data] with a failing mount sets ro.init.mountdatafail to "true", as the
    claim says, but the value handed back is 0, the success value, and not
    the failure of the mount. *)
Theorem data_mount_failure_returns_success :
  do_mount bleak_world 1
    ["mount"; "ext4"; "/dev/block/mmcblk0p6"; "/data"] boot_state
  = Return 0
      (State [EvMount "/dev/block/mmcblk0p6" "/data" "ext4" 0 None (-1);
              EvPropertyGet "ro.init.mountdatafail";
              EvPropertySet "ro.init.mountdatafail" "true"] [] [] 0).
Proof.
  exact (mount_data_failure bleak_world 1 "mount" "ext4"
           "/dev/block/mmcblk0p6" "/data" [] boot_state
           eq_refl eq_refl ltac:(simpl; lia) eq_refl eq_refl).
Qed.

(** C3, as amended.  In every run of [do_mount] whose first mount attempt
    fails, format recovery ([make_ext4fs], then a second mount) runs if and
    only if the run is in the [else] branch (the source begins with neither
    "mtd@" nor "loop@" and the filesystem type does not begin with "ubifs"),
    the filesystem type begins with "ext4" and the target begins with
    "/cache": the comparisons are [strncmp] on a prefix, not equality. *)
Theorem format_recovery_iff w fuel cmd system source target toks s :
  let tr := new_events s
              (do_mount w fuel (cmd :: system :: source :: target :: toks) s) in
  first_mount_failed tr = true ->
  (format_ran tr = true <->
   default_branch system source && strncmp_eq system "ext4" 4
   && strncmp_eq target "/cache" 6 = true).
Proof.
  intros tr.
  destruct (do_mount_summary w fuel cmd system source target toks s)
    as (evs & Htr & Hfmt & _).
  unfold tr. rewrite (new_events_trace _ _ _ Htr). exact Hfmt.
Qed.

Lemma format_recovery_iff_witness :
  format_ran
    (new_events boot_state
       (do_mount (cache_world 0 true) 1
          ["mount"; "ext4"; "/dev/block/mmcblk0p5"; "/cache"] boot_state))
  = true <->
  default_branch "ext4" "/dev/block/mmcblk0p5" && strncmp_eq "ext4" "ext4" 4
  && strncmp_eq "/cache" "/cache" 6 = true.
Proof.
  apply (format_recovery_iff (cache_world 0 true) 1 "mount" "ext4"
           "/dev/block/mmcblk0p5" "/cache" [] boot_state).
  reflexivity.
Defined.

(** C3, the claim as stated fails in both directions.  With the type "ext4"
    and the target "/cache2" a failed mount is followed by the format
    although the target is not "/cache"; with the type "ext4", the target
    "/cache" and an mtd@ source a failed mount is not followed by it. *)
Lemma format_recovery_not_exact :
  (let tr := new_events boot_state
               (do_mount (cache_world 0 false) 1
                  ["mount"; "ext4"; "/dev/block/mmcblk0p5"; "/cache2"]
                  boot_state) in
   first_mount_failed tr = true /\ format_ran tr = true
   /\ "/cache2" <> "/cache")
  /\ (let tr := new_events boot_state
                  (do_mount never_appears_world 1
                     ["mount"; "ext4"; "mtd@cache"; "/cache"] boot_state) in
      first_mount_failed tr = true /\ format_ran tr = false).
Proof. repeat split. discriminate. Qed.

(** C4, as amended.  Whenever format recovery runs in [do_mount], it is one
    call of [make_ext4fs] on the device whose mount just failed, followed by
    one more mount of that device, and the second mount alone decides the
    result: the call returns -2 when it fails and 0 when it succeeds,
    whatever [make_ext4fs] returned. *)
Theorem format_recovery_result w fuel cmd system source target toks s :
  let o := parse_mount_args toks in
  let run := do_mount w fuel (cmd :: system :: source :: target :: toks) s in
  format_ran (new_events s run) = true ->
  exists pre dev rf r2,
    let m := EvMount dev target system (mo_flags o) (mo_options o) in
    quiet pre = true
    /\ new_events s run = pre ++ [m (-1); EvMakeExt4fs dev 0 target rf; m r2]
    /\ count_events is_make_ext4fs (new_events s run) = 1%nat
    /\ (r2 = 0 /\ run = Return 0 (final_state run)
        \/ r2 = -1 /\ run = Return (-2) (final_state run)).
Proof.
  intros o run.
  destruct (do_mount_summary w fuel cmd system source target toks s)
    as (evs & Htr & _ & _ & Hshape).
  fold run in Htr. rewrite (new_events_trace _ _ _ Htr). intros Hran.
  destruct (Hshape Hran) as (pre & dev & rf & r2 & Hq & Hevs & Hres).
  exists pre, dev, rf, r2. cbv zeta. split; [exact Hq|].
  split; [exact Hevs|]. split.
  - rewrite Hevs, count_events_app.
    replace (count_events is_make_ext4fs pre) with O; [reflexivity|].
    clear -Hq. induction pre as [|e pre IH]; [reflexivity|].
    simpl in Hq. apply andb_true_iff in Hq as [He Hq].
    apply andb_true_iff in He as [_ He]. apply negb_true_iff in He.
    unfold count_events in *. simpl. rewrite He. apply IH, Hq.
  - fold o run in Hres.
    destruct Hres as [[-> Hrun]|[-> Hrun]]; [left|right];
      (split; [reflexivity|]); rewrite Hrun; reflexivity.
Qed.

Lemma format_recovery_result_witness :
  exists pre dev rf r2,
    quiet pre = true
    /\ new_events boot_state
         (do_mount (cache_world 0 true) 1
            ["mount"; "ext4"; "/dev/block/mmcblk0p5"; "/cache"] boot_state)
       = pre ++ [EvMount dev "/cache" "ext4" 0 None (-1);
                 EvMakeExt4fs dev 0 "/cache" rf;
                 EvMount dev "/cache" "ext4" 0 None r2]
    /\ count_events is_make_ext4fs
         (new_events boot_state
            (do_mount (cache_world 0 true) 1
               ["mount"; "ext4"; "/dev/block/mmcblk0p5"; "/cache"] boot_state))
       = 1%nat
    /\ (r2 = 0
        /\ do_mount (cache_world 0 true) 1
             ["mount"; "ext4"; "/dev/block/mmcblk0p5"; "/cache"] boot_state
           = Return 0
               (final_state
                  (do_mount (cache_world 0 true) 1
                     ["mount"; "ext4"; "/dev/block/mmcblk0p5"; "/cache"]
                     boot_state))
        \/ r2 = -1
           /\ do_mount (cache_world 0 true) 1
                ["mount"; "ext4"; "/dev/block/mmcblk0p5"; "/cache"] boot_state
              = Return (-2)
                  (final_state
                     (do_mount (cache_world 0 true) 1
                        ["mount"; "ext4"; "/dev/block/mmcblk0p5"; "/cache"]
                        boot_state))).
Proof.
  apply (format_recovery_result (cache_world 0 true) 1 "mount" "ext4"
           "/dev/block/mmcblk0p5" "/cache" [] boot_state).
  reflexivity.
Defined.

(** The scenario of the specification: the mount of /cache fails, the
    format succeeds, the second mount succeeds; the call returns 0 and
    [make_ext4fs] was called once. *)
Example cache_recovered :
  do_mount (cache_world 0 true) 1
    ["mount"; "ext4"; "/dev/block/mmcblk0p5"; "/cache"] boot_state
  = Return 0
      (State [EvMount "/dev/block/mmcblk0p5" "/cache" "ext4" 0 None (-1);
              EvMakeExt4fs "/dev/block/mmcblk0p5" 0 "/cache" 0;
              EvMount "/dev/block/mmcblk0p5" "/cache" "ext4" 0 None 0]
             [] [] 0).
Proof. reflexivity. Qed.

(** C4, the claim as stated fails: the mount of /cache fails, [make_ext4fs]
    fails as well (it returns -1), the second mount succeeds, and the call
    returns 0 instead of an error. *)
Lemma format_failure_not_fatal :
  do_mount (cache_world (-1) true) 1
    ["mount"; "ext4"; "/dev/block/mmcblk0p5"; "/cache"] boot_state
  = Return 0
      (State [EvMount "/dev/block/mmcblk0p5" "/cache" "ext4" 0 None (-1);
              EvMakeExt4fs "/dev/block/mmcblk0p5" 0 "/cache" (-1);
              EvMount "/dev/block/mmcblk0p5" "/cache" "ext4" 0 None 0]
             [] [] 0).
Proof. reflexivity. Qed.

(** ** The inand alias *)

Lemma inand_is_default system source :
  strncmp_eq system "ubifs" 5 = false ->
  strncmp_eq source "inand@" 6 = true ->
  default_branch system source = true.
Proof.
  intros Hu Hi. unfold default_branch. rewrite Hu.
  destruct source as [|a source]; [discriminate|].
  simpl in Hi. destruct (Ascii.eqb_spec a "i"%char) as [->|]; [|discriminate].
  reflexivity.
Qed.

Lemma mount_or_recover_first_event w system target o tmp s :
  exists ret r rest,
    mount_or_recover w system target o tmp s
    = Return ret
        (extend (EvMount tmp target system (mo_flags o) (mo_options o) r
                 :: rest) s).
Proof.
  rewrite mount_or_recover_eq. cbv zeta.
  repeat match goal with
         | |- context [if ?b then _ else _] => destruct b
         end; eexists _, _, _; reflexivity.
Qed.

(** C7, as amended.  In a run of [do_mount] with an inand@<label> source
    and a filesystem type that does not begin with "ubifs", the label is
    looked up again and again, each lookup followed by [usleep(200000)],
    with no bound on the number of rounds: when every lookup fails the run
    is still polling however much fuel it is given, so the call never
    returns; when the lookup first succeeds, with index N, the poll ends and
    the rest of the call mounts "/dev/block/cardblkinand<N>". *)
Theorem inand_poll_unbounded w fuel cmd system source target toks s :
  let o := parse_mount_args toks in
  let name := str_offset source 6 in
  let k := count_events is_inand_lookup (st_trace s) in
  let pre := wait_events w o source in
  let run := do_mount w fuel (cmd :: system :: source :: target :: toks) s in
  strncmp_eq system "ubifs" 5 = false ->
  strncmp_eq source "inand@" 6 = true ->
  ((forall i, w_inand w (k + i)%nat name < 0) ->
   run = OutOfFuel (extend (pre ++ poll_events w k name fuel) s))
  /\ (forall j,
        (forall i, (i < j)%nat -> w_inand w (k + i)%nat name < 0) ->
        0 <= w_inand w (k + j)%nat name ->
        (j < fuel)%nat ->
        let dev := "/dev/block/cardblkinand"
                   +:+ pretty (w_inand w (k + j)%nat name) in
        run = mount_or_recover w system target o dev
                (extend (pre ++ poll_events w k name (S j)) s)
        /\ exists r rest,
             new_events s run
             = pre ++ poll_events w k name (S j)
               ++ EvMount dev target system (mo_flags o) (mo_options o) r
                  :: rest).
Proof.
  intros o name k pre run Hu Hi. subst name.
  assert (run = (tmp <- resolve_source w fuel source ;;
                 mount_or_recover w system target o tmp) (extend pre s))
    as Hrun.
  { unfold run.
    rewrite (do_mount_default_branch _ _ _ _ _ _ _ (inand_is_default _ _ Hu Hi)).
    apply do_mount_default_wait. }
  assert (count_events is_inand_lookup (st_trace (extend pre s)) = k) as Hk.
  { apply wait_events_no_lookup. }
  unfold resolve_source in Hrun. rewrite Hi, bind_assoc in Hrun.
  split.
  - intros Hfail. rewrite Hrun. unfold bind at 1.
    rewrite (inand_poll_failing w (str_offset source 6) fuel (extend pre s)).
    + rewrite Hk, extend_extend. reflexivity.
    + intros i _. rewrite Hk. apply Hfail.
  - intros j Hfail Hok Hfuel dev.
    assert (run = mount_or_recover w system target o dev
                    (extend (pre ++ poll_events w k (str_offset source 6) (S j)) s)) as Hgo.
    { rewrite Hrun.
      rewrite (bind_value _ _ _ _ _
                 (inand_poll_found w (str_offset source 6) fuel j (extend pre s)
                    ltac:(rewrite Hk; exact Hfail)
                    ltac:(rewrite Hk; exact Hok) Hfuel)).
      cbv beta.
      rewrite (bind_value (value _) _ _ _ _ eq_refl); cbv beta.
      rewrite Hk, extend_extend. reflexivity. }
    split; [exact Hgo|].
    destruct (mount_or_recover_first_event w system target o dev
                (extend (pre ++ poll_events w k (str_offset source 6) (S j)) s))
      as (ret & r & rest & Heq).
    exists r, rest. rewrite Hgo, Heq, extend_extend.
    unfold new_events. simpl. rewrite drop_app_length, <- app_assoc.
    reflexivity.
Qed.

Lemma inand_poll_unbounded_witness :
  do_mount bleak_world 3
    ["mount"; "ext4"; "inand@system"; "/system"; "ro"] boot_state
  = OutOfFuel
      (State [EvInandNameToNumber "system" (-1); EvUsleep 200000;
              EvInandNameToNumber "system" (-1); EvUsleep 200000;
              EvInandNameToNumber "system" (-1); EvUsleep 200000] [] [] 0).
Proof.
  apply (proj1 (inand_poll_unbounded bleak_world 3 "mount" "ext4"
                  "inand@system" "/system" ["ro"] boot_state
                  eq_refl eq_refl)).
  intros i. reflexivity.
Defined.

(** The inand table of [inand_world] appears at the third lookup: the call
    polls three times and then mounts /dev/block/cardblkinand2. *)
Example inand_resolved :
  do_mount inand_world 3
    ["mount"; "ext4"; "inand@system"; "/system"; "ro"] boot_state
  = Return 0
      (State [EvInandNameToNumber "system" (-1); EvUsleep 200000;
              EvInandNameToNumber "system" (-1); EvUsleep 200000;
              EvInandNameToNumber "system" 2; EvUsleep 200000;
              EvMount "/dev/block/cardblkinand2" "/system" "ext4" 1 None 0]
             [] [] 0).
Proof. reflexivity. Qed.

(** C7, the claim as stated fails for a filesystem type that begins with
    "ubifs": that branch is taken before the source is looked at, so an
    inand@ source is handed to [mount] as it is, no lookup is made, and the
    call returns although every lookup would fail. *)
Lemma inand_alias_skipped_for_ubifs :
  (forall k, w_inand bleak_world k "system" < 0)
  /\ do_mount bleak_world 1
       ["mount"; "ubifs"; "inand@system"; "/system"] boot_state
     = Return (-1)
         (State [EvMount "inand@system" "/system" "ubifs" 0 None (-1);
                 EvMount "inand@system" "/system" "ubifs" 0 None (-1)]
                [] [] 0).
Proof. split; [intros k|]; reflexivity. Qed.

(** ** The wait for the device file *)

(** C2, as amended.  When wait is requested, only two branches of
    [do_mount] wait, and a timeout is never an error of the call.  In the
    [else] branch [wait_for_file] is called once, for the source as
    written, with the bound [COMMAND_RETRY_TIMEOUT], its result is thrown
    away, and the call then goes on exactly as one without wait would, so a
    literal source is mounted whether or not it appeared.  In the mtd@
    branch with a known label it is called once for the resolved device,
    the mount is attempted next, and the mount alone decides between 0 and
    -1.  In the mtd@ branch with an unknown label the call returns -1
    before any wait, and in the ubifs and the loop@ branch [wait_for_file]
    is never called: there the wait option has no effect. *)
Theorem wait_result_discarded w fuel cmd system source target toks s :
  let o := parse_mount_args toks in
  let timeout := COMMAND_RETRY_TIMEOUT w in
  let run := do_mount w fuel (cmd :: system :: source :: target :: toks) s in
  mo_wait o = true ->
  (default_branch system source = true ->
   let waited := EvWaitForFile source timeout
                   (w_wait_for_file w source timeout) in
   run = do_mount_default w fuel system source target
           (MountOpts (mo_flags o) false (mo_options o)) (extend [waited] s)
   /\ (strncmp_eq source "inand@" 6 = false ->
       (String.length source < 64)%nat ->
       exists ret r rest,
         run = Return ret
                 (extend (waited
                          :: EvMount source target system (mo_flags o)
                               (mo_options o) r
                          :: rest) s)))
  /\ (strncmp_eq source "mtd@" 4 = true ->
      let name := str_offset source 4 in
      let n := w_mtd w name in
      let dev := "/dev/block/mtdblock" +:+ pretty n in
      let pre := [EvMtdNameToNumber name n;
                  EvWaitForFile dev timeout (w_wait_for_file w dev timeout)] in
      let m := EvMount dev target system (mo_flags o) (mo_options o) in
      0 <= n ->
      run = if w_mount w (count_events is_mount (st_trace s)) dev target
                 system (mo_flags o) (mo_options o)
            then Return 0 (extend (pre ++ [m 0]) s)
            else Return (-1) (extend (pre ++ [m (-1)]) s))
  /\ (strncmp_eq source "mtd@" 4 = true ->
      let name := str_offset source 4 in
      let n := w_mtd w name in
      n < 0 ->
      run = Return (-1) (extend [EvMtdNameToNumber name n] s))
  /\ (strncmp_eq source "mtd@" 4 = false ->
      strncmp_eq system "ubifs" 5 = true
      \/ strncmp_eq source "loop@" 5 = true ->
      existsb is_wait (new_events s run) = false).
Proof.
  intros o timeout run Hwait. split; [|split; [|split]].
  - intros Hdef waited.
    assert (run = (tmp <- resolve_source w fuel source ;;
                   mount_or_recover w system target o tmp)
                    (extend [waited] s)) as Hrun.
    { unfold run. rewrite (do_mount_default_branch _ _ _ _ _ _ _ Hdef).
      fold o. rewrite do_mount_default_wait. unfold wait_events.
      rewrite Hwait. reflexivity. }
    split.
    + rewrite Hrun, do_mount_default_wait. unfold wait_events.
      cbn [mo_wait]. rewrite extend_nil. reflexivity.
    + intros Hinand Hlen. rewrite Hrun.
      unfold resolve_source, strcpy_tmp. rewrite Hinand.
      apply Nat.leb_gt in Hlen. rewrite Hlen.
      rewrite (bind_value (value source) _ _ _ _ eq_refl); cbv beta.
      destruct (mount_or_recover_first_event w system target o source
                  (extend [waited] s)) as (ret & r & rest & Heq).
      exists ret, r, rest. rewrite Heq, extend_extend. reflexivity.
  - intros Hmtd name n dev pre m Hn.
    unfold run, do_mount. rewrite Hmtd. fold o.
    rewrite do_mount_mtd_eq. cbv zeta. fold name n dev.
    apply Z.ltb_ge in Hn. rewrite Hn. unfold wait_events. rewrite Hwait.
    reflexivity.
  - intros Hmtd name n Hn.
    unfold run, do_mount. rewrite Hmtd. fold o.
    rewrite do_mount_mtd_eq. cbv zeta. fold name n.
    apply Z.ltb_lt in Hn. rewrite Hn. reflexivity.
  - intros Hmtd Hbranch. unfold run, do_mount. rewrite Hmtd. fold o.
    destruct (strncmp_eq system "ubifs" 5) eqn:Hu.
    + rewrite do_mount_ubifs_eq. cbv zeta.
      destruct (w_mount w _ source target system (mo_flags o) (mo_options o));
        [|destruct (w_mount w _ source target system (mo_flags o)
                      (mo_options o))];
        (erewrite new_events_trace by reflexivity); reflexivity.
    + destruct Hbranch as [Hb|Hl]; [discriminate|]. rewrite Hl.
      destruct (do_mount_loop_summary w fuel system source target o s)
        as (evs & Htr & Hm & _).
      rewrite (new_events_trace _ evs s Htr).
      apply (mounts_only evs Hm).
Qed.

Lemma wait_result_discarded_witness :
  do_mount never_appears_world 1
    ["mount"; "yaffs2"; "mtd@system"; "/system"; "ro"; "wait"] boot_state
  = Return (-1)
      (State [EvMtdNameToNumber "system" 3;
              EvWaitForFile "/dev/block/mtdblock3" 5 (-1);
              EvMount "/dev/block/mtdblock3" "/system" "yaffs2" 1 None (-1)]
             [] [] 0).
Proof.
  apply (proj1 (proj2 (wait_result_discarded never_appears_world 1 "mount"
                         "yaffs2" "mtd@system" "/system" ["ro"; "wait"]
                         boot_state eq_refl))
           eq_refl).
  discriminate.
Defined.

(** C2, the claim as stated fails.  In [never_appears_world] no waited-for
    path ever appears.  [mount tmpfs tmpfs /mnt/asec wait]: the wait times
    out, the mount is made all the same, and the call returns 0.  [mount
    yaffs2 mtd@system /system wait]: the wait for /dev/block/mtdblock3
    times out and the mount is attempted all the same. *)
Lemma wait_timeout_not_fatal :
  (forall path timeout, w_wait_for_file never_appears_world path timeout < 0)
  /\ do_mount never_appears_world 1
       ["mount"; "tmpfs"; "tmpfs"; "/mnt/asec"; "wait"] boot_state
     = Return 0
         (State [EvWaitForFile "tmpfs" 5 (-1);
                 EvMount "tmpfs" "/mnt/asec" "tmpfs" 0 None 0] [] [] 0)
  /\ do_mount never_appears_world 1
       ["mount"; "yaffs2"; "mtd@system"; "/system"; "wait"] boot_state
     = Return (-1)
         (State [EvMtdNameToNumber "system" 3;
                 EvWaitForFile "/dev/block/mtdblock3" 5 (-1);
                 EvMount "/dev/block/mtdblock3" "/system" "yaffs2" 0 None (-1)]
                [] [] 0).
Proof. split; [intros path timeout|split]; reflexivity. Qed.

(** ** Return values *)






(** ** Descriptors and loop devices *)

Lemma lowest_unused_ge used cand fuel : cand <= lowest_unused used cand fuel.
Proof.
  revert cand. induction fuel as [|fuel IH]; intros cand; simpl; [lia|].
  destruct (bool_decide (cand ∈ used)); [|lia].
  specialize (IH (cand + 1)). lia.
Qed.

Lemma filter_leb_shrinks used cand :
  cand ∈ used ->
  (length (List.filter (Z.leb (cand + 1)) used)
   < length (List.filter (Z.leb cand) used))%nat.
Proof.
  induction used as [|x used IH]; intros Hin.
  - apply elem_of_nil in Hin. contradiction.
  - assert (length (List.filter (Z.leb (cand + 1)) used)
            <= length (List.filter (Z.leb cand) used))%nat as Hle.
    { clear. induction used as [|y used IH]; simpl; [lia|].
      destruct (Z.leb_spec (cand + 1) y), (Z.leb_spec cand y);
        simpl; lia. }
    simpl. apply elem_of_cons in Hin as [<-|Hin].
    + rewrite Z.leb_refl.
      destruct (Z.leb_spec (cand + 1) cand); [lia|]. simpl. lia.
    + specialize (IH Hin).
      destruct (Z.leb_spec (cand + 1) x), (Z.leb_spec cand x); simpl; lia.
Qed.

Lemma lowest_unused_fresh used cand fuel :
  (length (List.filter (Z.leb cand) used) <= fuel)%nat ->
  lowest_unused used cand fuel ∉ used.
Proof.
  revert cand. induction fuel as [|fuel IH]; intros cand Hlen; simpl.
  - intros Hin. pose proof (filter_leb_shrinks used cand Hin). lia.
  - destruct (bool_decide (cand ∈ used)) eqn:Hdec.
    + apply bool_decide_eq_true in Hdec. apply IH.
      pose proof (filter_leb_shrinks used cand Hdec). lia.
    + apply bool_decide_eq_false in Hdec. exact Hdec.
Qed.

Lemma fd_lookup_None fds fd : fd_lookup fds fd = None <-> fd ∉ map fst fds.
Proof.
  induction fds as [|[k f] fds IH]; simpl.
  - split; [intros _; apply not_elem_of_nil|reflexivity].
  - rewrite not_elem_of_cons. destruct (Z.eqb_spec k fd) as [->|Hne].
    + split; [discriminate|intros [H _]; contradiction].
    + rewrite IH. split; [intros H; split; [congruence|exact H]|tauto].
Qed.

(** [open] hands out a descriptor that is not in use, and not negative. *)
Lemma alloc_fd_fresh fds : fd_lookup fds (alloc_fd fds) = None.
Proof.
  apply fd_lookup_None. unfold alloc_fd. apply lowest_unused_fresh.
  rewrite <- (length_map fst fds). apply List.filter_length_le.
Qed.

Lemma alloc_fd_nonneg fds : 0 <= alloc_fd fds.
Proof. apply lowest_unused_ge. Qed.

Lemma close_filter fds fd :
  fd_lookup fds fd = None ->
  filter (fun p : Z * file => fst p <> fd) fds = fds.
Proof.
  induction fds as [|[k f] fds IH]; intros H; [reflexivity|].
  simpl in H. destruct (Z.eqb_spec k fd) as [|Hne]; [discriminate|].
  rewrite filter_cons, decide_True by exact Hne. rewrite (IH H). reflexivity.
Qed.












(** ** The slot scan *)








(** C9.  The run that breaks the claim: every loop device that exists is
    configured, so the scan reaches a device that cannot be opened and the
    call returns -1 at once; the descriptor of the backing file, 0, which
    was not open before the call, is still open after it. *)
Theorem backing_fd_leaks_when_scan_fails :
  st_fds busy_loops = []
  /\ do_mount (image_world true) 2
       ["mount"; "ext4"; "loop@/data/fs.img"; "/mnt/img"] busy_loops
     = Return (-1)
         (State [] [(0, FPath "/data/fs.img")]
                [Some (FPath "/system/a.img")] ENOENT).
Proof. split; reflexivity. Qed.

(** * The other built-ins *)

(** ** get_mode *)

Lemma lor_shiftl3 m d : 0 <= m -> 0 <= d < 8 -> Z.lor (Z.shiftl m 3) d = m * 8 + d.
Proof.
  intros Hm Hd. rewrite Z.shiftl_mul_pow2 by lia. change (2 ^ 3) with 8.
  rewrite <- Z.lxor_lor, <- Z.add_nocarry_lxor; try reflexivity.
  all: apply Z.bits_inj'; intros n Hn; rewrite Z.land_spec, Z.bits_0.
  all: destruct (Z.lt_ge_cases n 3) as [Hlt|Hge].
  all: try (replace (m * 8) with (m * 2 ^ 3) by lia;
            rewrite Z.mul_pow2_bits_low by lia; reflexivity).
  all: assert (Z.testbit d n = false) as ->;
    [|apply andb_false_r].
  all: destruct (Z.eq_dec d 0) as [->|Hne]; [apply Z.bits_0|].
  all: apply Z.bits_above_log2; [lia|].
  all: apply Z.lt_le_trans with 3; [|lia].
  all: apply Z.log2_lt_pow2; lia.
Qed.

Lemma octal_digit_range c :
  is_octal_digit c = true -> 0 <= Z.of_nat (nat_of_ascii c) - 48 < 8.
Proof.
  unfold is_octal_digit. intros H. apply andb_true_iff in H as [H1 H2].
  apply Nat.leb_le in H1, H2. lia.
Qed.

Lemma octal_value_from_mod N s a :
  0 < N -> octal_value_from s (a mod N) mod N = octal_value_from s a mod N.
Proof.
  intros HN. revert a. induction s as [|c s IH]; intros a; simpl.
  - apply Z.mod_mod. lia.
  - rewrite <- (IH (a mod N * 8 + _)), <- (IH (a * 8 + _)). f_equal. f_equal.
    rewrite Z.add_mod, Z.mul_mod, Z.mod_mod by lia.
    rewrite <- Z.mul_mod, <- Z.add_mod by lia. reflexivity.
Qed.

Lemma octal_value_from_nonneg s a :
  all_octal s = true -> 0 <= a -> 0 <= octal_value_from s a.
Proof.
  revert a. induction s as [|c s IH]; intros a Hs Ha; simpl; [exact Ha|].
  simpl in Hs. apply andb_true_iff in Hs as [Hc Hs].
  apply IH; [exact Hs|]. pose proof (octal_digit_range c Hc). lia.
Qed.

Lemma get_mode_from_octal bits s mode :
  0 <= bits -> all_octal s = true -> 0 <= mode ->
  get_mode_from bits s mode mod 2 ^ bits
  = octal_value_from s mode mod 2 ^ bits
  /\ (s <> EmptyString ->
      get_mode_from bits s mode = octal_value_from s mode mod 2 ^ bits).
Proof.
  intros Hbits. assert (0 < 2 ^ bits) as HN by (apply Z.pow_pos_nonneg; lia).
  revert mode. induction s as [|c s IH]; intros mode Hs Hmode.
  - split; [reflexivity|congruence].
  - simpl in Hs. apply andb_true_iff in Hs as [Hc Hs].
    pose proof (octal_digit_range c Hc) as Hd.
    cbn [get_mode_from octal_value_from]. rewrite Hc.
    rewrite (lor_shiftl3 _ _ Hmode Hd). unfold to_mode_t.
    destruct (IH ((mode * 8 + (Z.of_nat (nat_of_ascii c) - 48)) mod 2 ^ bits)
                Hs ltac:(apply Z.mod_pos_bound; exact HN)) as [IH1 IH2].
    rewrite (octal_value_from_mod _ _ _ HN) in IH1, IH2.
    split; [exact IH1|]. intros _.
    destruct s as [|c' s']; [reflexivity|apply IH2; discriminate].
Qed.

Lemma octal_value_from_bound s a :
  all_octal s = true -> 0 <= a ->
  octal_value_from s a < (a + 1) * 8 ^ Z.of_nat (String.length s).
Proof.
  revert a. induction s as [|c s IH]; intros a Hs Ha.
  - simpl. lia.
  - simpl in Hs. apply andb_true_iff in Hs as [Hc Hs].
    pose proof (octal_digit_range c Hc) as Hd.
    cbn [octal_value_from String.length].
    specialize (IH (a * 8 + (Z.of_nat (nat_of_ascii c) - 48)) Hs ltac:(lia)).
    rewrite Nat2Z.inj_succ, Z.pow_succ_r by lia.
    assert (0 < 8 ^ Z.of_nat (String.length s))
      by (apply Z.pow_pos_nonneg; lia).
    nia.
Qed.

Lemma get_mode_mod bits s :
  0 <= bits ->
  all_octal s = true ->
  get_mode bits s = octal_value s mod 2 ^ bits.
Proof.
  intros Hbits Hs. unfold get_mode, octal_value. destruct s as [|c s].
  - simpl. symmetry. apply Z.mod_0_l.
    apply Z.neq_sym, Z.lt_neq, Z.pow_pos_nonneg; lia.
  - apply (get_mode_from_octal bits _ 0 Hbits Hs ltac:(lia)). discriminate.
Qed.

(** X1.  On a string of octal digits [get_mode] computes the number that
    the digits denote, cut to the width of [mode_t]; when the digits fit
    (three bits each) nothing is cut. *)
Theorem get_mode_octal bits s :
  0 <= bits ->
  all_octal s = true ->
  get_mode bits s = octal_value s mod 2 ^ bits
  /\ (3 * Z.of_nat (String.length s) <= bits -> get_mode bits s = octal_value s).
Proof.
  intros Hbits Hs.
  pose proof (get_mode_mod bits s Hbits Hs) as Heq.
  split; [exact Heq|]. intros Hfit. rewrite Heq. apply Z.mod_small.
  split; [apply octal_value_from_nonneg; [exact Hs|lia]|].
  pose proof (octal_value_from_bound s 0 Hs ltac:(lia)) as Hb.
  fold (octal_value s) in Hb.
  apply Z.lt_le_trans with (8 ^ Z.of_nat (String.length s)); [lia|].
  change 8 with (2 ^ 3). rewrite <- Z.pow_mul_r by lia.
  apply Z.pow_le_mono_r; lia.
Qed.

Lemma get_mode_octal_witness :
  get_mode 16 "0755" = octal_value "0755" mod 2 ^ 16
  /\ (3 * Z.of_nat (String.length "0755") <= 16 ->
      get_mode 16 "0755" = octal_value "0755").
Proof. apply (get_mode_octal 16 "0755"); [lia|reflexivity]. Defined.

Lemma get_mode_from_invalid bits s mode :
  all_octal s = false -> get_mode_from bits s mode = to_mode_t bits (-1).
Proof.
  revert mode. induction s as [|c s IH]; intros mode Hs; [discriminate|].
  simpl in Hs. cbn [get_mode_from].
  destruct (is_octal_digit c); [|reflexivity]. apply IH, Hs.
Qed.

(** X2.  As soon as one character of the string is not an octal digit,
    wherever it stands, [get_mode] returns [(mode_t) -1], the value with
    every bit set. *)
Theorem get_mode_invalid bits s :
  0 <= bits ->
  all_octal s = false ->
  get_mode bits s = 2 ^ bits - 1.
Proof.
  intros Hbits Hs. unfold get_mode. rewrite (get_mode_from_invalid _ _ _ Hs).
  unfold to_mode_t.
  assert (0 < 2 ^ bits) as HN by (apply Z.pow_pos_nonneg; lia).
  symmetry. apply (Z.mod_unique_pos _ _ (-1)); lia.
Qed.

Lemma get_mode_invalid_witness : get_mode 16 "75x" = 2 ^ 16 - 1.
Proof. apply get_mode_invalid; [lia|reflexivity]. Defined.

Lemma sevens_spec n :
  all_octal (sevens n) = true
  /\ String.length (sevens n) = n
  /\ forall v, octal_value_from (sevens n) v = (v + 1) * 8 ^ Z.of_nat n - 1.
Proof.
  induction n as [|n (IH1 & IH2 & IH3)].
  - repeat split. intros v. simpl. lia.
  - split; [simpl; exact IH1|]. split; [simpl; rewrite IH2; reflexivity|].
    intros v. cbn [sevens octal_value_from]. rewrite IH3.
    rewrite Nat2Z.inj_succ, Z.pow_succ_r by lia.
    change (Z.of_nat (nat_of_ascii "7") - 48) with 7. lia.
Qed.

(** X3.  A run of sevens long enough to fill [mode_t] is a string of octal
    digits on which [get_mode] returns the very value that it returns for
    an invalid string: the caller cannot tell the two apart. *)
Theorem get_mode_sevens bits n :
  0 <= bits ->
  bits <= 3 * Z.of_nat n ->
  all_octal (sevens n) = true /\ get_mode bits (sevens n) = 2 ^ bits - 1.
Proof.
  intros Hbits Hn. destruct (sevens_spec n) as (Hoct & _ & Hval).
  split; [exact Hoct|].
  rewrite (get_mode_mod bits _ Hbits Hoct).
  unfold octal_value. rewrite Hval.
  assert (0 < 2 ^ bits) as HN by (apply Z.pow_pos_nonneg; lia).
  replace ((0 + 1) * 8 ^ Z.of_nat n - 1)
    with (2 ^ bits - 1 + (2 ^ (3 * Z.of_nat n - bits) - 1) * 2 ^ bits).
  - rewrite Z.mod_add by lia. apply Z.mod_small. lia.
  - change 8 with (2 ^ 3). rewrite <- Z.pow_mul_r by lia.
    replace (2 ^ (3 * Z.of_nat n))
      with (2 ^ (3 * Z.of_nat n - bits) * 2 ^ bits).
    + lia.
    + rewrite <- Z.pow_add_r by lia. f_equal. lia.
Qed.

Lemma get_mode_sevens_witness :
  all_octal (sevens 6) = true /\ get_mode 16 (sevens 6) = 2 ^ 16 - 1.
Proof. apply get_mode_sevens; lia. Defined.

(** ** Single steps on the richer state *)

Local Open Scope xm_scope.

Lemma xbind_value {A B : Type} (m : X A) (k : A -> X B) x a x1 :
  m x = XValue a x1 -> xbind m k x = k a x1.
Proof. unfold xbind. intros ->. reflexivity. Qed.

Lemma xbind_assoc {A B C : Type} (m : X A) (k1 : A -> X B) (k2 : B -> X C) x :
  xbind (xbind m k1) k2 x = xbind m (fun a => xbind (k1 a) k2) x.
Proof. unfold xbind. destruct (m x); reflexivity. Qed.

Lemma call_return (body : X unit) x r x1 :
  body x = XReturn r x1 -> call body x = XValue r x1.
Proof. unfold call. intros ->. reflexivity. Qed.

Ltac xnorm := repeat (rewrite xbind_assoc; cbv beta).
Ltac xstep_with E := xnorm; rewrite (xbind_value _ _ _ _ _ E); cbv beta.
Ltac xstep_refl m := xnorm; rewrite (xbind_value m _ _ _ _ eq_refl); cbv beta.
Ltac xwhen_true :=
  xnorm;
  lazymatch goal with
  | |- context [xbind (xwhen true ?m) ?k ?x] =>
      change (xbind (xwhen true m) k x) with (xbind m k x)
  end.
Ltac xwhen_false :=
  xnorm; rewrite (xbind_value (xwhen false _) _ _ tt _ eq_refl); cbv beta.

Lemma absorb_same x fds L e :
  absorb x (State (base_events (x_trace x)) fds L e) = XState (x_trace x) fds L e.
Proof.
  unfold absorb. cbn [st_trace st_fds st_loops st_errno].
  rewrite drop_all. simpl. rewrite app_nil_r. reflexivity.
Qed.

Lemma absorb_event x ev fds L e :
  absorb x (State (base_events (x_trace x) ++ [ev]) fds L e)
  = XState (x_trace x ++ [Old ev]) fds L e.
Proof.
  unfold absorb. cbn [st_trace st_fds st_loops st_errno].
  rewrite drop_app_length. reflexivity.
Qed.

Lemma lift_sys_open w path mode x :
  lift (sys_open w path mode) x =
  match resolve_path w (to_state x) path mode with
  | Some f => XValue (alloc_fd (x_fds x)) (with_fd f x)
  | None => XValue (-1) (with_errno (w_open_errno w path mode) x)
  end.
Proof.
  unfold lift, sys_open. destruct (resolve_path w (to_state x) path mode).
  - unfold install, to_state. cbn [st_trace st_fds st_loops st_errno].
    rewrite absorb_same. reflexivity.
  - unfold set_errno, to_state. cbn [st_trace st_fds st_loops st_errno].
    rewrite absorb_same. reflexivity.
Qed.

Lemma lift_sys_open_some w path mode x f :
  resolve_path w (to_state x) path mode = Some f ->
  lift (sys_open w path mode) x = XValue (alloc_fd (x_fds x)) (with_fd f x).
Proof. intros H. rewrite lift_sys_open, H. reflexivity. Qed.

Lemma lift_sys_open_none w path mode x :
  resolve_path w (to_state x) path mode = None ->
  lift (sys_open w path mode) x
  = XValue (-1) (with_errno (w_open_errno w path mode) x).
Proof. intros H. rewrite lift_sys_open, H. reflexivity. Qed.

Lemma lift_sys_close fd x :
  lift (sys_close fd) x =
  match fd_lookup (x_fds x) fd with
  | Some _ =>
      XValue 0 (XState (x_trace x)
                  (filter (fun p : Z * file => fst p <> fd) (x_fds x))
                  (x_loops x) (x_errno x))
  | None => XValue (-1) (with_errno EBADF x)
  end.
Proof.
  unfold lift, sys_close, fd_file, to_state.
  cbn [st_trace st_fds st_loops st_errno].
  destruct (fd_lookup (x_fds x) fd).
  - rewrite absorb_same. reflexivity.
  - unfold set_errno. cbn [st_trace st_fds st_loops st_errno].
    rewrite absorb_same. reflexivity.
Qed.

(** Closing the descriptor that was opened last gives the table back. *)
Lemma lift_close_opened f tr fds L e :
  lift (sys_close (alloc_fd fds)) (XState tr ((alloc_fd fds, f) :: fds) L e)
  = XValue 0 (XState tr fds L e).
Proof.
  rewrite lift_sys_close. cbn [x_fds x_trace x_loops x_errno fd_lookup].
  rewrite Z.eqb_refl.
  rewrite filter_cons, decide_False by (simpl; tauto).
  rewrite (close_filter _ _ (alloc_fd_fresh fds)). reflexivity.
Qed.

Lemma lift_mount w source target fstype flags data x :
  let r := if w_mount w (count_events is_mount (base_events (x_trace x)))
                source target fstype flags data then 0 else -1 in
  lift (mount w source target fstype flags data) x
  = XValue r (xrecord (Old (EvMount source target fstype flags data r)) x).
Proof.
  cbv zeta. unfold lift, mount, record, to_state.
  cbn [st_trace st_fds st_loops st_errno]. rewrite absorb_event. reflexivity.
Qed.

Lemma lift_make_ext4fs w dev len target x :
  let r := w_make_ext4fs w dev target in
  lift (make_ext4fs w dev len target) x
  = XValue r (xrecord (Old (EvMakeExt4fs dev len target r)) x).
Proof.
  cbv zeta. unfold lift, make_ext4fs, record, to_state.
  cbn [st_trace st_fds st_loops st_errno]. rewrite absorb_event. reflexivity.
Qed.

Lemma lift_mtd_name_to_number w name x :
  lift (mtd_name_to_number w name) x
  = XValue (w_mtd w name) (xrecord (Old (EvMtdNameToNumber name (w_mtd w name))) x).
Proof.
  unfold lift, mtd_name_to_number, record, to_state.
  cbn [st_trace st_fds st_loops st_errno]. rewrite absorb_event. reflexivity.
Qed.

(** ** _open, _chown, _chmod *)

(** The file that [_open] gets hold of, and the state it is opened in: the
    read-only open, or after its failure the write-only one.  When both
    fail, errno is what the second open set. *)
Lemma call_open xw path x :
  call (_open xw path) x =
  match resolve_path (xw_base xw) (to_state x) path (Z.lor O_RDONLY O_NOFOLLOW)
  with
  | Some f => XValue (alloc_fd (x_fds x)) (with_fd f x)
  | None =>
      match resolve_path (xw_base xw) (to_state x) path
              (Z.lor O_WRONLY O_NOFOLLOW) with
      | Some f =>
          XValue (alloc_fd (x_fds x))
            (with_fd f
               (with_errno
                  (w_open_errno (xw_base xw) path (Z.lor O_RDONLY O_NOFOLLOW))
                  x))
      | None => XValue (-1) (with_errno (open_failure xw path) x)
      end
  end.
Proof.
  assert ((alloc_fd (x_fds x) <? 0) = false) as Hpos
    by apply Z.ltb_ge, alloc_fd_nonneg.
  set (e1 := w_open_errno (xw_base xw) path (Z.lor O_RDONLY O_NOFOLLOW)).
  destruct (resolve_path (xw_base xw) (to_state x) path
              (Z.lor O_RDONLY O_NOFOLLOW)) as [f|] eqn:Hro.
  - apply call_return. unfold _open.
    xstep_with (lift_sys_open_some _ _ _ x f Hro).
    rewrite Hpos. xstep_refl (xvalue (A:=Z) (alloc_fd (x_fds x))).
    reflexivity.
  - assert (lift (sys_open (xw_base xw) path (Z.lor O_RDONLY O_NOFOLLOW)) x
            = XValue (-1) (with_errno e1 x)) as H1
      by exact (lift_sys_open_none _ _ _ x Hro).
    destruct (resolve_path (xw_base xw) (to_state x) path
                (Z.lor O_WRONLY O_NOFOLLOW)) as [f|] eqn:Hrw.
    + apply call_return. unfold _open. xstep_with H1.
      change (-1 <? 0) with true. cbv iota.
      xstep_with (lift_sys_open_some (xw_base xw) path
                    (Z.lor O_WRONLY O_NOFOLLOW) (with_errno e1 x) f Hrw).
      reflexivity.
    + apply call_return. unfold _open. xstep_with H1.
      change (-1 <? 0) with true. cbv iota.
      xstep_with (lift_sys_open_none (xw_base xw) path
                    (Z.lor O_WRONLY O_NOFOLLOW) (with_errno e1 x) Hrw).
      reflexivity.
Qed.

Lemma fchown_opened xw uid gid f x0 :
  fchown xw (alloc_fd (x_fds x0)) uid gid (with_fd f x0)
  = answered_failure (EvFchown f uid gid (xw_fchown xw f uid gid))
      (xw_fchown xw f uid gid) (with_fd f x0).
Proof.
  unfold fchown, with_fd. cbn [x_fds fd_lookup]. rewrite Z.eqb_refl.
  reflexivity.
Qed.

Lemma fchmod_opened xw mode f x0 :
  fchmod xw (alloc_fd (x_fds x0)) mode (with_fd f x0)
  = answered_failure (EvFchmod f mode (xw_fchmod xw f mode))
      (xw_fchmod xw f mode) (with_fd f x0).
Proof.
  unfold fchmod, with_fd. cbn [x_fds fd_lookup]. rewrite Z.eqb_refl.
  reflexivity.
Qed.

Lemma chown_opened xw path uid gid x f x0 :
  call (_open xw path) x = XValue (alloc_fd (x_fds x0)) (with_fd f x0) ->
  call (_chown xw path uid gid) x
  = after_call (EvFchown f uid gid) (xw_fchown xw f uid gid) x0.
Proof.
  intros Ho.
  assert ((alloc_fd (x_fds x0) <? 0) = false) as Hpos
    by apply Z.ltb_ge, alloc_fd_nonneg.
  unfold after_call.
  destruct (xw_fchown xw f uid gid) as [e|] eqn:Hf; apply call_return;
    unfold _chown; xstep_with Ho; rewrite Hpos; xwhen_false;
    xstep_with (eq_trans (fchown_opened xw uid gid f x0)
                  ltac:(rewrite Hf; reflexivity)).
  - change (-1 <? 0) with true. xwhen_true.
    xstep_refl xget_errno.
    unfold with_errno, xrecord, with_fd.
    cbn [x_trace x_fds x_loops x_errno].
    xstep_with (lift_close_opened f (x_trace x0 ++ [EvFchown f uid gid (Some e)])
                  (x_fds x0) (x_loops x0) e).
    reflexivity.
  - change (0 <? 0) with false. xwhen_false.
    unfold xrecord, with_fd. cbn [x_trace x_fds x_loops x_errno].
    xstep_with (lift_close_opened f (x_trace x0 ++ [EvFchown f uid gid None])
                  (x_fds x0) (x_loops x0) (x_errno x0)).
    reflexivity.
Qed.

Lemma chmod_opened xw path mode x f x0 :
  call (_open xw path) x = XValue (alloc_fd (x_fds x0)) (with_fd f x0) ->
  call (_chmod xw path mode) x
  = after_call (EvFchmod f mode) (xw_fchmod xw f mode) x0.
Proof.
  intros Ho.
  assert ((alloc_fd (x_fds x0) <? 0) = false) as Hpos
    by apply Z.ltb_ge, alloc_fd_nonneg.
  unfold after_call.
  destruct (xw_fchmod xw f mode) as [e|] eqn:Hf; apply call_return;
    unfold _chmod; xstep_with Ho; rewrite Hpos; xwhen_false;
    xstep_with (eq_trans (fchmod_opened xw mode f x0)
                  ltac:(rewrite Hf; reflexivity)).
  - change (-1 <? 0) with true. xwhen_true.
    xstep_refl xget_errno.
    unfold with_errno, xrecord, with_fd.
    cbn [x_trace x_fds x_loops x_errno].
    xstep_with (lift_close_opened f (x_trace x0 ++ [EvFchmod f mode (Some e)])
                  (x_fds x0) (x_loops x0) e).
    reflexivity.
  - change (0 <? 0) with false. xwhen_false.
    unfold xrecord, with_fd. cbn [x_trace x_fds x_loops x_errno].
    xstep_with (lift_close_opened f (x_trace x0 ++ [EvFchmod f mode None])
                  (x_fds x0) (x_loops x0) (x_errno x0)).
    reflexivity.
Qed.

Lemma chown_unopened xw path uid gid x x1 :
  call (_open xw path) x = XValue (-1) x1 ->
  call (_chown xw path uid gid) x = XValue (-1) x1.
Proof.
  intros Ho. apply call_return. unfold _chown. xstep_with Ho. reflexivity.
Qed.

Lemma chmod_unopened xw path mode x x1 :
  call (_open xw path) x = XValue (-1) x1 ->
  call (_chmod xw path mode) x = XValue (-1) x1.
Proof.
  intros Ho. apply call_return. unfold _chmod. xstep_with Ho. reflexivity.
Qed.

(** The file a path is opened on by [_open], if any, and the state the
    open leaves. *)
Lemma call_open_cases xw path x :
  (exists f x0, call (_open xw path) x
                = XValue (alloc_fd (x_fds x0)) (with_fd f x0)
                /\ x_fds x0 = x_fds x /\ x_loops x0 = x_loops x
                /\ x_trace x0 = x_trace x
                /\ (resolve_path (xw_base xw) (to_state x) path
                      (Z.lor O_RDONLY O_NOFOLLOW) = Some f /\ x0 = x
                    \/ resolve_path (xw_base xw) (to_state x) path
                         (Z.lor O_RDONLY O_NOFOLLOW) = None
                       /\ resolve_path (xw_base xw) (to_state x) path
                            (Z.lor O_WRONLY O_NOFOLLOW) = Some f
                       /\ x0 = with_errno
                                 (w_open_errno (xw_base xw) path
                                    (Z.lor O_RDONLY O_NOFOLLOW)) x))
  \/ (call (_open xw path) x
      = XValue (-1) (with_errno (open_failure xw path) x)
      /\ resolve_path (xw_base xw) (to_state x) path
           (Z.lor O_RDONLY O_NOFOLLOW) = None
      /\ resolve_path (xw_base xw) (to_state x) path
           (Z.lor O_WRONLY O_NOFOLLOW) = None).
Proof.
  rewrite call_open.
  destruct (resolve_path (xw_base xw) (to_state x) path
              (Z.lor O_RDONLY O_NOFOLLOW)) as [f|] eqn:Hro.
  - left. exists f, x. repeat split; auto.
  - destruct (resolve_path (xw_base xw) (to_state x) path
                (Z.lor O_WRONLY O_NOFOLLOW)) as [f|] eqn:Hrw.
    + left.
      exists f, (with_errno (w_open_errno (xw_base xw) path
                               (Z.lor O_RDONLY O_NOFOLLOW)) x).
      repeat split; auto.
    + right. repeat split; auto.
Qed.

Lemma call_chown_eq xw path uid gid x :
  exists x0,
    only_added [] x x0
    /\ call (_chown xw path uid gid) x
       = match opened_file xw x path with
         | None => XValue (-1) (with_errno (open_failure xw path) x)
         | Some f => after_call (EvFchown f uid gid) (xw_fchown xw f uid gid) x0
         end.
Proof.
  unfold opened_file, only_added.
  destruct (call_open_cases xw path x)
    as [(f & x0 & Ho & Hfds & HL & Htr & [[Hro _]|(Hro & Hrw & _)])
       |(Ho & Hro & Hrw)];
    rewrite Hro; try rewrite Hrw.
  - exists x0. rewrite app_nil_r. repeat split; auto.
    apply chown_opened, Ho.
  - exists x0. rewrite app_nil_r. repeat split; auto.
    apply chown_opened, Ho.
  - exists x. rewrite app_nil_r. repeat split; auto.
    apply chown_unopened, Ho.
Qed.

Lemma call_chmod_eq xw path mode x :
  exists x0,
    only_added [] x x0
    /\ call (_chmod xw path mode) x
       = match opened_file xw x path with
         | None => XValue (-1) (with_errno (open_failure xw path) x)
         | Some f => after_call (EvFchmod f mode) (xw_fchmod xw f mode) x0
         end.
Proof.
  unfold opened_file, only_added.
  destruct (call_open_cases xw path x)
    as [(f & x0 & Ho & Hfds & HL & Htr & [[Hro _]|(Hro & Hrw & _)])
       |(Ho & Hro & Hrw)];
    rewrite Hro; try rewrite Hrw.
  - exists x0. rewrite app_nil_r. repeat split; auto.
    apply chmod_opened, Ho.
  - exists x0. rewrite app_nil_r. repeat split; auto.
    apply chmod_opened, Ho.
  - exists x. rewrite app_nil_r. repeat split; auto.
    apply chmod_unopened, Ho.
Qed.

(** X4.  [_chown] and [_chmod] never leak the descriptor they open:
    whatever the path and the answer of fchown or fchmod, the call returns
    0 or -1 with the descriptor table and the loop devices as they were
    before.  When the path can be opened, read-only or failing that
    write-only, the system call is made once on that file, and the result
    is 0 exactly when it succeeds.  When neither open succeeds nothing else
    is called, the result is -1, and errno is the one that the second, the
    write-only, open has set. *)
Theorem chown_chmod_close_descriptor xw path x :
  (forall uid gid, exists r x',
      call (_chown xw path uid gid) x = XValue r x'
      /\ x_fds x' = x_fds x /\ x_loops x' = x_loops x
      /\ match opened_file xw x path with
         | Some f =>
             x_trace x'
             = x_trace x ++ [EvFchown f uid gid (xw_fchown xw f uid gid)]
             /\ r = match xw_fchown xw f uid gid with
                    | None => 0
                    | Some _ => -1
                    end
         | None => r = -1 /\ x' = with_errno (open_failure xw path) x
         end)
  /\ (forall mode, exists r x',
      call (_chmod xw path mode) x = XValue r x'
      /\ x_fds x' = x_fds x /\ x_loops x' = x_loops x
      /\ match opened_file xw x path with
         | Some f =>
             x_trace x'
             = x_trace x ++ [EvFchmod f mode (xw_fchmod xw f mode)]
             /\ r = match xw_fchmod xw f mode with
                    | None => 0
                    | Some _ => -1
                    end
         | None => r = -1 /\ x' = with_errno (open_failure xw path) x
         end).
Proof.
  split.
  - intros uid gid.
    destruct (call_chown_eq xw path uid gid x) as (x0 & (Htr & Hfds & HL) & Hc).
    rewrite app_nil_r in Htr. rewrite Hc. unfold after_call.
    destruct (opened_file xw x path) as [f|].
    + destruct (xw_fchown xw f uid gid) as [e|];
        eexists _, _; (split; [reflexivity|]);
        cbn [xextend with_errno x_fds x_loops x_trace x_errno];
        rewrite Hfds, HL, Htr; auto.
    + eexists _, _. split; [reflexivity|]. auto.
  - intros mode.
    destruct (call_chmod_eq xw path mode x) as (x0 & (Htr & Hfds & HL) & Hc).
    rewrite app_nil_r in Htr. rewrite Hc. unfold after_call.
    destruct (opened_file xw x path) as [f|].
    + destruct (xw_fchmod xw f mode) as [e|];
        eexists _, _; (split; [reflexivity|]);
        cbn [xextend with_errno x_fds x_loops x_trace x_errno];
        rewrite Hfds, HL, Htr; auto.
    + eexists _, _. split; [reflexivity|]. auto.
Qed.

(** [if (f(...) < 0) return -errno; return 0;] *)
Lemma negated_errno (m : X Z) x r x1 :
  m x = XValue r x1 ->
  (r0 <- m ;;
   xwhen (r0 <? 0) (errno <- xget_errno ;; xreturn (- errno)) ;;
   xreturn (A:=unit) 0) x
  = if r <? 0 then XReturn (- x_errno x1) x1 else XReturn 0 x1.
Proof.
  intros Hm. xstep_with Hm. destruct (r <? 0); reflexivity.
Qed.

Lemma do_chown_outcome xw path uid gid x :
  chown_outcome xw path uid gid x
    ((r0 <- call (_chown xw path uid gid) ;;
      xwhen (r0 <? 0) (errno <- xget_errno ;; xreturn (- errno)) ;;
      xreturn 0) x).
Proof.
  destruct (call_chown_eq xw path uid gid x) as (x0 & (Htr & Hfds & HL) & Hc).
  rewrite app_nil_r in Htr.
  unfold chown_outcome. unfold after_call in Hc.
  destruct (opened_file xw x path) as [f|].
  - destruct (xw_fchown xw f uid gid) as [e|];
      rewrite (negated_errno _ _ _ _ Hc); eexists; (split; [reflexivity|]);
      unfold only_added; cbn [xextend with_errno x_fds x_loops x_trace x_errno];
      rewrite Htr, Hfds, HL; auto.
  - rewrite (negated_errno _ _ _ _ Hc). reflexivity.
Qed.

(** X5.  The argument layout of [chown]: with three arguments the path is
    the third and the group id handed to fchown is (gid_t)-1, which leaves
    the group alone; with four, the group is the third and the path the
    fourth; with any other count the built-in returns -1 without touching a
    file.  A path that cannot be opened gives the errno of its failed
    open, negated, with no fchown; a failing fchown gives its errno
    negated; and in every case the descriptor table is as before. *)
Theorem do_chown_arguments xw x :
  (forall cmd owner path,
      chown_outcome xw path (xw_decode_uid xw owner) no_id x
        (do_chown xw [cmd; owner; path] x))
  /\ (forall cmd owner group path,
      chown_outcome xw path (xw_decode_uid xw owner) (xw_decode_uid xw group) x
        (do_chown xw [cmd; owner; group; path] x))
  /\ (forall args, length args <> 3%nat -> length args <> 4%nat ->
      do_chown xw args x = XReturn (-1) x).
Proof.
  split; [|split].
  - intros. apply do_chown_outcome.
  - intros. apply do_chown_outcome.
  - intros args H3 H4.
    destruct args as [|a [|b [|c [|d [|e rest]]]]]; try reflexivity;
      simpl in *; congruence.
Qed.

(** X6.  [chmod] does not validate its mode: a mode string with a character
    that is no octal digit is not rejected; on a path that can be opened
    fchmod is called once with (mode_t)-1, every bit of the mode set, and
    the built-in returns the result of that call, 0 on success. *)
Theorem do_chmod_invalid_mode xw cmd mode_string path rest x f :
  0 <= mode_bits xw ->
  all_octal mode_string = false ->
  opened_file xw x path = Some f ->
  let all_bits := 2 ^ mode_bits xw - 1 in
  exists x',
    do_chmod xw (cmd :: mode_string :: path :: rest) x
    = XReturn (match xw_fchmod xw f all_bits with
               | None => 0
               | Some e => - e
               end) x'
    /\ only_added [EvFchmod f all_bits (xw_fchmod xw f all_bits)] x x'.
Proof.
  intros Hbits Hoct Hf all_bits.
  unfold do_chmod. cbv zeta.
  replace (get_mode (mode_bits xw) mode_string) with all_bits.
  2: { unfold get_mode. rewrite (get_mode_from_invalid _ _ _ Hoct).
       unfold to_mode_t, all_bits.
       assert (0 < 2 ^ mode_bits xw) by (apply Z.pow_pos_nonneg; lia).
       apply (Z.mod_unique_pos _ _ (-1)); lia. }
  destruct (call_chmod_eq xw path all_bits x) as (x0 & (Htr & Hfds & HL) & Hc).
  rewrite app_nil_r in Htr. rewrite Hf in Hc. unfold after_call in Hc.
  destruct (xw_fchmod xw f all_bits) as [e|];
    rewrite (negated_errno _ _ _ _ Hc); eexists; (split; [reflexivity|]);
    unfold only_added; cbn [xextend with_errno x_fds x_loops x_trace x_errno];
    rewrite Htr, Hfds, HL; auto.
Qed.

Lemma do_chmod_invalid_mode_witness :
  exists x',
    do_chmod (plain_xworld (image_world true) 0 0 0)
      ["chmod"; "u+x"; "/data/fs.img"] init_state
    = XReturn 0 x'
    /\ only_added [EvFchmod (FPath "/data/fs.img") 65535 None] init_state x'.
Proof.
  exact (do_chmod_invalid_mode (plain_xworld (image_world true) 0 0 0)
           "chmod" "u+x" "/data/fs.img" [] init_state (FPath "/data/fs.img")
           ltac:(vm_compute; discriminate) eq_refl eq_refl).
Defined.

(** ** write_file *)

Lemma count_xevents_app p a b :
  count_xevents p (a ++ b) = (count_xevents p a + count_xevents p b)%nat.
Proof. unfold count_xevents. rewrite List.filter_app, length_app. reflexivity. Qed.

Lemma lift_close_fresh f fds x :
  x_fds x = (alloc_fd fds, f) :: fds ->
  lift (sys_close (alloc_fd fds)) x
  = XValue 0 (XState (x_trace x) fds (x_loops x) (x_errno x)).
Proof.
  destruct x as [tr fds1 L e]. cbn [x_fds x_trace x_loops x_errno].
  intros ->. apply lift_close_opened.
Qed.

Lemma write_opened xw fd value len f x :
  fd_lookup (x_fds x) fd = Some f ->
  write xw fd value len x
  = answered_count
      (EvWrite f value len
         (xw_write xw (count_xevents is_write (x_trace x)) f len))
      len (xw_write xw (count_xevents is_write (x_trace x)) f len) x.
Proof. unfold write. intros ->. reflexivity. Qed.

(** [n] interrupted writes use up [n] rounds of the loop and leave the
    descriptor open. *)
Lemma write_retry_interrupted xw f fd value len n :
  forall x,
    fd_lookup (x_fds x) fd = Some f ->
    (forall i, (i < n)%nat ->
       xw_write xw (count_xevents is_write (x_trace x) + i) f len = Err EINTR) ->
    exists x1,
      only_added (interrupted_writes f value len n) x x1
      /\ forall fuel,
          write_retry xw (n + fuel) fd value len x
          = write_retry xw fuel fd value len x1.
Proof.
  induction n as [|n IH]; intros x Hfd Hw.
  - exists x. split; [|reflexivity].
    unfold only_added. simpl. rewrite app_nil_r. auto.
  - pose (x2 := with_errno EINTR
                  (xrecord (EvWrite f value len (Err EINTR)) x)).
    destruct (IH x2) as (x1 & (Htr & Hfds & HL) & Hrun).
    + exact Hfd.
    + intros i Hi. unfold x2. cbn [with_errno xrecord x_trace].
      rewrite count_xevents_app.
      change (count_xevents is_write [EvWrite f value len (Err EINTR)])
        with 1%nat.
      replace (count_xevents is_write (x_trace x) + 1 + i)%nat
        with (count_xevents is_write (x_trace x) + S i)%nat by lia.
      apply Hw. lia.
    + exists x1. split.
      * unfold only_added. rewrite Htr, Hfds, HL. unfold x2.
        cbn [with_errno xrecord x_trace x_fds x_loops].
        rewrite <- app_assoc. auto.
      * intros fuel. rewrite <- Hrun.
        change (S n + fuel)%nat with (S (n + fuel)).
        cbn [write_retry].
        assert (write xw fd value len x = XValue (-1) x2) as Hstep.
        { rewrite (write_opened _ _ _ _ _ _ Hfd).
          specialize (Hw 0%nat ltac:(lia)). rewrite Nat.add_0_r in Hw.
          rewrite Hw. reflexivity. }
        xstep_with Hstep. xstep_refl xget_errno. reflexivity.
Qed.


(** X7.  [write_file] retries an interrupted write without bound: on a path
    that can be opened, if write(2) fails with EINTR every time, then no
    number of rounds of the do-while loop ends the call; after [fuel] rounds
    it has made [fuel] writes and is still in the loop. *)
Theorem write_file_retries_forever xw path value x f :
  resolve_path (xw_base xw) (to_state x) path
    (Z.lor (Z.lor O_WRONLY O_CREAT) O_NOFOLLOW) = Some f ->
  (forall k, xw_write xw k f (Z.of_nat (String.length value)) = Err EINTR) ->
  forall fuel, exists x',
    write_file xw fuel path value x = XOutOfFuel x'
    /\ x_trace x'
       = x_trace x
         ++ interrupted_writes f value (Z.of_nat (String.length value)) fuel.
Proof.
  intros Hres Hw fuel.
  assert ((alloc_fd (x_fds x) <? 0) = false) as Hpos
    by apply Z.ltb_ge, alloc_fd_nonneg.
  destruct (write_retry_interrupted xw f (alloc_fd (x_fds x)) value
              (Z.of_nat (String.length value)) fuel (with_fd f x))
    as (x1 & (Htr & _) & Hrun).
  { unfold with_fd. cbn [x_fds fd_lookup]. rewrite Z.eqb_refl. reflexivity. }
  { intros i _. apply Hw. }
  exists x1. split; [|exact Htr].
  unfold write_file.
  xstep_with (eq_trans (lift_sys_open _ _ _ x) ltac:(rewrite Hres; reflexivity)).
  rewrite Hpos. xwhen_false. cbv zeta.
  specialize (Hrun 0%nat). rewrite Nat.add_0_r in Hrun.
  unfold xbind at 1. rewrite Hrun. reflexivity.
Qed.

Lemma write_file_retries_forever_witness :
  exists x',
    write_file interrupted_xworld 5 "/data/fs.img" "1" bare_state
    = XOutOfFuel x'
    /\ x_trace x'
       = x_trace bare_state
         ++ interrupted_writes (FPath "/data/fs.img") "1"
              (Z.of_nat (String.length "1")) 5.
Proof.
  exact (write_file_retries_forever interrupted_xworld "/data/fs.img" "1"
           bare_state (FPath "/data/fs.img") eq_refl (fun _ => eq_refl) 5%nat).
Defined.



(** ** do_copy *)

(** What a read or a write of [count] bytes returns is at most [count], and
    it leaves the descriptors alone. *)
Lemma answered_count_summary e count a x :
  exists rc x1,
    answered_count e count a x = XValue rc x1
    /\ x_trace x1 = x_trace x ++ [e]
    /\ x_fds x1 = x_fds x /\ x_loops x1 = x_loops x
    /\ (0 <= count -> rc <= count).
Proof.
  destruct a as [n|errno]; eexists _, _; (split; [reflexivity|]);
    cbn [xrecord with_errno x_trace x_fds x_loops]; repeat split.
  - intros H. apply Z.leb_le in H as H'. rewrite H'. lia.
  - lia.
Qed.

Lemma read_summary xw fd count x :
  exists rc x1,
    read xw fd count x = XValue rc x1
    /\ x_fds x1 = x_fds x /\ x_loops x1 = x_loops x
    /\ (0 <= count -> rc <= count).
Proof.
  unfold read. destruct (fd_lookup (x_fds x) fd) as [f|].
  - destruct (answered_count_summary
                (EvRead f count
                   (xw_read xw (count_xevents is_read (x_trace x)) f count))
                count (xw_read xw (count_xevents is_read (x_trace x)) f count) x)
      as (rc & x1 & H & _ & Hf & HL & Hb).
    exists rc, x1. auto.
  - eexists _, _. split; [reflexivity|].
    cbn [with_errno x_fds x_loops]. repeat split. lia.
Qed.

Lemma write_buffer_summary xw fd count x :
  exists rc x1,
    write_buffer xw fd count x = XValue rc x1
    /\ x_fds x1 = x_fds x /\ x_loops x1 = x_loops x
    /\ (0 <= count -> rc <= count).
Proof.
  unfold write_buffer. destruct (fd_lookup (x_fds x) fd) as [f|].
  - destruct (answered_count_summary
                (EvWriteBuffer f count
                   (xw_write xw (count_xevents is_write (x_trace x)) f count))
                count (xw_write xw (count_xevents is_write (x_trace x)) f count)
                x)
      as (rc & x1 & H & _ & Hf & HL & Hb).
    exists rc, x1. auto.
  - eexists _, _. split; [reflexivity|].
    cbn [with_errno x_fds x_loops]. repeat split. lia.
Qed.

(** A copy loop ends within [brtr + 1] rounds when [brtr] is not negative,
    and keeps the descriptors as they are. *)
Lemma copy_read_summary xw fd fuel :
  forall brtr x, exists x',
    x_fds x' = x_fds x /\ x_loops x' = x_loops x
    /\ ((exists ok, copy_read xw fuel fd brtr x = XValue ok x')
        \/ (copy_read xw fuel fd brtr x = XOutOfFuel x'
            /\ ~ (0 <= brtr /\ (Z.to_nat brtr < fuel)%nat))
        \/ (copy_read xw fuel fd brtr x = XUndefined x' /\ brtr < 0)).
Proof.
  induction fuel as [|fuel IH]; intros brtr x.
  - exists x. repeat split. right. left. split; [reflexivity|lia].
  - cbn [copy_read]. destruct (Z.eqb_spec brtr 0) as [->|Hne].
    { exists x. repeat split. left. exists true. reflexivity. }
    destruct (read_summary xw fd brtr x) as (rc & x1 & Hr & Hf & HL & Hb).
    rewrite (xbind_value _ _ _ _ _ Hr).
    destruct (Z.ltb_spec rc 0).
    { exists x1. repeat split; auto. left. exists false. reflexivity. }
    destruct (Z.eqb_spec rc 0).
    { exists x1. repeat split; auto. left. exists true. reflexivity. }
    destruct (Z.ltb_spec (brtr - rc) (- 2 ^ 31)).
    { exists x1. repeat split; auto. right. right.
      split; [reflexivity|]. lia. }
    destruct (IH (brtr - rc) x1) as (x' & Hf' & HL' & Hcase).
    exists x'. split; [congruence|]. split; [congruence|].
    destruct Hcase as [Hv|[[Ho Hn]|[Hu Hneg]]].
    + left; exact Hv.
    + right; left. split; [exact Ho|].
      intros [Hge Hlt]. apply Hn. specialize (Hb Hge). lia.
    + right; right. split; [exact Hu|]. lia.
Qed.

Lemma copy_write_summary xw fd fuel :
  forall brtw x, exists x',
    x_fds x' = x_fds x /\ x_loops x' = x_loops x
    /\ ((exists ok, copy_write xw fuel fd brtw x = XValue ok x')
        \/ (copy_write xw fuel fd brtw x = XOutOfFuel x'
            /\ ~ (0 <= brtw /\ (Z.to_nat brtw < fuel)%nat))
        \/ (copy_write xw fuel fd brtw x = XUndefined x' /\ brtw < 0)).
Proof.
  induction fuel as [|fuel IH]; intros brtw x.
  - exists x. repeat split. right. left. split; [reflexivity|lia].
  - cbn [copy_write]. destruct (Z.eqb_spec brtw 0) as [->|Hne].
    { exists x. repeat split. left. exists true. reflexivity. }
    destruct (write_buffer_summary xw fd brtw x) as (rc & x1 & Hr & Hf & HL & Hb).
    rewrite (xbind_value _ _ _ _ _ Hr).
    destruct (Z.ltb_spec rc 0).
    { exists x1. repeat split; auto. left. exists false. reflexivity. }
    destruct (Z.eqb_spec rc 0).
    { exists x1. repeat split; auto. left. exists true. reflexivity. }
    destruct (Z.ltb_spec (brtw - rc) (- 2 ^ 31)).
    { exists x1. repeat split; auto. right. right.
      split; [reflexivity|]. lia. }
    destruct (IH (brtw - rc) x1) as (x' & Hf' & HL' & Hcase).
    exists x'. split; [congruence|]. split; [congruence|].
    destruct Hcase as [Hv|[[Ho Hn]|[Hu Hneg]]].
    + left; exact Hv.
    + right; left. split; [exact Ho|].
      intros [Hge Hlt]. apply Hn. specialize (Hb Hge). lia.
    + right; right. split; [exact Hu|]. lia.
Qed.

(** The code from [out] on closes the two descriptors that are open. *)
Lemma copy_out_both buffer f1 f2 fds rc x :
  x_fds x = (alloc_fd ((alloc_fd fds, f1) :: fds), f2)
            :: (alloc_fd fds, f1) :: fds ->
  copy_out buffer (alloc_fd fds) (alloc_fd ((alloc_fd fds, f1) :: fds)) rc x
  = XReturn rc (XState (x_trace x ++ (if buffer then [EvFree] else []))
                  fds (x_loops x) (x_errno x)).
Proof.
  destruct x as [tr fds0 L e]. cbn [x_fds x_trace x_loops x_errno].
  intros ->.
  pose proof (alloc_fd_fresh ((alloc_fd fds, f1) :: fds)) as Hfresh.
  cbn [fd_lookup] in Hfresh.
  destruct (Z.eqb_spec (alloc_fd fds) (alloc_fd ((alloc_fd fds, f1) :: fds)))
    as [|Hne]; [discriminate|].
  assert ((0 <=? alloc_fd fds) = true) as H1
    by apply Z.leb_le, alloc_fd_nonneg.
  assert ((0 <=? alloc_fd ((alloc_fd fds, f1) :: fds)) = true) as H2
    by apply Z.leb_le, alloc_fd_nonneg.
  unfold copy_out. rewrite H1, H2.
  assert (forall tr',
    lift (sys_close (alloc_fd fds))
      (XState tr' ((alloc_fd ((alloc_fd fds, f1) :: fds), f2)
                   :: (alloc_fd fds, f1) :: fds) L e)
    = XValue 0 (XState tr' ((alloc_fd ((alloc_fd fds, f1) :: fds), f2) :: fds)
                  L e)) as Hc1.
  { intros tr'. rewrite lift_sys_close.
    cbn [x_fds x_trace x_loops x_errno fd_lookup].
    destruct (Z.eqb_spec (alloc_fd ((alloc_fd fds, f1) :: fds)) (alloc_fd fds))
      as [Heq|_]; [congruence|].
    rewrite Z.eqb_refl.
    rewrite filter_cons, decide_True by (simpl; congruence).
    rewrite filter_cons, decide_False by (simpl; tauto).
    rewrite (close_filter _ _ (alloc_fd_fresh fds)). reflexivity. }
  assert (forall tr',
    lift (sys_close (alloc_fd ((alloc_fd fds, f1) :: fds)))
      (XState tr' ((alloc_fd ((alloc_fd fds, f1) :: fds), f2) :: fds) L e)
    = XValue 0 (XState tr' fds L e)) as Hc2.
  { intros tr'. rewrite lift_sys_close.
    cbn [x_fds x_trace x_loops x_errno fd_lookup]. rewrite Z.eqb_refl.
    rewrite filter_cons, decide_False by (simpl; tauto).
    rewrite (close_filter _ _ Hfresh). reflexivity. }
  destruct buffer.
  - xwhen_true. xstep_refl free. xwhen_true.
    unfold xrecord. cbn [x_fds x_trace x_loops x_errno].
    xstep_with (Hc1 (tr ++ [EvFree])).
    xstep_refl (xvalue tt). xwhen_true.
    xstep_with (Hc2 (tr ++ [EvFree])). xstep_refl (xvalue tt). reflexivity.
  - xwhen_false. xwhen_true.
    xstep_with (Hc1 tr).
    xstep_refl (xvalue tt). xwhen_true.
    xstep_with (Hc2 tr). xstep_refl (xvalue tt).
    rewrite app_nil_r. reflexivity.
Qed.

(** Every way out of [do_copy] with three arguments. *)
Lemma do_copy_summary xw fuel cmd from to x :
  match do_copy xw fuel [cmd; from; to] x with
  | XReturn r x' =>
      x_fds x' = x_fds x /\ x_loops x' = x_loops x /\ (r = 0 \/ r = -1)
  | XOutOfFuel _ =>
      exists size, xw_stat xw from = Some size
                   /\ ~ (0 <= to_int size /\ (Z.to_nat (to_int size) < fuel)%nat)
  | XUndefined _ =>
      exists size, xw_stat xw from = Some size /\ to_int size < 0
  | _ => False
  end.
Proof.
  unfold do_copy. xstep_refl (stat xw from).
  destruct (xw_stat xw from) as [size|] eqn:Hstat.
  2: { cbn. auto. }
  set (x1 := xrecord (EvStat from (Some size)) x).
  assert (x_fds x1 = x_fds x /\ x_loops x1 = x_loops x) as [Hf1 HL1]
    by (split; reflexivity).
  clearbody x1.
  destruct (resolve_path (xw_base xw) (to_state x1) from O_RDONLY)
    as [f1|] eqn:Hr1.
  2: { xstep_with (lift_sys_open_none _ _ _ _ Hr1).
       change (-1 <? 0) with true. cbv iota. cbn. auto. }
  xstep_with (lift_sys_open_some _ _ _ _ _ Hr1).
  assert ((alloc_fd (x_fds x1) <? 0) = false) as Hpos1
    by apply Z.ltb_ge, alloc_fd_nonneg.
  rewrite Hpos1.
  destruct (resolve_path (xw_base xw) (to_state (with_fd f1 x1)) to
              (Z.lor (Z.lor O_WRONLY O_CREAT) O_TRUNC)) as [f2|] eqn:Hr2.
  2: { xstep_with (lift_sys_open_none _ _ _ _ Hr2).
       change (-1 <? 0) with true. cbv iota.
       unfold copy_out_err, copy_out. xwhen_false.
       replace (0 <=? alloc_fd (x_fds x1)) with true
         by (symmetry; apply Z.leb_le, alloc_fd_nonneg).
       xwhen_true.
       xstep_with (lift_close_fresh f1 (x_fds x1)
                     (with_errno
                        (w_open_errno (xw_base xw) to
                           (Z.lor (Z.lor O_WRONLY O_CREAT) O_TRUNC))
                        (with_fd f1 x1)) eq_refl).
       xstep_refl (xvalue tt). cbn. rewrite Hf1, HL1. auto. }
  xstep_with (lift_sys_open_some _ _ _ _ _ Hr2).
  change (alloc_fd (x_fds (with_fd f1 x1)))
    with (alloc_fd ((alloc_fd (x_fds x1), f1) :: x_fds x1)).
  assert ((alloc_fd ((alloc_fd (x_fds x1), f1) :: x_fds x1) <? 0) = false)
    as Hpos2 by apply Z.ltb_ge, alloc_fd_nonneg.
  rewrite Hpos2.
  xstep_refl (malloc xw size).
  set (x2 := xrecord (EvMalloc size (xw_malloc xw size))
               (with_fd f2 (with_fd f1 x1))).
  assert (x_fds x2 = (alloc_fd ((alloc_fd (x_fds x1), f1) :: x_fds x1), f2)
                     :: (alloc_fd (x_fds x1), f1) :: x_fds x1
          /\ x_loops x2 = x_loops x1) as [Hf2 HL2] by (split; reflexivity).
  clearbody x2.
  destruct (xw_malloc xw size).
  2: { cbn [negb]. unfold copy_out_err.
       rewrite (copy_out_both false f1 f2 (x_fds x1) (-1) x2 Hf2).
       cbn [x_fds x_loops]. rewrite Hf1, HL2, HL1. auto. }
  cbn [negb].
  destruct (copy_read_summary xw (alloc_fd (x_fds x1)) fuel (to_int size) x2)
    as (x3 & Hf3 & HL3 & [[ok Hv]|[[Ho Hn]|[Ho Hn]]]).
  2, 3: unfold xbind at 1; rewrite Ho; exists size; auto.
  xstep_with Hv. rewrite Hf2 in Hf3.
  destruct ok.
  2: { cbn [negb]. unfold copy_out_err.
       rewrite (copy_out_both true f1 f2 (x_fds x1) (-1) x3 Hf3).
       cbn [x_fds x_loops]. rewrite Hf1, HL3, HL2, HL1. auto. }
  cbn [negb].
  destruct (copy_write_summary xw
              (alloc_fd ((alloc_fd (x_fds x1), f1) :: x_fds x1)) fuel
              (to_int size) x3)
    as (x4 & Hf4 & HL4 & [[ok Hv4]|[[Ho Hn]|[Ho Hn]]]).
  2, 3: unfold xbind at 1; rewrite Ho; exists size; auto.
  xstep_with Hv4. rewrite Hf3 in Hf4.
  destruct ok; cbn [negb]; unfold copy_out_err;
    rewrite (copy_out_both true f1 f2 (x_fds x1) _ x4 Hf4);
    cbn [x_fds x_loops]; rewrite Hf1, HL4, HL3, HL2, HL1; auto.
Qed.

(** X9.  [do_copy] never leaks a descriptor: whenever it returns, from
    whichever of its exits (wrong argument count, stat, either open, malloc,
    a failed read or write, or success), the descriptor table is what it was
    before the call, and the result is 0 or -1.  Otherwise a copy loop is
    still running, or, and only for a size that does not fit the [int]
    counter of the loops, the counter has overflowed. *)
Theorem do_copy_closes_descriptors xw fuel args x :
  match do_copy xw fuel args x with
  | XReturn r x' =>
      x_fds x' = x_fds x /\ x_loops x' = x_loops x /\ (r = 0 \/ r = -1)
  | XOutOfFuel _ => True
  | XUndefined _ =>
      exists cmd from to size,
        args = [cmd; from; to] /\ xw_stat xw from = Some size
        /\ to_int size < 0
  | _ => False
  end.
Proof.
  destruct args as [|cmd [|from [|to [|d rest]]]]; try (cbn; auto; fail).
  pose proof (do_copy_summary xw fuel cmd from to x) as H.
  destruct (do_copy xw fuel [cmd; from; to] x); auto.
  destruct H as (size & Hstat & Hneg). exists cmd, from, to, size. auto.
Qed.

(** X10.  [do_copy] ends: when the size that stat reports fits an int, each
    copy loop runs at most size + 1 rounds, however few bytes read and write
    hand over at a time, and the call returns 0 or -1 with every descriptor
    closed. *)
Theorem do_copy_returns xw fuel cmd from to x size :
  xw_stat xw from = Some size ->
  0 <= size < 2 ^ 31 ->
  (Z.to_nat size < fuel)%nat ->
  exists r x',
    do_copy xw fuel [cmd; from; to] x = XReturn r x'
    /\ x_fds x' = x_fds x /\ (r = 0 \/ r = -1).
Proof.
  intros Hstat Hsize Hfuel.
  pose proof (do_copy_summary xw fuel cmd from to x) as H.
  assert (to_int size = size) as Hint.
  { unfold to_int. rewrite Z.mod_small by lia. lia. }
  destruct (do_copy xw fuel [cmd; from; to] x) as [? ?|r x'|? ?|?|?];
    try contradiction.
  - exists r, x'. tauto.
  - destruct H as (size' & Hstat' & Hneg). exfalso.
    rewrite Hstat in Hstat'. injection Hstat' as <-. lia.
  - destruct H as (size' & Hstat' & Hn). exfalso. apply Hn.
    rewrite Hstat in Hstat'. injection Hstat' as <-. lia.
Qed.

Lemma do_copy_returns_witness :
  exists r x',
    do_copy (plain_xworld (image_world true) 5 2 0) 6
      ["copy"; "/data/fs.img"; "/data/fs.img"] init_state = XReturn r x'
    /\ x_fds x' = x_fds init_state /\ (r = 0 \/ r = -1).
Proof.
  apply (do_copy_returns (plain_xworld (image_world true) 5 2 0) 6
           "copy" "/data/fs.img" "/data/fs.img" init_state 5 eq_refl);
    [lia|vm_compute; lia].
Defined.

Lemma alloc_fd_next_ne f fds : alloc_fd ((alloc_fd fds, f) :: fds) <> alloc_fd fds.
Proof.
  pose proof (alloc_fd_fresh ((alloc_fd fds, f) :: fds)) as H.
  cbn [fd_lookup] in H.
  destruct (Z.eqb_spec (alloc_fd fds) (alloc_fd ((alloc_fd fds, f) :: fds)));
    [discriminate|congruence].
Qed.

Lemma read_opened xw fd count f x :
  fd_lookup (x_fds x) fd = Some f ->
  read xw fd count x
  = answered_count
      (EvRead f count (xw_read xw (count_xevents is_read (x_trace x)) f count))
      count (xw_read xw (count_xevents is_read (x_trace x)) f count) x.
Proof. unfold read. intros ->. reflexivity. Qed.

Lemma write_buffer_opened xw fd count f x :
  fd_lookup (x_fds x) fd = Some f ->
  write_buffer xw fd count x
  = answered_count
      (EvWriteBuffer f count
         (xw_write xw (count_xevents is_write (x_trace x)) f count))
      count (xw_write xw (count_xevents is_write (x_trace x)) f count) x.
Proof. unfold write_buffer. intros ->. reflexivity. Qed.

(** X11.  [do_copy] writes as many bytes as stat reported, not as many as
    it read: when the first read already answers 0 (the source has shrunk
    since the stat), the read loop ends with nothing in the buffer, and the
    write loop still writes all [n] bytes of the buffer to the target; the
    call returns 0. *)
Theorem do_copy_writes_unread_buffer xw fuel cmd from to x n f1 f2 m :
  xw_stat xw from = Some n ->
  0 < n < 2 ^ 31 ->
  resolve_path (xw_base xw) (to_state x) from O_RDONLY = Some f1 ->
  resolve_path (xw_base xw) (to_state x) to
    (Z.lor (Z.lor O_WRONLY O_CREAT) O_TRUNC) = Some f2 ->
  xw_malloc xw n = true ->
  xw_read xw (count_xevents is_read (x_trace x)) f1 n = Ok 0 ->
  xw_write xw (count_xevents is_write (x_trace x)) f2 n = Ok m ->
  n <= m ->
  (1 < fuel)%nat ->
  exists x',
    do_copy xw fuel [cmd; from; to] x = XReturn 0 x'
    /\ only_added [EvStat from (Some n); EvMalloc n true;
                   EvRead f1 n (Ok 0); EvWriteBuffer f2 n (Ok m); EvFree]
         x x'.
Proof.
  intros Hstat Hn Hr1 Hr2 Hmalloc Hread Hwrite Hm Hfuel.
  destruct fuel as [|[|fuel]]; [lia|lia|].
  destruct x as [tr fds L e].
  cbn [x_trace] in Hread, Hwrite.
  assert (to_int n = n) as Hint.
  { unfold to_int. rewrite Z.mod_small by lia. lia. }
  assert ((n =? 0) = false) as Hn0 by (apply Z.eqb_neq; lia).
  assert ((n <? 0) = false) as Hnneg by (apply Z.ltb_ge; lia).
  assert ((0 <=? n) = true) as Hnpos by (apply Z.leb_le; lia).
  eexists. split.
  - unfold do_copy. xstep_refl (stat xw from). rewrite Hstat.
    unfold xrecord. cbn [x_trace x_fds x_loops x_errno].
    xstep_with (lift_sys_open_some (xw_base xw) from O_RDONLY
                  (XState (tr ++ [EvStat from (Some n)]) fds L e) f1 Hr1).
    unfold with_fd. cbn [x_trace x_fds x_loops x_errno].
    replace (alloc_fd fds <? 0) with false
      by (symmetry; apply Z.ltb_ge, alloc_fd_nonneg).
    xstep_with (lift_sys_open_some (xw_base xw) to
                  (Z.lor (Z.lor O_WRONLY O_CREAT) O_TRUNC)
                  (XState (tr ++ [EvStat from (Some n)])
                     ((alloc_fd fds, f1) :: fds) L e) f2 Hr2).
    unfold with_fd. cbn [x_trace x_fds x_loops x_errno].
    replace (alloc_fd ((alloc_fd fds, f1) :: fds) <? 0) with false
      by (symmetry; apply Z.ltb_ge, alloc_fd_nonneg).
    xstep_refl (malloc xw n). rewrite Hmalloc. cbn [negb].
    unfold xrecord. cbn [x_trace x_fds x_loops x_errno].
    rewrite Hint. cbn [copy_read]. rewrite Hn0.
    xnorm.
    match goal with
    | |- context [xbind (read xw ?fd n) _ ?s] =>
        assert (read xw fd n s
                = XValue 0 (xrecord (EvRead f1 n (Ok 0)) s)) as Hstep
    end.
    { erewrite read_opened.
      2: { cbn [x_fds fd_lookup].
           destruct (Z.eqb_spec (alloc_fd ((alloc_fd fds, f1) :: fds))
                       (alloc_fd fds)) as [Heq|_];
             [destruct (alloc_fd_next_ne _ _ Heq)|].
           rewrite Z.eqb_refl. reflexivity. }
      cbn [x_trace]. rewrite !count_xevents_app.
      change (count_xevents is_read [EvStat from (Some n)]) with 0%nat.
      change (count_xevents is_read [EvMalloc n true]) with 0%nat.
      rewrite !Nat.add_0_r, Hread.
      unfold answered_count. rewrite Hnpos.
      replace (Z.max 0 (Z.min 0 n)) with 0 by lia. reflexivity. }
    xstep_with Hstep. change (0 <? 0) with false. change (0 =? 0) with true.
    cbv iota. xstep_refl (xvalue true). cbn [negb].
    unfold xrecord. cbn [x_trace x_fds x_loops x_errno].
    cbn [copy_write]. rewrite Hn0.
    xnorm.
    match goal with
    | |- context [xbind (write_buffer xw ?fd n) _ ?s] =>
        assert (write_buffer xw fd n s
                = XValue n (xrecord (EvWriteBuffer f2 n (Ok m)) s)) as Hstep2
    end.
    { erewrite write_buffer_opened.
      2: { cbn [x_fds fd_lookup]. rewrite Z.eqb_refl. reflexivity. }
      cbn [x_trace]. rewrite !count_xevents_app.
      change (count_xevents is_write [EvStat from (Some n)]) with 0%nat.
      change (count_xevents is_write [EvMalloc n true]) with 0%nat.
      change (count_xevents is_write [EvRead f1 n (Ok 0)]) with 0%nat.
      rewrite !Nat.add_0_r, Hwrite.
      unfold answered_count. rewrite Hnpos.
      replace (Z.max 0 (Z.min m n)) with n by lia. reflexivity. }
    xstep_with Hstep2. rewrite Hnneg, Hn0, Z.sub_diag.
    change (0 <? - 2 ^ 31) with false. change (0 =? 0) with true. cbv iota.
    xstep_refl (xvalue true). cbn [negb].
    unfold xrecord. cbn [x_trace x_fds x_loops x_errno].
    match goal with
    | |- copy_out true _ _ 0 ?s = _ =>
        rewrite (copy_out_both true f1 f2 fds 0 s eq_refl)
    end.
    reflexivity.
  - unfold only_added. cbn [x_trace x_fds x_loops].
    rewrite <- !app_assoc. auto.
Qed.

Lemma do_copy_writes_unread_buffer_witness :
  exists x',
    do_copy (plain_xworld (image_world true) 5 0 0) 6
      ["copy"; "/data/fs.img"; "/data/fs.img"] init_state = XReturn 0 x'
    /\ only_added [EvStat "/data/fs.img" (Some 5); EvMalloc 5 true;
                   EvRead (FPath "/data/fs.img") 5 (Ok 0);
                   EvWriteBuffer (FPath "/data/fs.img") 5 (Ok 5); EvFree]
         init_state x'.
Proof.
  apply (do_copy_writes_unread_buffer (plain_xworld (image_world true) 5 0 0) 6
           "copy" "/data/fs.img" "/data/fs.img" init_state 5
           (FPath "/data/fs.img") (FPath "/data/fs.img") 5
           eq_refl ltac:(lia) eq_refl eq_refl eq_refl eq_refl eq_refl
           ltac:(lia) ltac:(lia)).
Defined.

(** ** do_powerctl *)

Lemma strncmp_eq_prefix b : forall a,
  strncmp_eq a b (String.length b) = true ->
  a = b +:+ str_offset a (String.length b).
Proof.
  induction b as [|y b IH]; intros a H; [destruct a; reflexivity|].
  destruct a as [|x a]; [discriminate|].
  cbn [String.length strncmp_eq str_offset] in *.
  destruct (Ascii.eqb_spec x y) as [->|]; [|discriminate].
  change (String y a = String y (b +:+ str_offset a (String.length b))).
  f_equal. apply IH, H.
Qed.

(** The three ways [command[len]] can be. *)
Lemma after_keyword (s : string) :
  s = EmptyString \/ (exists t, s = String ","%char t)
  \/ (exists ch t, s = String ch t /\ ch <> ","%char).
Proof.
  destruct s as [|ch t]; [left; reflexivity|right].
  destruct (Ascii.eqb_spec ch ","%char) as [->|Hne].
  - left. exists t. reflexivity.
  - right. exists ch, t. auto.
Qed.

Ltac not_comma ch Hne :=
  destruct ch as [[] [] [] [] [] [] [] []]; try reflexivity;
  contradiction Hne; reflexivity.

(** X12.  What [powerctl] accepts: the expanded command has to be
    "shutdown" or "reboot", either alone or followed by a comma and a
    target, which may be empty and is handed to android_reboot as it is.
    Then android_reboot is called once, with flags 0, and its result is the
    result of the built-in.  Every other command, such as "rebootnow", is
    rejected with -EINVAL and nothing is rebooted. *)
Theorem do_powerctl_commands xw c arg rest x command :
  xw_expand_props xw arg = Some command ->
  (forall cmd target,
      command = keyword cmd +:+ "," +:+ target
      \/ (command = keyword cmd /\ target = "") ->
      do_powerctl xw (c :: arg :: rest) x
      = XReturn (xw_android_reboot xw cmd 0 target)
          (xextend [EvExpandProps arg (Some command);
                    EvAndroidReboot cmd 0 target
                      (xw_android_reboot xw cmd 0 target)] x))
  /\ ((forall cmd target,
        command <> keyword cmd
        /\ command <> keyword cmd +:+ "," +:+ target) ->
      do_powerctl xw (c :: arg :: rest) x
      = XReturn (- EINVAL) (xextend [EvExpandProps arg (Some command)] x)).
Proof.
  intros Hexp. split.
  - intros cmd target H.
    unfold do_powerctl. xstep_refl (expand_props xw arg). rewrite Hexp.
    replace (xextend [EvExpandProps arg (Some command);
                      EvAndroidReboot cmd 0 target
                        (xw_android_reboot xw cmd 0 target)] x)
      with (xrecord (EvAndroidReboot cmd 0 target
                       (xw_android_reboot xw cmd 0 target))
              (xrecord (EvExpandProps arg (Some command)) x))
      by (unfold xextend, xrecord; cbn [x_trace x_fds x_loops x_errno];
          rewrite <- app_assoc; reflexivity).
    destruct H as [->|[-> ->]]; destruct cmd; reflexivity.
  - intros Hno.
    unfold do_powerctl. xstep_refl (expand_props xw arg). rewrite Hexp.
    destruct (strncmp_eq command "shutdown" 8) eqn:Hs.
    + apply (strncmp_eq_prefix "shutdown") in Hs.
      change (String.length "shutdown") with 8%nat in Hs.
      destruct (after_keyword (str_offset command 8))
        as [Ho|[(t & Ho)|(ch & t & Ho & Hne)]]; rewrite Ho in Hs.
      * destruct (Hno ANDROID_RB_POWEROFF "") as [H _]. destruct H. exact Hs.
      * destruct (Hno ANDROID_RB_POWEROFF t) as [_ H]. destruct H. exact Hs.
      * rewrite Ho. not_comma ch Hne.
    + destruct (strncmp_eq command "reboot" 6) eqn:Hr; [|reflexivity].
      apply (strncmp_eq_prefix "reboot") in Hr.
      change (String.length "reboot") with 6%nat in Hr.
      destruct (after_keyword (str_offset command 6))
        as [Ho|[(t & Ho)|(ch & t & Ho & Hne)]]; rewrite Ho in Hr.
      * destruct (Hno ANDROID_RB_RESTART2 "") as [H _]. destruct H. exact Hr.
      * destruct (Hno ANDROID_RB_RESTART2 t) as [_ H]. destruct H. exact Hr.
      * rewrite Ho. not_comma ch Hne.
Qed.

Lemma do_powerctl_commands_witness :
  do_powerctl (plain_xworld bleak_world 0 0 0)
    ["powerctl"; "reboot,recovery"] bare_state
  = XReturn 0
      (xextend [EvExpandProps "reboot,recovery" (Some "reboot,recovery");
                EvAndroidReboot ANDROID_RB_RESTART2 0 "recovery" 0] bare_state)
  /\ do_powerctl (plain_xworld bleak_world 0 0 0)
       ["powerctl"; "rebootnow"] bare_state
     = XReturn (- EINVAL)
         (xextend [EvExpandProps "rebootnow" (Some "rebootnow")] bare_state).
Proof.
  split.
  - exact (proj1 (do_powerctl_commands (plain_xworld bleak_world 0 0 0)
                    "powerctl" "reboot,recovery" [] bare_state
                    "reboot,recovery" eq_refl)
             ANDROID_RB_RESTART2 "recovery" (or_introl eq_refl)).
  - apply (proj2 (do_powerctl_commands (plain_xworld bleak_world 0 0 0)
                    "powerctl" "rebootnow" [] bare_state "rebootnow" eq_refl)).
    intros cmd target.
    split; destruct cmd; intros H; vm_compute in H; discriminate H.
Defined.

(** ** do_confirm_formated *)

Lemma base_events_app a b :
  base_events (a ++ b) = base_events a ++ base_events b.
Proof. unfold base_events. apply omap_app. Qed.

Lemma lift_mount_eq w source target fstype flags data x b :
  w_mount w (count_events is_mount (base_events (x_trace x)))
    source target fstype flags data = b ->
  lift (mount w source target fstype flags data) x
  = XValue (if b then 0 else -1)
      (xrecord (Old (EvMount source target fstype flags data
                       (if b then 0 else -1))) x).
Proof. intros <-. apply lift_mount. Qed.

Lemma lift_make_ext4fs_eq w dev len target x r :
  w_make_ext4fs w dev target = r ->
  lift (make_ext4fs w dev len target) x
  = XValue r (xrecord (Old (EvMakeExt4fs dev len target r)) x).
Proof. intros <-. apply lift_make_ext4fs. Qed.

Lemma umount_then_return xw target x :
  exists x',
    (umount xw target ;; xvalue tt ;; xreturn (A:=unit) 0) x = XReturn 0 x'
    /\ only_added [EvUmount target (xw_umount xw target)] x x'.
Proof.
  unfold umount, answered_failure, xbind, only_added.
  destruct (xw_umount xw target); eexists; (split; [reflexivity|]);
    cbn [xrecord with_errno x_trace x_fds x_loops]; auto.
Qed.

(** X13.  In [confirm_formated] a failure of make_ext4fs is fatal: when the
    first mount of an ext4 device fails and make_ext4fs then fails too, the
    built-in returns -1 at once; there is no second mount, nothing is
    opened and nothing is unmounted. *)
Theorem confirm_formated_mkfs_failure_fatal xw c fstype dev target rest x :
  let flags := Z.lor (Z.lor (Z.lor MS.NOATIME MS.NODIRATIME) MS.NOSUID)
                 MS.NODEV in
  let options := Some "noauto_da_alloc" in
  let mkfs := w_make_ext4fs (xw_base xw) dev target in
  strncmp_eq fstype "ext4" 4 = true ->
  w_mount (xw_base xw) (count_events is_mount (base_events (x_trace x)))
    dev target "ext4" flags options = false ->
  mkfs <> 0 ->
  do_confirm_formated xw (c :: fstype :: dev :: target :: rest) x
  = XReturn (-1)
      (xextend [Old (EvMount dev target "ext4" flags options (-1));
                Old (EvMakeExt4fs dev 0 target mkfs)] x).
Proof.
  intros flags options mkfs Hext4 Hm1 Hmk.
  unfold do_confirm_formated. cbv zeta. rewrite Hext4. xwhen_true.
  xstep_with (lift_mount_eq _ _ _ _ _ _ x false Hm1).
  change (negb (-1 =? 0)) with true. cbv iota.
  xstep_with (lift_make_ext4fs_eq (xw_base xw) dev 0 target
                (xrecord (Old (EvMount dev target "ext4" flags options (-1))) x)
                mkfs eq_refl).
  replace (mkfs =? 0) with false by (symmetry; apply Z.eqb_neq, Hmk).
  unfold xextend, xrecord. cbn. rewrite <- app_assoc. reflexivity.
Qed.

Lemma confirm_formated_mkfs_failure_fatal_witness :
  do_confirm_formated (plain_xworld (cache_world (-1) true) 0 0 0)
    ["confirm_formated"; "ext4"; "/dev/block/data"; "/data"] bare_state
  = XReturn (-1)
      (xextend
         [Old (EvMount "/dev/block/data" "/data" "ext4"
                 (Z.lor (Z.lor (Z.lor MS.NOATIME MS.NODIRATIME) MS.NOSUID)
                    MS.NODEV) (Some "noauto_da_alloc") (-1));
          Old (EvMakeExt4fs "/dev/block/data" 0 "/data" (-1))] bare_state).
Proof.
  apply (confirm_formated_mkfs_failure_fatal
           (plain_xworld (cache_world (-1) true) 0 0 0)
           "confirm_formated" "ext4" "/dev/block/data" "/data" [] bare_state
           eq_refl eq_refl).
  discriminate.
Defined.

(** X14.  [confirm_formated] only probes: an ext4 device whose mount
    succeeds is unmounted again at once, and the result of that umount is
    ignored; the built-in returns 0 whether or not the umount failed. *)
Theorem confirm_formated_unmounts xw c fstype dev target rest x :
  let flags := Z.lor (Z.lor (Z.lor MS.NOATIME MS.NODIRATIME) MS.NOSUID)
                 MS.NODEV in
  let options := Some "noauto_da_alloc" in
  strncmp_eq fstype "ext4" 4 = true ->
  w_mount (xw_base xw) (count_events is_mount (base_events (x_trace x)))
    dev target "ext4" flags options = true ->
  exists x',
    do_confirm_formated xw (c :: fstype :: dev :: target :: rest) x
    = XReturn 0 x'
    /\ only_added [Old (EvMount dev target "ext4" flags options 0);
                   EvUmount target (xw_umount xw target)] x x'.
Proof.
  intros flags options Hext4 Hm1.
  destruct (umount_then_return xw target
              (xrecord (Old (EvMount dev target "ext4" flags options 0)) x))
    as (x' & Hrun & Htr & Hfds & HL).
  exists x'. split.
  - unfold do_confirm_formated. cbv zeta. rewrite Hext4. xwhen_true.
    xstep_with (lift_mount_eq _ _ _ _ _ _ x true Hm1).
    change (negb (0 =? 0)) with false. cbv iota.
    xstep_refl (xvalue (A:=Z) 0). change (0 =? 0) with true. xwhen_true.
    xnorm. exact Hrun.
  - unfold only_added. rewrite Htr, Hfds, HL.
    cbn [xrecord x_trace x_fds x_loops]. rewrite <- app_assoc. auto.
Qed.

Lemma confirm_formated_unmounts_witness :
  exists x',
    do_confirm_formated busy_xworld
      ["confirm_formated"; "ext4"; "/dev/block/data"; "/data"] bare_state
    = XReturn 0 x'
    /\ only_added
         [Old (EvMount "/dev/block/data" "/data" "ext4"
                 (Z.lor (Z.lor (Z.lor MS.NOATIME MS.NODIRATIME) MS.NOSUID)
                    MS.NODEV) (Some "noauto_da_alloc") 0);
          EvUmount "/data" (Some EBUSY)] bare_state x'.
Proof.
  exact (confirm_formated_unmounts busy_xworld
           "confirm_formated" "ext4" "/dev/block/data" "/data" [] bare_state
           eq_refl eq_refl).
Defined.

Lemma fsync_opened fd f x :
  fd_lookup (x_fds x) fd = Some f ->
  fsync fd x = XValue 0 (xrecord (EvFsync f) x).
Proof. unfold fsync. intros ->. reflexivity. Qed.

(** X15.  The format path of [confirm_formated]: after a failed first mount
    and a successful make_ext4fs the device is opened, and the second mount
    alone decides between 0 and -2.  The device is synced and closed only
    when its descriptor is greater than 0: when open hands out descriptor 0
    (nothing else is open), there is no fsync and the descriptor stays open
    after the call. *)
Theorem confirm_formated_format_path xw c fstype dev target rest x f retry_ok :
  let flags := Z.lor (Z.lor (Z.lor MS.NOATIME MS.NODIRATIME) MS.NOSUID)
                 MS.NODEV in
  let options := Some "noauto_da_alloc" in
  let k := count_events is_mount (base_events (x_trace x)) in
  let fd := alloc_fd (x_fds x) in
  strncmp_eq fstype "ext4" 4 = true ->
  w_mount (xw_base xw) k dev target "ext4" flags options = false ->
  w_make_ext4fs (xw_base xw) dev target = 0 ->
  resolve_path (xw_base xw) (to_state x) dev O_RDWR = Some f ->
  w_mount (xw_base xw) (S k) dev target "ext4" flags options = retry_ok ->
  exists x',
    do_confirm_formated xw (c :: fstype :: dev :: target :: rest) x
    = XReturn (if retry_ok then 0 else -2) x'
    /\ x_trace x'
       = x_trace x
         ++ [Old (EvMount dev target "ext4" flags options (-1));
             Old (EvMakeExt4fs dev 0 target 0)]
         ++ (if 0 <? fd then [EvFsync f] else [])
         ++ [Old (EvMount dev target "ext4" flags options
                    (if retry_ok then 0 else -1))]
         ++ (if retry_ok then [EvUmount target (xw_umount xw target)] else [])
    /\ x_fds x' = (if 0 <? fd then x_fds x else (0, f) :: x_fds x)
    /\ x_loops x' = x_loops x.
Proof.
  intros flags options k fd Hext4 Hm1 Hmk Hres Hm2.
  set (x2 := xrecord (Old (EvMakeExt4fs dev 0 target 0))
               (xrecord (Old (EvMount dev target "ext4" flags options (-1)))
                  x)).
  (* the state in which the second mount is made *)
  assert (lift (sys_open (xw_base xw) dev O_RDWR) x2
          = XValue fd (with_fd f x2)) as Ho
    by exact (lift_sys_open_some (xw_base xw) dev O_RDWR x2 f Hres).
  assert (exists x3,
    (forall k : unit -> X unit,
       xbind (xwhen (0 <? fd)
                (fsync fd ;; lift (sys_close fd) ;; xvalue tt)) k
         (with_fd f x2)
       = k tt x3)
    /\ x_trace x3 = x_trace x2 ++ (if 0 <? fd then [EvFsync f] else [])
    /\ x_fds x3 = (if 0 <? fd then x_fds x else (0, f) :: x_fds x)
    /\ x_loops x3 = x_loops x) as (x3 & Hopen & Htr3 & Hfds3 & HL3).
  { destruct (0 <? fd) eqn:Hfd.
    - eexists. split; [|split; [|split]].
      + intros k0. xwhen_true.
        xstep_with (fsync_opened fd f (with_fd f x2)
                      ltac:(unfold with_fd, fd; cbn [x_fds fd_lookup];
                            rewrite Z.eqb_refl; reflexivity)).
        xstep_with (lift_close_fresh f (x_fds x)
                      (xrecord (EvFsync f) (with_fd f x2)) eq_refl).
        xstep_refl (xvalue tt). reflexivity.
      + reflexivity.
      + reflexivity.
      + reflexivity.
    - assert (fd = 0) as Hz
        by (apply Z.ltb_ge in Hfd; pose proof (alloc_fd_nonneg (x_fds x));
            unfold fd in *; lia).
      exists (with_fd f x2). split; [|split; [|split]].
      + intros k0. reflexivity.
      + cbn [with_fd x_trace]. rewrite app_nil_r. reflexivity.
      + change (x_fds (with_fd f x2)) with ((fd, f) :: x_fds x).
        rewrite Hz. reflexivity.
      + reflexivity. }
  assert (w_mount (xw_base xw)
            (count_events is_mount (base_events (x_trace x3)))
            dev target "ext4" flags options = retry_ok) as Hm2'.
  { rewrite Htr3. unfold x2. cbn [xrecord x_trace].
    rewrite !base_events_app, !count_events_app.
    replace (count_events is_mount
               (base_events (if 0 <? fd then [EvFsync f] else [])))
      with 0%nat by (destruct (0 <? fd); reflexivity).
    change (count_events is_mount
              (base_events
                 [Old (EvMount dev target "ext4" flags options (-1))]))
      with 1%nat.
    change (count_events is_mount
              (base_events [Old (EvMakeExt4fs dev 0 target 0)]))
      with 0%nat.
    fold k. replace (k + 1 + 0 + 0)%nat with (S k) by lia. exact Hm2. }
  set (x4 := xrecord (Old (EvMount dev target "ext4" flags options
                             (if retry_ok then 0 else -1))) x3).
  assert (exists x',
    (if retry_ok
     then (umount xw target ;; xvalue tt ;; xreturn (A:=unit) 0) x4
     else XReturn (-2) x4) = XReturn (if retry_ok then 0 else -2) x'
    /\ only_added (if retry_ok then [EvUmount target (xw_umount xw target)]
                   else []) x4 x') as (x' & Hend & Htr' & Hfds' & HL').
  { destruct retry_ok.
    - apply umount_then_return.
    - exists x4. split; [reflexivity|]. unfold only_added.
      rewrite app_nil_r. auto. }
  exists x'. split; [|split; [|split]].
  - unfold do_confirm_formated. cbv zeta. rewrite Hext4. xwhen_true.
    xstep_with (lift_mount_eq _ _ _ _ _ _ x false Hm1).
    change (negb (-1 =? 0)) with true. cbv iota.
    xstep_with (lift_make_ext4fs_eq (xw_base xw) dev 0 target
                  (xrecord (Old (EvMount dev target "ext4" flags options (-1)))
                     x) 0 Hmk).
    change (negb (0 =? 0)) with false. xwhen_false.
    fold x2.
    xstep_with Ho. xnorm. rewrite Hopen.
    xstep_with (lift_mount_eq _ _ _ _ _ _ x3 retry_ok Hm2').
    fold x4. destruct retry_ok.
    + change (negb (0 =? 0)) with false. xwhen_false.
      xstep_refl (xvalue (A:=Z) 0). change (0 =? 0) with true. xwhen_true.
      xnorm. exact Hend.
    + change (negb (-1 =? 0)) with true. exact Hend.
  - rewrite Htr'. unfold x4. cbn [xrecord x_trace]. rewrite Htr3.
    unfold x2. cbn [xrecord x_trace]. rewrite <- !app_assoc. reflexivity.
  - rewrite Hfds'. exact Hfds3.
  - rewrite HL'. exact HL3.
Qed.

Lemma confirm_formated_format_path_witness :
  exists x',
    do_confirm_formated (plain_xworld blank_disk_world 0 0 0)
      ["confirm_formated"; "ext4"; "/dev/block/data"; "/data"] bare_state
    = XReturn 0 x'
    /\ x_trace x'
       = [Old (EvMount "/dev/block/data" "/data" "ext4"
                 (Z.lor (Z.lor (Z.lor MS.NOATIME MS.NODIRATIME) MS.NOSUID)
                    MS.NODEV) (Some "noauto_da_alloc") (-1));
          Old (EvMakeExt4fs "/dev/block/data" 0 "/data" 0);
          Old (EvMount "/dev/block/data" "/data" "ext4"
                 (Z.lor (Z.lor (Z.lor MS.NOATIME MS.NODIRATIME) MS.NOSUID)
                    MS.NODEV) (Some "noauto_da_alloc") 0);
          EvUmount "/data" None]
    /\ x_fds x' = [(0, FPath "/dev/block/data")]
    /\ x_loops x' = [].
Proof.
  exact (confirm_formated_format_path (plain_xworld blank_disk_world 0 0 0)
           "confirm_formated" "ext4" "/dev/block/data" "/data" [] bare_state
           (FPath "/dev/block/data") true
           eq_refl eq_refl eq_refl eq_refl eq_refl).
Defined.

(** ** do_ubiattach *)

(** X16.  [ubiattach] returns 0 exactly when every step succeeds: the
    target is "mtd@" followed by a partition name that is known, libubi can
    be opened, ubi_get_info succeeds and reports a control device, and
    ubi_attach succeeds; otherwise it returns -1.  The libubi handle is
    released on every path: libubi_close is called exactly once when
    libubi_open succeeded, and never otherwise. *)
Theorem do_ubiattach_result xw c target rest x :
  let n := w_mtd (xw_base xw) (str_offset target 4) in
  let opened :=
    strncmp_eq target "mtd@" 4 && negb (n <? 0) && xw_libubi_open xw in
  let attached :=
    opened && (fst (xw_ubi_get_info xw) =? 0)
    && negb (snd (xw_ubi_get_info xw) =? -1)
    && (xw_ubi_attach xw DEFAULT_CTRL_DEV n =? 0) in
  exists x',
    do_ubiattach xw (c :: target :: rest) x
    = XReturn (if attached then 0 else -1) x'
    /\ count_xevents is_libubi_close (drop (length (x_trace x)) (x_trace x'))
       = (if opened then 1 else 0)%nat
    /\ x_fds x' = x_fds x.
Proof.
  intros n opened attached. subst attached opened.
  unfold do_ubiattach.
  destruct (strncmp_eq target "mtd@" 4) eqn:Hp; cbn [andb].
  2: { exists x. split; [reflexivity|]. split; [|reflexivity].
       rewrite drop_all. reflexivity. }
  xstep_with (lift_mtd_name_to_number (xw_base xw) (str_offset target 4) x).
  fold n. set (ev := Old (EvMtdNameToNumber (str_offset target 4) n)).
  destruct (n <? 0) eqn:Hn; cbn [negb andb].
  { eexists. split; [reflexivity|]. split; [|reflexivity].
    cbn [xrecord x_trace]. rewrite drop_app_length. reflexivity. }
  xwhen_false. xstep_refl (xvalue n).
  unfold libubi_open, ubi_get_info, ubi_attach, libubi_close, xemit.
  unfold xbind at 1.
  destruct (xw_libubi_open xw) eqn:Hopen; cbn [negb andb xwhen].
  2: { eexists. split; [reflexivity|]. split; [|reflexivity].
       cbn [xrecord x_trace]. rewrite <- !app_assoc, drop_app_length.
       reflexivity. }
  unfold xbind at 1. cbv beta iota. unfold xvalue at 1.
  unfold xbind at 1. cbv zeta beta iota.
  destruct (xw_ubi_get_info xw) as [err major]. cbn [fst snd].
  destruct (err =? 0) eqn:Herr; cbn [negb andb xwhen].
  2: { eexists. split; [reflexivity|]. split; [|reflexivity].
       cbn [xrecord x_trace]. rewrite <- !app_assoc, drop_app_length.
       reflexivity. }
  destruct (major =? -1) eqn:Hmajor; cbn [negb andb xwhen].
  { eexists. split; [reflexivity|]. split; [|reflexivity].
    cbn [xrecord x_trace]. rewrite <- !app_assoc, drop_app_length.
    reflexivity. }
  destruct (xw_ubi_attach xw DEFAULT_CTRL_DEV n =? 0) eqn:Hatt.
  - eexists. split; [cbv [xbind xvalue xreturn]; rewrite Hatt; reflexivity|].
    split; [|reflexivity].
    cbn [xrecord x_trace]. rewrite <- !app_assoc, drop_app_length.
    reflexivity.
  - eexists. split; [cbv [xbind xvalue xreturn]; rewrite Hatt; reflexivity|].
    split; [|reflexivity].
    cbn [xrecord x_trace]. rewrite <- !app_assoc, drop_app_length.
    reflexivity.
Qed.

(** ** __ifupdown *)

Lemma to_short_bits v i : 0 <= i < 16 -> Z.testbit (to_short v) i = Z.testbit v i.
Proof.
  intros Hi. unfold to_short.
  rewrite <- (Z.mod_pow2_bits_low (_ - _) 16 i) by lia.
  rewrite <- (Z.mod_pow2_bits_low v 16 i) by lia.
  f_equal. rewrite Zminus_mod, Z.mod_mod by lia.
  rewrite <- Zminus_mod. f_equal. lia.
Qed.

Lemma to_short_range v : - 2 ^ 15 <= to_short v < 2 ^ 15.
Proof.
  unfold to_short. pose proof (Z.mod_pos_bound (v + 2 ^ 15) (2 ^ 16)). lia.
Qed.

Lemma testbit_one i : 0 <= i -> Z.testbit 1 i = (i =? 0).
Proof.
  intros Hi. destruct (Z.eqb_spec i 0) as [->|Hne]; [reflexivity|].
  apply Z.bits_above_log2; simpl; lia.
Qed.

(** X17.  Bringing an interface up or down changes one flag only: the
    flags written back with SIOCSIFFLAGS have IFF_UP (bit 0) set for up and
    clear for down, every other of the 16 flag bits is as it was read, and
    the value fits the [short] it is stored in. *)
Theorem updown_flags_only_up up ifr_flags i :
  0 <= i < 16 ->
  Z.testbit (updown_flags up ifr_flags) i
  = (if i =? 0 then up else Z.testbit ifr_flags i)
  /\ - 2 ^ 15 <= updown_flags up ifr_flags < 2 ^ 15.
Proof.
  intros Hi. split.
  - unfold updown_flags, IFF_UP. destruct up; rewrite to_short_bits by exact Hi.
    + rewrite Z.lor_spec, testbit_one by lia.
      destruct (i =? 0); [apply orb_true_r|apply orb_false_r].
    + rewrite Z.land_spec, Z.lnot_spec, testbit_one by lia.
      destruct (i =? 0); [apply andb_false_r|apply andb_true_r].
  - unfold updown_flags. destruct up; apply to_short_range.
Qed.

Lemma updown_flags_only_up_witness :
  Z.testbit (updown_flags false 4163) 6
  = (if 6 =? 0 then false else Z.testbit 4163 6)
  /\ - 2 ^ 15 <= updown_flags false 4163 < 2 ^ 15.
Proof. apply updown_flags_only_up. lia. Defined.

Lemma substring_length n s : (String.length (String.substring 0 n s) <= n)%nat.
Proof.
  revert s. induction n as [|n IH]; intros [|c s]; simpl; try lia.
  specialize (IH s). lia.
Qed.

(** X18.  [__ifupdown] closes its socket on every path: whether the socket
    cannot be made, reading the flags fails, or the flags are written, the
    descriptor table is afterwards what it was.  The interface is named to
    the kernel by at most IFNAMSIZ - 1 characters; the flags are written
    only after they were read, and the call returns 0 exactly when both
    ioctls succeed, and -1 otherwise. *)
Theorem ifupdown_closes_socket xw interface up x :
  let name := strlcpy interface IFNAMSIZ in
  let events :=
    if xw_socket xw then
      match xw_get_flags xw name with
      | Ok flags =>
          [EvGetFlags name (Ok flags);
           EvSetFlags name (updown_flags up flags)
             (xw_set_flags xw name (updown_flags up flags))]
      | Err e => [EvGetFlags name (Err e)]
      end
    else [] in
  let ok :=
    xw_socket xw
    && match xw_get_flags xw name with
       | Ok flags =>
           bool_decide (xw_set_flags xw name (updown_flags up flags) = None)
       | Err _ => false
       end in
  (String.length name <= 15)%nat
  /\ exists x',
      call (__ifupdown xw interface up) x = XValue (if ok then 0 else -1) x'
      /\ only_added events x x'.
Proof.
  intros name events ok. split; [apply substring_length|].
  subst events ok. unfold __ifupdown. cbv zeta. fold name.
  destruct (xw_socket xw) eqn:Hs; cbn [andb].
  2: { eexists. split.
       - apply call_return. unfold socket. rewrite Hs. reflexivity.
       - unfold only_added. cbn [with_errno x_trace x_fds x_loops].
         rewrite app_nil_r. auto. }
  assert (socket xw x = XValue (alloc_fd (x_fds x)) (with_fd inet_socket x))
    as Hsock by (unfold socket; rewrite Hs; reflexivity).
  assert ((alloc_fd (x_fds x) <? 0) = false) as Hpos
    by apply Z.ltb_ge, alloc_fd_nonneg.
  assert (fd_lookup (x_fds (with_fd inet_socket x)) (alloc_fd (x_fds x))
          = Some inet_socket) as Hfd
    by (unfold with_fd; cbn [x_fds fd_lookup]; rewrite Z.eqb_refl; reflexivity).
  destruct (xw_get_flags xw name) as [flags|e] eqn:Hget.
  - destruct (xw_set_flags xw name (updown_flags up flags)) as [e|] eqn:Hset.
    + eexists. split.
      * apply call_return. xstep_with Hsock. rewrite Hpos. xwhen_false.
        unfold ioctl_SIOCGIFFLAGS, ioctl_SIOCSIFFLAGS.
        unfold xbind at 1. rewrite Hfd, Hget.
        unfold xbind at 1. cbn [xrecord with_fd x_fds fd_lookup].
        rewrite Z.eqb_refl, Hset. unfold answered_failure.
        cbn [xrecord with_errno x_trace x_fds x_loops x_errno].
        xstep_with (lift_close_opened inet_socket
                      ((x_trace x ++ [EvGetFlags name (Ok flags)])
                       ++ [EvSetFlags name (updown_flags up flags) (Some e)])
                      (x_fds x) (x_loops x) e).
        rewrite bool_decide_eq_false_2 by discriminate. reflexivity.
      * unfold only_added. cbn [x_trace x_fds x_loops].
        rewrite <- app_assoc. auto.
    + eexists. split.
      * apply call_return. xstep_with Hsock. rewrite Hpos. xwhen_false.
        unfold ioctl_SIOCGIFFLAGS, ioctl_SIOCSIFFLAGS.
        unfold xbind at 1. rewrite Hfd, Hget.
        unfold xbind at 1. cbn [xrecord with_fd x_fds fd_lookup].
        rewrite Z.eqb_refl, Hset. unfold answered_failure.
        cbn [xrecord with_errno x_trace x_fds x_loops x_errno].
        xstep_with (lift_close_opened inet_socket
                      ((x_trace x ++ [EvGetFlags name (Ok flags)])
                       ++ [EvSetFlags name (updown_flags up flags) None])
                      (x_fds x) (x_loops x) (x_errno x)).
        rewrite bool_decide_eq_true_2 by reflexivity. reflexivity.
      * unfold only_added. cbn [x_trace x_fds x_loops].
        rewrite <- app_assoc. auto.
  - eexists. split.
    + apply call_return. xstep_with Hsock. rewrite Hpos. xwhen_false.
      unfold ioctl_SIOCGIFFLAGS.
      unfold xbind at 1. rewrite Hfd, Hget.
      cbn [xrecord with_errno with_fd x_trace x_fds x_loops x_errno].
      xstep_with (lift_close_opened inet_socket
                    (x_trace x ++ [EvGetFlags name (Err e)])
                    (x_fds x) (x_loops x) e).
      reflexivity.
    + unfold only_added. cbn [x_trace x_fds x_loops]. auto.
Qed.

(** ** do_insmod *)













(** ** do_mkdir *)

Lemma call_chmod_opened xw path mode y f :
  opened_file xw y path = Some f ->
  exists y',
    call (_chmod xw path mode) y
    = XValue (match xw_fchmod xw f mode with None => 0 | Some _ => -1 end) y'
    /\ only_added [EvFchmod f mode (xw_fchmod xw f mode)] y y'
    /\ (forall e, xw_fchmod xw f mode = Some e -> x_errno y' = e).
Proof.
  intros Hf.
  destruct (call_chmod_eq xw path mode y) as (y0 & (Htr & Hfds & HL) & Hc).
  rewrite app_nil_r in Htr. rewrite Hf in Hc. unfold after_call in Hc.
  destruct (xw_fchmod xw f mode) as [e|]; eexists; (split; [exact Hc|]);
    unfold only_added; cbn [xextend with_errno x_trace x_fds x_loops x_errno];
    rewrite Htr, Hfds, HL; repeat split; congruence.
Qed.

Lemma call_chown_opened xw path uid gid y f :
  opened_file xw y path = Some f ->
  exists y',
    call (_chown xw path uid gid) y
    = XValue (match xw_fchown xw f uid gid with None => 0 | Some _ => -1 end) y'
    /\ only_added [EvFchown f uid gid (xw_fchown xw f uid gid)] y y'
    /\ (forall e, xw_fchown xw f uid gid = Some e -> x_errno y' = e).
Proof.
  intros Hf.
  destruct (call_chown_eq xw path uid gid y) as (y0 & (Htr & Hfds & HL) & Hc).
  rewrite app_nil_r in Htr. rewrite Hf in Hc. unfold after_call in Hc.
  destruct (xw_fchown xw f uid gid) as [e|]; eexists; (split; [exact Hc|]);
    unfold only_added; cbn [xextend with_errno x_trace x_fds x_loops x_errno];
    rewrite Htr, Hfds, HL; repeat split; congruence.
Qed.

(** Which file a path is opened on depends on the loop devices only. *)
Lemma opened_file_loops xw x y path :
  x_loops y = x_loops x -> opened_file xw y path = opened_file xw x path.
Proof.
  intros H. unfold opened_file, resolve_path, loop_of_path, to_state.
  cbn [st_loops]. rewrite H. reflexivity.
Qed.

Lemma only_added_trans evs1 evs2 x y z :
  only_added evs1 x y -> only_added evs2 y z -> only_added (evs1 ++ evs2) x z.
Proof.
  unfold only_added. intros (H1 & H2 & H3) (H4 & H5 & H6).
  rewrite H4, H1, H5, H2, H6, H3, app_assoc. auto.
Qed.

(** X20.  [mkdir] on a directory that exists already resets its mode: when
    make_dir fails with EEXIST the directory is opened and fchmod is called
    with the mode of the command (0755 when none is given).  If that
    fchmod fails, the built-in returns its errno negated, whatever
    arguments follow.  If it succeeds and no owner is given, the built-in
    returns 0.  If it succeeds and an owner is given, the built-in goes on
    as for a new directory: one fchown, whose errno is returned negated
    when it fails, and after a successful fchown one more fchmod exactly
    when the mode has the setuid or the setgid bit. *)
Theorem do_mkdir_existing xw c path more x f :
  let mode := match more with
              | mode_string :: _ =>
                  to_mode_t (mode_bits xw) (xw_strtoul xw mode_string 8)
              | [] => 493
              end in
  let reset := [EvMakeDir path mode (Some EEXIST);
                EvFchmod f mode (xw_fchmod xw f mode)] in
  xw_make_dir xw path mode = Some EEXIST ->
  opened_file xw x path = Some f ->
  (forall e, xw_fchmod xw f mode = Some e ->
     exists x',
       do_mkdir xw (c :: path :: more) x = XReturn (- e) x'
       /\ only_added reset x x')
  /\ (xw_fchmod xw f mode = None -> (length more <= 1)%nat ->
      exists x',
        do_mkdir xw (c :: path :: more) x = XReturn 0 x'
        /\ only_added reset x x')
  /\ (xw_fchmod xw f mode = None ->
      forall mode_string owner groups,
        more = mode_string :: owner :: groups ->
        let uid := xw_decode_uid xw owner in
        let gid := match groups with
                   | [group] => xw_decode_uid xw group
                   | _ => no_id
                   end in
        let setid := negb (Z.land mode (Z.lor S_ISUID S_ISGID) =? 0) in
        exists x',
          do_mkdir xw (c :: path :: more) x
          = XReturn (match xw_fchown xw f uid gid with
                     | Some e => - e
                     | None => 0
                     end) x'
          /\ only_added
               (reset ++ [EvFchown f uid gid (xw_fchown xw f uid gid)]
                ++ match xw_fchown xw f uid gid with
                   | None => if setid then [EvFchmod f mode None] else []
                   | Some _ => []
                   end) x x').
Proof.
  intros mode reset Hmk Hf.
  set (x1 := with_errno EEXIST (xrecord (EvMakeDir path mode (Some EEXIST)) x)).
  assert (make_dir xw path mode x = XValue (-1) x1) as Hstep
    by (unfold make_dir; cbv zeta; rewrite Hmk; reflexivity).
  destruct (call_chmod_opened xw path mode x1 f) as (x2 & Hc & Hadd & Herr).
  { rewrite (opened_file_loops xw x x1) by reflexivity. exact Hf. }
  assert (only_added reset x x2) as Hreset.
  { apply (only_added_trans [EvMakeDir path mode (Some EEXIST)] _ x x1 x2);
      [|exact Hadd].
    unfold only_added, x1. cbn [with_errno xrecord x_trace x_fds x_loops].
    auto. }
  assert (forall k : Z -> X unit,
            xbind (make_dir xw path mode)
              (fun ret => xbind xget_errno (fun errno =>
                 xbind (if (ret =? -1) && (errno =? EEXIST)
                        then call (_chmod xw path mode) else xvalue ret) k)) x
            = k (match xw_fchmod xw f mode with None => 0 | Some _ => -1 end)
                x2) as Hhead.
  { intros k. xstep_with Hstep. xstep_refl xget_errno.
    change ((-1 =? -1) && (x_errno x1 =? EEXIST)) with true. cbv iota.
    xstep_with Hc. reflexivity. }
  split; [|split].
  - intros e He. exists x2. split; [|exact Hreset].
    unfold do_mkdir. fold mode. rewrite Hhead, He.
    change (-1 =? -1) with true. xwhen_true. xstep_refl xget_errno.
    rewrite (Herr e He). reflexivity.
  - intros Hok Hlen. exists x2. split; [|exact Hreset].
    unfold do_mkdir. fold mode. rewrite Hhead, Hok.
    change (0 =? -1) with false. xwhen_false.
    destruct more as [|m [|m' more]]; [reflexivity|reflexivity|].
    simpl in Hlen. lia.
  - intros Hok mode_string owner groups Hmore uid gid setid.
    destruct (call_chown_opened xw path uid gid x2 f) as (x3 & Ho & Hadd3 & Herr3).
    { rewrite (opened_file_loops xw x x2) by apply Hreset. exact Hf. }
    assert (only_added (reset ++ [EvFchown f uid gid (xw_fchown xw f uid gid)])
              x x3) as Hown
      by (apply (only_added_trans _ _ x x2 x3); assumption).
    destruct (call_chmod_opened xw path mode x3 f) as (x4 & Hm & Hadd4 & _).
    { rewrite (opened_file_loops xw x x3) by apply Hown. exact Hf. }
    rewrite Hok in Hm, Hadd4.
    exists (match xw_fchown xw f uid gid with
            | None => if setid then x4 else x3
            | Some _ => x3
            end).
    split.
    + unfold do_mkdir. fold mode. rewrite Hhead, Hok.
      change (0 =? -1) with false. xwhen_false.
      rewrite Hmore. fold uid gid. xstep_with Ho.
      destruct (xw_fchown xw f uid gid) as [e|].
      * change (-1 <? 0) with true. xwhen_true. xstep_refl xget_errno.
        rewrite (Herr3 e eq_refl). reflexivity.
      * change (0 <? 0) with false. xwhen_false.
        fold mode. fold setid. destruct setid.
        -- xwhen_true. xstep_with Hm. reflexivity.
        -- reflexivity.
    + destruct (xw_fchown xw f uid gid) as [e|].
      * rewrite app_nil_r. exact Hown.
      * destruct setid.
        -- rewrite app_assoc.
           apply (only_added_trans _ _ x x3 x4); assumption.
        -- rewrite app_nil_r. exact Hown.
Qed.

Lemma do_mkdir_existing_witness :
  (exists x',
     do_mkdir (mkdir_xworld (Some EEXIST))
       ["mkdir"; "/data/fs.img"; "0771"] bare_state
     = XReturn 0 x'
     /\ only_added [EvMakeDir "/data/fs.img" 505 (Some EEXIST);
                    EvFchmod (FPath "/data/fs.img") 505 None] bare_state x')
  /\ (exists x',
     do_mkdir (mkdir_xworld (Some EEXIST))
       ["mkdir"; "/data/fs.img"; "2771"; "system"; "cache"] bare_state
     = XReturn 0 x'
     /\ only_added [EvMakeDir "/data/fs.img" 1529 (Some EEXIST);
                    EvFchmod (FPath "/data/fs.img") 1529 None;
                    EvFchown (FPath "/data/fs.img") 1000 1000 None;
                    EvFchmod (FPath "/data/fs.img") 1529 None] bare_state x').
Proof.
  split.
  - apply (proj1 (proj2 (do_mkdir_existing (mkdir_xworld (Some EEXIST))
                           "mkdir" "/data/fs.img" ["0771"] bare_state
                           (FPath "/data/fs.img") eq_refl eq_refl)));
      [reflexivity|simpl; lia].
  - exact (proj2 (proj2 (do_mkdir_existing (mkdir_xworld (Some EEXIST))
                           "mkdir" "/data/fs.img" ["2771"; "system"; "cache"]
                           bare_state (FPath "/data/fs.img") eq_refl eq_refl))
             eq_refl "2771" "system" ["cache"] eq_refl).
Defined.

(** X21.  Any other failure of make_dir ends [mkdir]: with an errno other
    than EEXIST the built-in returns that errno negated, and neither the
    mode nor the owner of the path is touched, whatever arguments
    follow. *)
Theorem do_mkdir_failure xw c path more x e :
  let mode := match more with
              | mode_string :: _ =>
                  to_mode_t (mode_bits xw) (xw_strtoul xw mode_string 8)
              | [] => 493
              end in
  xw_make_dir xw path mode = Some e ->
  e <> EEXIST ->
  do_mkdir xw (c :: path :: more) x
  = XReturn (- e) (with_errno e (xextend [EvMakeDir path mode (Some e)] x)).
Proof.
  intros mode Hmk Hne.
  assert (make_dir xw path mode x
          = XValue (-1) (with_errno e (xrecord (EvMakeDir path mode (Some e)) x)))
    as Hstep by (unfold make_dir; cbv zeta; rewrite Hmk; reflexivity).
  unfold do_mkdir. fold mode.
  xstep_with Hstep. xstep_refl xget_errno.
  cbn [with_errno x_errno].
  replace (e =? EEXIST) with false by (symmetry; apply Z.eqb_neq, Hne).
  change ((-1 =? -1) && false) with false. cbv iota.
  xstep_refl (xvalue (A:=Z) (-1)).
  change (-1 =? -1) with true. xwhen_true. xstep_refl xget_errno.
  reflexivity.
Qed.

Lemma do_mkdir_failure_witness :
  do_mkdir (mkdir_xworld (Some ENOENT))
    ["mkdir"; "/data/misc/wifi"; "0770"; "wifi"; "wifi"] bare_state
  = XReturn (- ENOENT)
      (with_errno ENOENT
         (xextend [EvMakeDir "/data/misc/wifi" 504 (Some ENOENT)] bare_state)).
Proof.
  apply (do_mkdir_failure (mkdir_xworld (Some ENOENT)) "mkdir"
           "/data/misc/wifi" ["0770"; "wifi"; "wifi"] bare_state ENOENT
           eq_refl).
  discriminate.
Defined.

(** X22.  The owner of a new directory: with an owner argument [mkdir]
    calls fchown once, with the group of the fifth argument only when there
    are exactly five arguments and (gid_t)-1 otherwise, so that a sixth
    argument makes the group be ignored.  Since the chown may have cleared
    them, the mode is set once more with fchmod exactly when it has the
    setuid or the setgid bit, and only the result of that fchmod can still
    fail the call. *)
Theorem do_mkdir_owner xw c path mode_string owner groups x f :
  let mode := to_mode_t (mode_bits xw) (xw_strtoul xw mode_string 8) in
  let uid := xw_decode_uid xw owner in
  let gid := match groups with
             | [group] => xw_decode_uid xw group
             | _ => no_id
             end in
  let setid := negb (Z.land mode (Z.lor S_ISUID S_ISGID) =? 0) in
  xw_make_dir xw path mode = None ->
  opened_file xw x path = Some f ->
  xw_fchown xw f uid gid = None ->
  exists x',
    do_mkdir xw (c :: path :: mode_string :: owner :: groups) x
    = XReturn (if setid
               then match xw_fchmod xw f mode with
                    | None => 0
                    | Some e => - e
                    end
               else 0) x'
    /\ only_added ([EvMakeDir path mode None; EvFchown f uid gid None]
                   ++ (if setid then [EvFchmod f mode (xw_fchmod xw f mode)]
                       else [])) x x'.
Proof.
  intros mode uid gid setid Hmk Hf Hown.
  set (x1 := xrecord (EvMakeDir path mode None) x).
  assert (make_dir xw path mode x = XValue 0 x1) as Hstep
    by (unfold make_dir; cbv zeta; rewrite Hmk; reflexivity).
  destruct (call_chown_opened xw path uid gid x1 f) as (x2 & Hc & Hadd & _).
  { rewrite (opened_file_loops xw x x1) by reflexivity. exact Hf. }
  rewrite Hown in Hc, Hadd.
  assert (only_added [EvMakeDir path mode None; EvFchown f uid gid None] x x2)
    as Hadd2.
  { apply (only_added_trans [EvMakeDir path mode None] _ x x1 x2);
      [|exact Hadd].
    unfold only_added, x1. cbn [xrecord x_trace x_fds x_loops]. auto. }
  destruct (call_chmod_opened xw path mode x2 f) as (x3 & Hm & Hadd3 & Herr).
  { rewrite (opened_file_loops xw x x2) by apply Hadd2. exact Hf. }
  exists (if setid then x3 else x2). split.
  - unfold do_mkdir. fold mode.
    xstep_with Hstep. xstep_refl xget_errno.
    change ((0 =? -1) && (x_errno x1 =? EEXIST)) with false. cbv iota.
    xstep_refl (xvalue (A:=Z) 0).
    change (0 =? -1) with false. xwhen_false.
    fold uid gid. xstep_with Hc. change (0 <? 0) with false. xwhen_false.
    fold setid. destruct setid.
    + xwhen_true. xstep_with Hm.
      destruct (xw_fchmod xw f mode) as [e|].
      * change (-1 =? -1) with true. unfold xwhen. xstep_refl xget_errno.
        rewrite (Herr e eq_refl). reflexivity.
      * reflexivity.
    + reflexivity.
  - destruct setid.
    + apply (only_added_trans _ _ x x2 x3); assumption.
    + rewrite app_nil_r. exact Hadd2.
Qed.

Lemma do_mkdir_owner_witness :
  exists x',
    do_mkdir (mkdir_xworld None)
      ["mkdir"; "/data/fs.img"; "2770"; "system"; "cache"; "extra"] bare_state
    = XReturn 0 x'
    /\ only_added [EvMakeDir "/data/fs.img" 1528 None;
                   EvFchown (FPath "/data/fs.img") 1000 no_id None;
                   EvFchmod (FPath "/data/fs.img") 1528 None] bare_state x'.
Proof.
  exact (do_mkdir_owner (mkdir_xworld None) "mkdir" "/data/fs.img" "2770"
           "system" ["cache"; "extra"] bare_state (FPath "/data/fs.img")
           eq_refl eq_refl eq_refl).
Defined.
